(** * Flight dynamics engine: [FlightPhysics.update] of src/utils/flightPhysics.ts

    A shallow embedding of the per-frame state transition of the aircraft.

    Numbers.  A TypeScript [number] is modelled as an exact rational [Q]:
    every sum, product, comparison, [Math.min], [Math.max] and [Math.abs]
    of the source is the exact operation, without rounding, overflow or
    NaN.  Two numbers are the same value when they are [Qeq] ([==]).
    [Math.PI] is the rational that the IEEE double [3.141592653589793]
    denotes.  [Math.sin] and [Math.cos], reached through three.js when the
    forward vector is rotated, are parameters of the development.  The
    throttle ramp is also run on binary64 numbers, where landing on 1.0
    depends on rounding.

    Effects.  [update] mutates the [FlightPhysics] object and one field of
    the caller's control record; the model passes both explicitly and
    returns the pair of the new state and the new control record.

    Where the two number systems part.  Rounding is left out, the
    throttle ramp apart.  Overflow cannot be: with a long time slice a
    call takes a smoothed input and the angular velocity beyond the
    largest double, Infinity times a damping factor of 0 is NaN, and
    [Math.min] and [Math.max] keep NaN, so that rotation, position and
    lift end as NaN, within no bound.  Module [Binary64] writes [update]
    a second time, on doubles, and runs it there.  What is said below of
    rotation, position, lift and the smoothed inputs over a whole run is
    therefore said of the states of the animation loop, whose time slice
    of 0.016 keeps every quantity far inside the range of the doubles;
    throttle, speed and the flags, which overflow does not reach, are
    followed over calls with any time slice.

    The host.  The simulator component that owns the object is modelled
    as far as it feeds and reads the physics: the key handlers that write
    the control record, the pointer handlers that write the camera
    record, the frame of the animation loop with its time slice 0.016,
    and the propeller, oscillator and camera values the frame derives
    from the state.  The frame calls [update] once the aircraft mesh
    exists, which the model takes for granted; rendering, the audio
    graph and the scene construction, with its random placement, are
    left out. *)

From Stdlib Require Import ZArith QArith Qminmax Qabs Lqa Bool List Lia.
From Stdlib Require Import String.
From Stdlib Require Floats.
Import ListNotations.

Local Open Scope Q_scope.

(* ------------------------------------------------------------------ *)
(** ** Comparisons of the source, as boolean tests *)

(** [a < b] of the source. *)
Definition Qltb (a b : Q) : bool := negb (Qle_bool b a).

(** [a <= b] of the source. *)
Definition Qleb (a b : Q) : bool := Qle_bool a b.

(** [a > b] of the source. *)
Definition Qgtb (a b : Q) : bool := Qltb b a.

(** [Math.PI], the double nearest to pi. *)
Definition Math_PI : Q := 884279719003555 # 281474976710656.

(* ------------------------------------------------------------------ *)
(** ** Data model *)

(** [THREE.Vector3]. *)
Module Vector3.
Record t : Set := mk { x : Q; y : Q; z : Q }.
Definition set_x (v : Q) (p : t) : t := mk v (y p) (z p).
Definition set_y (v : Q) (p : t) : t := mk (x p) v (z p).
Definition set_z (v : Q) (p : t) : t := mk (x p) (y p) v.
End Vector3.

(** [THREE.Euler], in the default order XYZ: x is pitch, y is yaw, z is
    roll. *)
Module Euler.
Record t : Set := mk { x : Q; y : Q; z : Q }.
Definition set_x (v : Q) (e : t) : t := mk v (y e) (z e).
Definition set_y (v : Q) (e : t) : t := mk (x e) v (z e).
Definition set_z (v : Q) (e : t) : t := mk (x e) (y e) v.
End Euler.

(** [interface FlightControls]: nine boolean flags. *)
Module FlightControls.
Record t : Set := mk {
  throttle : bool;
  brake : bool;
  left : bool;
  right : bool;
  pitchUp : bool;
  pitchDown : bool;
  yawLeft : bool;
  yawRight : bool;
  landingGear : bool
}.
Definition set_landingGear (b : bool) (c : t) : t :=
  mk (throttle c) (brake c) (left c) (right c) (pitchUp c) (pitchDown c)
     (yawLeft c) (yawRight c) b.
End FlightControls.

(** The fields of [class FlightPhysics]. *)
Record FlightPhysics : Set := mkFlightPhysics {
  throttle : Q;
  speed : Q;
  position : Vector3.t;
  rotation : Euler.t;
  lift : Q;
  drag : Q;
  isGearDown : bool;
  isOnRunway : bool;
  isStalling : bool;
  stallSpeed : Q;
  pitchInput : Q;
  rollInput : Q;
  yawInput : Q;
  pitchTrim : Q;
  rollTrim : Q;
  angularVelocity : Vector3.t
}.

(** Field assignments [this.f = v]. *)
Definition set_throttle (v : Q) (s : FlightPhysics) : FlightPhysics :=
  mkFlightPhysics v (speed s) (position s) (rotation s) (lift s) (drag s)
    (isGearDown s) (isOnRunway s) (isStalling s) (stallSpeed s)
    (pitchInput s) (rollInput s) (yawInput s) (pitchTrim s) (rollTrim s)
    (angularVelocity s).
Definition set_speed (v : Q) (s : FlightPhysics) : FlightPhysics :=
  mkFlightPhysics (throttle s) v (position s) (rotation s) (lift s) (drag s)
    (isGearDown s) (isOnRunway s) (isStalling s) (stallSpeed s)
    (pitchInput s) (rollInput s) (yawInput s) (pitchTrim s) (rollTrim s)
    (angularVelocity s).
Definition set_position (v : Vector3.t) (s : FlightPhysics) : FlightPhysics :=
  mkFlightPhysics (throttle s) (speed s) v (rotation s) (lift s) (drag s)
    (isGearDown s) (isOnRunway s) (isStalling s) (stallSpeed s)
    (pitchInput s) (rollInput s) (yawInput s) (pitchTrim s) (rollTrim s)
    (angularVelocity s).
Definition set_rotation (v : Euler.t) (s : FlightPhysics) : FlightPhysics :=
  mkFlightPhysics (throttle s) (speed s) (position s) v (lift s) (drag s)
    (isGearDown s) (isOnRunway s) (isStalling s) (stallSpeed s)
    (pitchInput s) (rollInput s) (yawInput s) (pitchTrim s) (rollTrim s)
    (angularVelocity s).
Definition set_lift (v : Q) (s : FlightPhysics) : FlightPhysics :=
  mkFlightPhysics (throttle s) (speed s) (position s) (rotation s) v (drag s)
    (isGearDown s) (isOnRunway s) (isStalling s) (stallSpeed s)
    (pitchInput s) (rollInput s) (yawInput s) (pitchTrim s) (rollTrim s)
    (angularVelocity s).
Definition set_drag (v : Q) (s : FlightPhysics) : FlightPhysics :=
  mkFlightPhysics (throttle s) (speed s) (position s) (rotation s) (lift s) v
    (isGearDown s) (isOnRunway s) (isStalling s) (stallSpeed s)
    (pitchInput s) (rollInput s) (yawInput s) (pitchTrim s) (rollTrim s)
    (angularVelocity s).
Definition set_isGearDown (v : bool) (s : FlightPhysics) : FlightPhysics :=
  mkFlightPhysics (throttle s) (speed s) (position s) (rotation s) (lift s)
    (drag s) v (isOnRunway s) (isStalling s) (stallSpeed s)
    (pitchInput s) (rollInput s) (yawInput s) (pitchTrim s) (rollTrim s)
    (angularVelocity s).
Definition set_isOnRunway (v : bool) (s : FlightPhysics) : FlightPhysics :=
  mkFlightPhysics (throttle s) (speed s) (position s) (rotation s) (lift s)
    (drag s) (isGearDown s) v (isStalling s) (stallSpeed s)
    (pitchInput s) (rollInput s) (yawInput s) (pitchTrim s) (rollTrim s)
    (angularVelocity s).
Definition set_isStalling (v : bool) (s : FlightPhysics) : FlightPhysics :=
  mkFlightPhysics (throttle s) (speed s) (position s) (rotation s) (lift s)
    (drag s) (isGearDown s) (isOnRunway s) v (stallSpeed s)
    (pitchInput s) (rollInput s) (yawInput s) (pitchTrim s) (rollTrim s)
    (angularVelocity s).
Definition set_pitchInput (v : Q) (s : FlightPhysics) : FlightPhysics :=
  mkFlightPhysics (throttle s) (speed s) (position s) (rotation s) (lift s)
    (drag s) (isGearDown s) (isOnRunway s) (isStalling s) (stallSpeed s)
    v (rollInput s) (yawInput s) (pitchTrim s) (rollTrim s)
    (angularVelocity s).
Definition set_rollInput (v : Q) (s : FlightPhysics) : FlightPhysics :=
  mkFlightPhysics (throttle s) (speed s) (position s) (rotation s) (lift s)
    (drag s) (isGearDown s) (isOnRunway s) (isStalling s) (stallSpeed s)
    (pitchInput s) v (yawInput s) (pitchTrim s) (rollTrim s)
    (angularVelocity s).
Definition set_yawInput (v : Q) (s : FlightPhysics) : FlightPhysics :=
  mkFlightPhysics (throttle s) (speed s) (position s) (rotation s) (lift s)
    (drag s) (isGearDown s) (isOnRunway s) (isStalling s) (stallSpeed s)
    (pitchInput s) (rollInput s) v (pitchTrim s) (rollTrim s)
    (angularVelocity s).
Definition set_pitchTrim (v : Q) (s : FlightPhysics) : FlightPhysics :=
  mkFlightPhysics (throttle s) (speed s) (position s) (rotation s) (lift s)
    (drag s) (isGearDown s) (isOnRunway s) (isStalling s) (stallSpeed s)
    (pitchInput s) (rollInput s) (yawInput s) v (rollTrim s)
    (angularVelocity s).
Definition set_rollTrim (v : Q) (s : FlightPhysics) : FlightPhysics :=
  mkFlightPhysics (throttle s) (speed s) (position s) (rotation s) (lift s)
    (drag s) (isGearDown s) (isOnRunway s) (isStalling s) (stallSpeed s)
    (pitchInput s) (rollInput s) (yawInput s) (pitchTrim s) v
    (angularVelocity s).
Definition set_angularVelocity (v : Vector3.t) (s : FlightPhysics)
  : FlightPhysics :=
  mkFlightPhysics (throttle s) (speed s) (position s) (rotation s) (lift s)
    (drag s) (isGearDown s) (isOnRunway s) (isStalling s) (stallSpeed s)
    (pitchInput s) (rollInput s) (yawInput s) (pitchTrim s) (rollTrim s) v.

(** The state built by the field initialisers and the constructor:
    position (0, 0.8, -50), everything else zero, gear down. *)
Definition constructor : FlightPhysics :=
  mkFlightPhysics 0 0 (Vector3.mk 0 0.8 (-50)) (Euler.mk 0 0 0) 0 0
    true false false 0.3 0 0 0 0 0 (Vector3.mk 0 0 0).

(** Compound assignments on the components of [this.position] and
    [this.angularVelocity] and [this.rotation]. *)
Definition set_position_x (v : Q) (s : FlightPhysics) : FlightPhysics :=
  set_position (Vector3.set_x v (position s)) s.
Definition set_position_y (v : Q) (s : FlightPhysics) : FlightPhysics :=
  set_position (Vector3.set_y v (position s)) s.
Definition set_position_z (v : Q) (s : FlightPhysics) : FlightPhysics :=
  set_position (Vector3.set_z v (position s)) s.
Definition set_angularVelocity_x (v : Q) (s : FlightPhysics) : FlightPhysics :=
  set_angularVelocity (Vector3.set_x v (angularVelocity s)) s.
Definition set_angularVelocity_y (v : Q) (s : FlightPhysics) : FlightPhysics :=
  set_angularVelocity (Vector3.set_y v (angularVelocity s)) s.
Definition set_angularVelocity_z (v : Q) (s : FlightPhysics) : FlightPhysics :=
  set_angularVelocity (Vector3.set_z v (angularVelocity s)) s.
Definition set_rotation_x (v : Q) (s : FlightPhysics) : FlightPhysics :=
  set_rotation (Euler.set_x v (rotation s)) s.
Definition set_rotation_y (v : Q) (s : FlightPhysics) : FlightPhysics :=
  set_rotation (Euler.set_y v (rotation s)) s.
Definition set_rotation_z (v : Q) (s : FlightPhysics) : FlightPhysics :=
  set_rotation (Euler.set_z v (rotation s)) s.

(* ------------------------------------------------------------------ *)
(** ** Constants of [update] *)

Definition maxSpeed : Q := 3.5.
Definition deceleration : Q := 0.12.
Definition groundHeight : Q := 0.8.
Definition liftCoefficient : Q := 0.3.
Definition dragCoefficient : Q := 0.08.
Definition takeoffSpeed : Q := 0.8.
Definition baseGravity : Q := 0.3.
Definition minimumHeight : Q := 0.5.
Definition groundAttitude : Q := 0.08.
Definition controlSmoothingFactor : Q := 15.
Definition controlSensitivity : Q := 1.
Definition minControlSpeed : Q := 0.1.
Definition dampingFactor : Q := 2.8.

(* ------------------------------------------------------------------ *)
(** ** The stages of [update], in the order of the source *)

(** Lines 48-54: throttle controls. *)
Definition throttle_stage (controls : FlightControls.t) (deltaTime : Q)
    (this : FlightPhysics) : FlightPhysics :=
  let this :=
    if FlightControls.throttle controls
    then set_throttle (Qmin (throttle this + 0.5 * deltaTime) 1) this
    else this in
  if FlightControls.brake controls
  then set_throttle (Qmax (throttle this - 0.5 * deltaTime) 0) this
  else this.

(** Lines 56-71: speed from throttle, then the stored drag is applied. *)
Definition speed_stage (deltaTime : Q) (this : FlightPhysics)
  : FlightPhysics :=
  let acceleration := throttle this * maxSpeed * 1 in
  let this :=
    if Qgtb (throttle this) 0
    then set_speed (Qmin (speed this + acceleration * deltaTime)
                         (maxSpeed * throttle this)) this
    else set_speed (Qmax (speed this - deceleration * deltaTime) 0) this in
  set_speed (Qmax (speed this - drag this * deltaTime) 0) this.

(** Lines 73-77: the runway test. *)
Definition onRunway (p : Vector3.t) : bool :=
  let runwayZ :=
    Qltb (Qabs (Vector3.z p)) 100 && Qltb (Qabs (Vector3.x p)) 25 in
  runwayZ && Qleb (Vector3.y p) (groundHeight + 0.1).

(** Lines 73-81: runway and stall flags. *)
Definition stall_stage (this : FlightPhysics) : FlightPhysics :=
  let this := set_isOnRunway (onRunway (position this)) this in
  set_isStalling
    (Qltb (speed this) (stallSpeed this) && negb (isOnRunway this)
     && Qgtb (Vector3.y (position this)) 2) this.

(** Lines 96-106: the angle of attack against lift curve. *)
Definition angleOfAttackEffect (angleOfAttack : Q) : Q :=
  if Qltb angleOfAttack (-0.3) then 0.2
  else if Qleb angleOfAttack 0.35 then 1 + angleOfAttack * 3
  else 2 - (angleOfAttack - 0.35) * 2.

(** Lines 83-117: drag and lift. *)
Definition aero_stage (this : FlightPhysics) : FlightPhysics :=
  let this := set_drag (speed this * speed this * dragCoefficient) this in
  let angleOfAttack := Euler.x (rotation this) in
  let speedFactor := speed this * speed this in
  let baseLift :=
    speedFactor * liftCoefficient
    * Qmax 0.1 (angleOfAttackEffect angleOfAttack) in
  if isStalling this
  then set_lift (baseLift * 0.2) this
  else set_lift baseLift this.

(** Lines 119-136: lift and gravity on the altitude.  Here the lift is
    always a number; on doubles a NaN lift makes the altitude NaN, and
    the later tests on the altitude are then both false. *)
Definition vertical_stage (deltaTime : Q) (this : FlightPhysics)
  : FlightPhysics :=
  let this :=
    if Qgtb (speed this) takeoffSpeed then
      let liftForce := lift this * deltaTime in
      set_position_y (Vector3.y (position this) + liftForce) this
    else if Qgtb (speed this) 0.4 then
      let partialLift :=
        lift this * deltaTime * (speed this / takeoffSpeed) in
      set_position_y (Vector3.y (position this) + partialLift) this
    else this in
  if negb (isOnRunway this) then
    let gravityMultiplier := if isStalling this then 2.5 else 1 in
    set_position_y
      (Vector3.y (position this) - baseGravity * deltaTime * gravityMultiplier)
      this
  else this.

(** Lines 138-164: ground collision and ground friction. *)
Definition ground_stage (deltaTime : Q) (this : FlightPhysics)
  : FlightPhysics :=
  if Qltb (Vector3.y (position this)) groundHeight then
    let this := set_position_y (Qmax groundHeight minimumHeight) this in
    if isOnRunway this then
      let this := set_speed (Qmax (speed this - 0.2 * deltaTime) 0) this in
      let this :=
        set_angularVelocity_x (Vector3.x (angularVelocity this) * 0.92) this in
      let this :=
        set_angularVelocity_z (Vector3.z (angularVelocity this) * 0.92) this in
      if Qltb (speed this) 0.3 then
        let attitudeForce :=
          (groundAttitude - Euler.x (rotation this)) * 0.5 * deltaTime in
        set_angularVelocity_x
          (Vector3.x (angularVelocity this) + attitudeForce) this
      else this
    else set_speed (Qmax (speed this - 0.8 * deltaTime) 0) this
  else this.

(** Line 172: control effectiveness from the speed. *)
Definition speedEffectiveness (this : FlightPhysics) : Q :=
  Qmin 1 (Qmax 0.1 (speed this / 0.6)).

(** Lines 175-193: targets of the three axes and input smoothing. *)
Definition targetPitchInput (controls : FlightControls.t) : Q :=
  if FlightControls.pitchUp controls then -1
  else if FlightControls.pitchDown controls then 1 else 0.
Definition targetRollInput (controls : FlightControls.t) : Q :=
  if FlightControls.right controls then 1
  else if FlightControls.left controls then -1 else 0.
Definition targetYawInput (controls : FlightControls.t) : Q :=
  if FlightControls.yawRight controls then 1
  else if FlightControls.yawLeft controls then -1 else 0.

(** Lines 187-193.  With 15 * deltaTime above 2 an input grows from
    call to call; exact numbers grow without limit, doubles reach
    Infinity. *)
Definition input_stage (controls : FlightControls.t) (deltaTime : Q)
    (this : FlightPhysics) : FlightPhysics :=
  let this :=
    set_pitchInput
      (pitchInput this
       + (targetPitchInput controls - pitchInput this)
         * controlSmoothingFactor * deltaTime) this in
  let this :=
    set_rollInput
      (rollInput this
       + (targetRollInput controls - rollInput this)
         * controlSmoothingFactor * deltaTime) this in
  set_yawInput
    (yawInput this
     + (targetYawInput controls - yawInput this)
       * controlSmoothingFactor * deltaTime) this.

(** Lines 195-207: auto-trim. *)
Definition trim_stage (deltaTime : Q) (this : FlightPhysics)
  : FlightPhysics :=
  let this :=
    if Qltb (Qabs (pitchInput this)) 0.1 && Qgtb (speed this) 0.4 then
      let trimRate := 0.3 * deltaTime in
      let this :=
        set_pitchTrim (pitchTrim this + Euler.x (rotation this) * trimRate)
          this in
      set_pitchTrim (Qmax (-0.3) (Qmin 0.3 (pitchTrim this))) this
    else this in
  if Qltb (Qabs (rollInput this)) 0.1 && Qgtb (speed this) 0.4 then
    let trimRate := 0.5 * deltaTime in
    let this :=
      set_rollTrim (rollTrim this + Euler.z (rotation this) * trimRate)
        this in
    set_rollTrim (Qmax (-0.2) (Qmin 0.2 (rollTrim this))) this
  else this.

(** Lines 209-225: control forces, above the minimum control speed. *)
Definition control_stage (deltaTime : Q) (this : FlightPhysics)
  : FlightPhysics :=
  if Qgtb (speed this) minControlSpeed then
    let pitchForce :=
      pitchInput this * controlSensitivity * speedEffectiveness this * 1 in
    let this :=
      set_angularVelocity_x
        (Vector3.x (angularVelocity this) + pitchForce * deltaTime) this in
    let rollForce :=
      rollInput this * controlSensitivity * speedEffectiveness this * 1.4 in
    let this :=
      set_angularVelocity_z
        (Vector3.z (angularVelocity this) + rollForce * deltaTime) this in
    let yawForce :=
      yawInput this * controlSensitivity * speedEffectiveness this * 0.8 in
    set_angularVelocity_y
      (Vector3.y (angularVelocity this) + yawForce * deltaTime) this
  else this.

(** Lines 227-246: stability forces toward the trimmed attitude. *)
Definition stability_stage (deltaTime : Q) (this : FlightPhysics)
  : FlightPhysics :=
  if Qgtb (speed this) minControlSpeed then
    let stabilityStrength := speedEffectiveness this * 0.6 in
    let targetPitch := pitchTrim this in
    let pitchStabilityForce :=
      - (Euler.x (rotation this) - targetPitch) * stabilityStrength * 1.2 in
    let this :=
      set_angularVelocity_x
        (Vector3.x (angularVelocity this) + pitchStabilityForce * deltaTime)
        this in
    let targetRoll := rollTrim this in
    let rollStabilityForce :=
      - (Euler.z (rotation this) - targetRoll) * stabilityStrength * 1.8 in
    let this :=
      set_angularVelocity_z
        (Vector3.z (angularVelocity this) + rollStabilityForce * deltaTime)
        this in
    let yawStabilityForce :=
      - Euler.y (rotation this) * stabilityStrength * 0.5 in
    set_angularVelocity_y
      (Vector3.y (angularVelocity this) + yawStabilityForce * deltaTime) this
  else this.

(** Lines 248-252: angular damping.  A factor of 0 gives 0 here; on
    doubles an angular velocity of Infinity times 0 is NaN. *)
Definition damping_stage (deltaTime : Q) (this : FlightPhysics)
  : FlightPhysics :=
  let this :=
    set_angularVelocity_x
      (Vector3.x (angularVelocity this)
       * Qmax 0 (1 - dampingFactor * deltaTime)) this in
  let this :=
    set_angularVelocity_y
      (Vector3.y (angularVelocity this)
       * Qmax 0 (1 - dampingFactor * deltaTime)) this in
  set_angularVelocity_z
    (Vector3.z (angularVelocity this)
     * Qmax 0 (1 - dampingFactor * deltaTime)) this.

(** Lines 254-267: the angular velocity is applied to the rotation, then
    pitch and roll are limited.  [Qmax] and [Qmin] always limit; on
    doubles [Math.max] and [Math.min] return NaN for NaN. *)
Definition rotation_stage (deltaTime : Q) (this : FlightPhysics)
  : FlightPhysics :=
  let this :=
    set_rotation_x
      (Euler.x (rotation this) + Vector3.x (angularVelocity this) * deltaTime)
      this in
  let this :=
    set_rotation_y
      (Euler.y (rotation this) + Vector3.y (angularVelocity this) * deltaTime)
      this in
  let this :=
    set_rotation_z
      (Euler.z (rotation this) + Vector3.z (angularVelocity this) * deltaTime)
      this in
  let this :=
    set_rotation_x
      (Qmax (- Math_PI / 3) (Qmin (Math_PI / 3) (Euler.x (rotation this))))
      this in
  set_rotation_z
    (Qmax (- Math_PI / 2) (Qmin (Math_PI / 2) (Euler.z (rotation this))))
    this.

(** Lines 269-273: the landing gear toggle, which also writes the
    caller's control record. *)
Definition gear_stage (controls : FlightControls.t) (this : FlightPhysics)
  : FlightPhysics * FlightControls.t :=
  if FlightControls.landingGear controls
  then (set_isGearDown (negb (isGearDown this)) this,
        FlightControls.set_landingGear false controls)
  else (this, controls).

(** Lines 281-286: the world bounds.  On doubles a NaN coordinate fails
    all five tests and stays. *)
Definition bounds_stage (this : FlightPhysics) : FlightPhysics :=
  let this :=
    if Qgtb (Vector3.z (position this)) 800
    then set_position_z (-800) this else this in
  let this :=
    if Qltb (Vector3.z (position this)) (-800)
    then set_position_z 800 this else this in
  let this :=
    if Qgtb (Vector3.x (position this)) 800
    then set_position_x (-800) this else this in
  let this :=
    if Qltb (Vector3.x (position this)) (-800)
    then set_position_x 800 this else this in
  if Qgtb (Vector3.y (position this)) 200
  then set_position_y 200 this else this.

(* ------------------------------------------------------------------ *)
(** ** The throttle ramp on doubles

    The exact rationals leave rounding out.  Whether a ramp in steps of
    0.016 lands on 1.0 is a question about IEEE doubles, so lines 49-51
    are written a second time on the binary64 numbers of the kernel. *)

Module Double.
Import PrimFloat.

(** [Math.min] on two doubles: NaN if either is, and -0 below +0. *)
Definition Math_min (a b : float) : float :=
  if is_nan a || is_nan b then nan
  else if ltb a b then a
  else if ltb b a then b
  else if get_sign a then a else b.

(** The double that the literal 0.016 denotes. *)
Definition slice : float := 0x1.0624dd2f1a9fcp-6%float.

(** The double 1.0. *)
Definition one : float := 1%float.

(** Line 50, with the throttle key held. *)
Definition held_step (throttle deltaTime : float) : float :=
  Math_min (add throttle (mul 0.5%float deltaTime)) one.

(** The throttle after [n] calls from 0 with the key held. *)
Definition ramp (n : nat) : float :=
  Nat.iter n (fun t => held_step t slice) 0%float.

(** No value of the ramp up to call [n] is above 1. *)
Definition ramp_bounded (n : nat) : bool :=
  forallb (fun k => leb (ramp k) one) (seq 0 (S n)).
End Double.

(* ------------------------------------------------------------------ *)
(** ** The engine on doubles

    The exact rationals know neither overflow nor NaN.  What the source
    does once a product leaves the range of the doubles is read off a
    second writing of [update], statement by statement, on the binary64
    numbers of the kernel, with the operations as ECMAScript has them:
    [Math.min] and [Math.max] give NaN if an argument is NaN, and a
    comparison with NaN is false.  The literals are rounded to the
    nearest double, as in the source.

    ECMAScript fixes [Math.sin] and [Math.cos] at zero, at the infinities
    and at NaN only; elsewhere the value is up to the engine.  The two
    functions are therefore partial here, and a call that needs one of
    them at another argument has no result. *)

Module Binary64.
Import PrimFloat.
#[local] Set Warnings "-inexact-float".
Local Open Scope float_scope.

Module Vector3.
Record t : Set := mk { x : float; y : float; z : float }.
End Vector3.

Module Euler.
Record t : Set := mk { x : float; y : float; z : float }.
End Euler.

Record FlightPhysics : Set := mkFlightPhysics {
  throttle : float;
  speed : float;
  position : Vector3.t;
  rotation : Euler.t;
  lift : float;
  drag : float;
  isGearDown : bool;
  isOnRunway : bool;
  isStalling : bool;
  stallSpeed : float;
  pitchInput : float;
  rollInput : float;
  yawInput : float;
  pitchTrim : float;
  rollTrim : float;
  angularVelocity : Vector3.t
}.

Record Quaternion : Set := mkQuaternion {
  qx : float; qy : float; qz : float; qw : float
}.

(** [Math.max] on two doubles: NaN if either is, and +0 above -0. *)
Definition Math_max (a b : float) : float :=
  if is_nan a || is_nan b then nan
  else if b <? a then a
  else if a <? b then b
  else if get_sign a then b else a.

Definition Math_min : float -> float -> float := Double.Math_min.

Definition Math_abs : float -> float := abs.

(** [Math.PI], the double 3.141592653589793. *)
Definition Math_PI : float := 0x1.921fb54442d18p+1.

Definition Math_sin (x : float) : option float :=
  if is_nan x || is_infinity x then Some nan
  else if is_zero x then Some x
  else None.

Definition Math_cos (x : float) : option float :=
  if is_nan x || is_infinity x then Some nan
  else if is_zero x then Some 1
  else None.

(** Lines 40-45 and the field initialisers. *)
Definition constructor : FlightPhysics :=
  mkFlightPhysics 0 0 (Vector3.mk 0 0.8 (-50)) (Euler.mk 0 0 0) 0 0
    true false false 0.3 0 0 0 0 0 (Vector3.mk 0 0 0).

(** Lines 48-267: everything before the gear toggle. *)
Definition attitude_done (controls : FlightControls.t) (deltaTime : float)
    (this : FlightPhysics) : FlightPhysics :=
  (* lines 48-54 *)
  let throttle := throttle this in
  let throttle :=
    if FlightControls.throttle controls
    then Math_min (throttle + 0.5 * deltaTime) 1.0 else throttle in
  let throttle :=
    if FlightControls.brake controls
    then Math_max (throttle - 0.5 * deltaTime) 0.0 else throttle in
  (* lines 56-71 *)
  let maxSpeed := 3.5 in
  let acceleration := throttle * maxSpeed * 1.0 in
  let deceleration := 0.12 in
  let speed :=
    if 0 <? throttle
    then Math_min (speed this + acceleration * deltaTime)
           (maxSpeed * throttle)
    else Math_max (speed this - deceleration * deltaTime) 0 in
  let speed := Math_max (speed - drag this * deltaTime) 0 in
  (* lines 73-81 *)
  let px := Vector3.x (position this) in
  let py := Vector3.y (position this) in
  let pz := Vector3.z (position this) in
  let runwayZ := (Math_abs pz <? 100) && (Math_abs px <? 25) in
  let groundHeight := 0.8 in
  let isOnRunway := runwayZ && (py <=? groundHeight + 0.1) in
  let isStalling :=
    (speed <? stallSpeed this) && negb isOnRunway && (2 <? py) in
  (* lines 83-117 *)
  let liftCoefficient := 0.3 in
  let dragCoefficient := 0.08 in
  let drag := speed * speed * dragCoefficient in
  let rx := Euler.x (rotation this) in
  let ry := Euler.y (rotation this) in
  let rz := Euler.z (rotation this) in
  let angleOfAttack := rx in
  let speedFactor := speed * speed in
  let angleOfAttackEffect :=
    if angleOfAttack <? - 0.3 then 0.2
    else if angleOfAttack <=? 0.35 then 1.0 + angleOfAttack * 3.0
    else 2.0 - (angleOfAttack - 0.35) * 2.0 in
  let baseLift :=
    speedFactor * liftCoefficient * Math_max 0.1 angleOfAttackEffect in
  let lift := if isStalling then baseLift * 0.2 else baseLift in
  (* lines 119-136 *)
  let takeoffSpeed := 0.8 in
  let py :=
    if takeoffSpeed <? speed then py + lift * deltaTime
    else if 0.4 <? speed
         then py + lift * deltaTime * (speed / takeoffSpeed)
         else py in
  let py :=
    if negb isOnRunway then
      let gravityMultiplier := if isStalling then 2.5 else 1.0 in
      let baseGravity := 0.3 in
      py - baseGravity * deltaTime * gravityMultiplier
    else py in
  (* lines 138-164 *)
  let minimumHeight := 0.5 in
  let wx := Vector3.x (angularVelocity this) in
  let wy := Vector3.y (angularVelocity this) in
  let wz := Vector3.z (angularVelocity this) in
  let '(py, speed, wx, wz) :=
    if py <? groundHeight then
      let py := Math_max groundHeight minimumHeight in
      if isOnRunway then
        let speed := Math_max (speed - 0.2 * deltaTime) 0 in
        let wx := wx * 0.92 in
        let wz := wz * 0.92 in
        if speed <? 0.3 then
          let groundAttitude := 0.08 in
          let attitudeForce := (groundAttitude - rx) * 0.5 * deltaTime in
          (py, speed, wx + attitudeForce, wz)
        else (py, speed, wx, wz)
      else (py, Math_max (speed - 0.8 * deltaTime) 0, wx, wz)
    else (py, speed, wx, wz) in
  (* lines 166-193 *)
  let controlSmoothingFactor := 15.0 in
  let controlSensitivity := 1.0 in
  let minControlSpeed := 0.1 in
  let speedEffectiveness := Math_min 1.0 (Math_max 0.1 (speed / 0.6)) in
  let targetPitchInput :=
    if FlightControls.pitchUp controls then - 1.0
    else if FlightControls.pitchDown controls then 1.0 else 0.0 in
  let targetRollInput :=
    if FlightControls.right controls then 1.0
    else if FlightControls.left controls then - 1.0 else 0.0 in
  let targetYawInput :=
    if FlightControls.yawRight controls then 1.0
    else if FlightControls.yawLeft controls then - 1.0 else 0.0 in
  let pitchInput :=
    pitchInput this
    + (targetPitchInput - pitchInput this) * controlSmoothingFactor
      * deltaTime in
  let rollInput :=
    rollInput this
    + (targetRollInput - rollInput this) * controlSmoothingFactor
      * deltaTime in
  let yawInput :=
    yawInput this
    + (targetYawInput - yawInput this) * controlSmoothingFactor
      * deltaTime in
  (* lines 195-207 *)
  let pitchTrim :=
    if (Math_abs pitchInput <? 0.1) && (0.4 <? speed) then
      let trimRate := 0.3 * deltaTime in
      let pitchTrim := pitchTrim this + rx * trimRate in
      Math_max (- 0.3) (Math_min 0.3 pitchTrim)
    else pitchTrim this in
  let rollTrim :=
    if (Math_abs rollInput <? 0.1) && (0.4 <? speed) then
      let trimRate := 0.5 * deltaTime in
      let rollTrim := rollTrim this + rz * trimRate in
      Math_max (- 0.2) (Math_min 0.2 rollTrim)
    else rollTrim this in
  (* lines 209-225 *)
  let '(wx, wy, wz) :=
    if minControlSpeed <? speed then
      let pitchForce :=
        pitchInput * controlSensitivity * speedEffectiveness * 1.0 in
      let rollForce :=
        rollInput * controlSensitivity * speedEffectiveness * 1.4 in
      let yawForce :=
        yawInput * controlSensitivity * speedEffectiveness * 0.8 in
      (wx + pitchForce * deltaTime, wy + yawForce * deltaTime,
       wz + rollForce * deltaTime)
    else (wx, wy, wz) in
  (* lines 227-246 *)
  let '(wx, wy, wz) :=
    if minControlSpeed <? speed then
      let stabilityStrength := speedEffectiveness * 0.6 in
      let targetPitch := pitchTrim in
      let pitchStabilityForce :=
        - (rx - targetPitch) * stabilityStrength * 1.2 in
      let targetRoll := rollTrim in
      let rollStabilityForce :=
        - (rz - targetRoll) * stabilityStrength * 1.8 in
      let yawStabilityForce := - ry * stabilityStrength * 0.5 in
      (wx + pitchStabilityForce * deltaTime,
       wy + yawStabilityForce * deltaTime,
       wz + rollStabilityForce * deltaTime)
    else (wx, wy, wz) in
  (* lines 248-252 *)
  let dampingFactor := 2.8 in
  let wx := wx * Math_max 0 (1 - dampingFactor * deltaTime) in
  let wy := wy * Math_max 0 (1 - dampingFactor * deltaTime) in
  let wz := wz * Math_max 0 (1 - dampingFactor * deltaTime) in
  (* lines 254-267 *)
  let rx := rx + wx * deltaTime in
  let ry := ry + wy * deltaTime in
  let rz := rz + wz * deltaTime in
  let rx := Math_max (- Math_PI / 3) (Math_min (Math_PI / 3) rx) in
  let rz := Math_max (- Math_PI / 2) (Math_min (Math_PI / 2) rz) in
  mkFlightPhysics throttle speed (Vector3.mk px py pz) (Euler.mk rx ry rz)
    lift drag (isGearDown this) isOnRunway isStalling (stallSpeed this)
    pitchInput rollInput yawInput pitchTrim rollTrim
    (Vector3.mk wx wy wz).

(** Lines 269-273. *)
Definition gear_stage (controls : FlightControls.t) (this : FlightPhysics)
  : FlightPhysics * FlightControls.t :=
  if FlightControls.landingGear controls
  then (mkFlightPhysics (throttle this) (speed this) (position this)
          (rotation this) (lift this) (drag this)
          (negb (isGearDown this)) (isOnRunway this) (isStalling this)
          (stallSpeed this) (pitchInput this) (rollInput this)
          (yawInput this) (pitchTrim this) (rollTrim this)
          (angularVelocity this),
        FlightControls.set_landingGear false controls)
  else (this, controls).

(** three.js, [Quaternion.setFromEuler] in the order XYZ. *)
Definition setFromEuler (e : Euler.t) : option Quaternion :=
  match Math_cos (Euler.x e / 2), Math_cos (Euler.y e / 2),
        Math_cos (Euler.z e / 2), Math_sin (Euler.x e / 2),
        Math_sin (Euler.y e / 2), Math_sin (Euler.z e / 2) with
  | Some c1, Some c2, Some c3, Some s1, Some s2, Some s3 =>
      Some (mkQuaternion
              (s1 * c2 * c3 + c1 * s2 * s3)
              (c1 * s2 * c3 - s1 * c2 * s3)
              (c1 * c2 * s3 + s1 * s2 * c3)
              (c1 * c2 * c3 - s1 * s2 * s3))
  | _, _, _, _, _, _ => None
  end.

(** three.js, [Vector3.applyQuaternion]. *)
Definition applyQuaternion (q : Quaternion) (v : Vector3.t) : Vector3.t :=
  let vx := Vector3.x v in
  let vy := Vector3.y v in
  let vz := Vector3.z v in
  let tx := 2 * (qy q * vz - qz q * vy) in
  let ty := 2 * (qz q * vx - qx q * vz) in
  let tz := 2 * (qx q * vy - qy q * vx) in
  Vector3.mk
    (vx + qw q * tx + qy q * tz - qz q * ty)
    (vy + qw q * ty + qz q * tx - qx q * tz)
    (vz + qw q * tz + qx q * ty - qy q * tx).

(** Lines 275-286: the translation and the world bounds. *)
Definition translate_stage (this : FlightPhysics) : option FlightPhysics :=
  match setFromEuler (rotation this) with
  | Some q =>
      let forwardVector := applyQuaternion q (Vector3.mk 0 0 1) in
      let px :=
        Vector3.x (position this) + Vector3.x forwardVector * speed this in
      let py := Vector3.y (position this) in
      let pz :=
        Vector3.z (position this) + Vector3.z forwardVector * speed this in
      let pz := if 800 <? pz then - 800 else pz in
      let pz := if pz <? - 800 then 800 else pz in
      let px := if 800 <? px then - 800 else px in
      let px := if px <? - 800 then 800 else px in
      let py := if 200 <? py then 200 else py in
      Some (mkFlightPhysics (throttle this) (speed this)
              (Vector3.mk px py pz) (rotation this) (lift this)
              (drag this) (isGearDown this) (isOnRunway this)
              (isStalling this) (stallSpeed this) (pitchInput this)
              (rollInput this) (yawInput this) (pitchTrim this)
              (rollTrim this) (angularVelocity this))
  | None => None
  end.

Definition update (controls : FlightControls.t) (deltaTime : float)
    (this : FlightPhysics) : option (FlightPhysics * FlightControls.t) :=
  let this := attitude_done controls deltaTime this in
  let (this, controls) := gear_stage controls this in
  match translate_stage this with
  | Some this => Some (this, controls)
  | None => None
  end.

(** The bounds of the data model, as tests on doubles. *)
Definition within (lo hi v : float) : bool := (lo <=? v) && (v <=? hi).

Definition Bounds (s : FlightPhysics) : bool :=
  within 0 1 (throttle s) && (0 <=? speed s)
  && within (- Math_PI / 3) (Math_PI / 3) (Euler.x (rotation s))
  && within (- Math_PI / 2) (Math_PI / 2) (Euler.z (rotation s))
  && within (- 0.3) 0.3 (pitchTrim s)
  && within (- 0.2) 0.2 (rollTrim s)
  && within (- 800) 800 (Vector3.x (position s))
  && within (- 800) 800 (Vector3.z (position s))
  && (Vector3.y (position s) <=? 200).

(** The throttle key and the pitch-down key held. *)
Definition held : FlightControls.t :=
  FlightControls.mk true false false false false true false false false.

(** The ground height of line 76, the altitude cap of line 286, and
    a time slice of zero. *)
Definition groundHeight : float := 0.8.
Definition ceiling : float := 200.
Definition zero : float := 0.

(** A time slice that is not negative, and long: 1e200 seconds. *)
Definition long_slice : float := 1e200.

(** The state after one call from the constructed state with the two
    keys held and the long time slice. *)
Definition overflowed : option FlightPhysics :=
  option_map fst (update held long_slice constructor).

(** The time slice of the animation loop, the double 0.016. *)
Definition frame : float := 0.016.

(** [n] frames of the animation loop on the same control record.  The
    bounds are tested after every frame and a call with a time slice
    of zero is made on the side, which is to leave throttle, speed,
    altitude, rotation, angular velocity, inputs and trims as they
    are; there is no result if a test fails. *)
Definition unchanged (a b : FlightPhysics) : bool :=
  (throttle a =? throttle b) && (speed a =? speed b)
  && (Vector3.y (position a) =? Vector3.y (position b))
  && (Euler.x (rotation a) =? Euler.x (rotation b))
  && (Euler.y (rotation a) =? Euler.y (rotation b))
  && (Euler.z (rotation a) =? Euler.z (rotation b))
  && (Vector3.x (angularVelocity a) =? Vector3.x (angularVelocity b))
  && (Vector3.y (angularVelocity a) =? Vector3.y (angularVelocity b))
  && (Vector3.z (angularVelocity a) =? Vector3.z (angularVelocity b))
  && (pitchInput a =? pitchInput b) && (rollInput a =? rollInput b)
  && (yawInput a =? yawInput b) && (pitchTrim a =? pitchTrim b)
  && (rollTrim a =? rollTrim b).

Fixpoint frames (n : nat) (controls : FlightControls.t)
    (this : FlightPhysics) : option FlightPhysics :=
  match n with
  | O => Some this
  | S n' =>
      match update controls frame this, update controls zero this with
      | Some (this', controls'), Some (still, _) =>
          if Bounds this' && unchanged this still
             && (groundHeight <=? Vector3.y (position this'))
          then frames n' controls' this' else None
      | _, _ => None
      end
  end.

End Binary64.

(* ------------------------------------------------------------------ *)
(** ** The simulator component: key, mouse and wheel handlers

    The handlers of the component that owns the [FlightPhysics] object
    write the control record that [update] reads, and the camera record.
    [handleKeyDown] also starts the audio on the first key; the audio
    context is no part of the model. *)

(** Assignments [controls.f = b] of the handlers. *)
Definition key_throttle (b : bool) (c : FlightControls.t)
  : FlightControls.t :=
  FlightControls.mk b (FlightControls.brake c) (FlightControls.left c)
    (FlightControls.right c) (FlightControls.pitchUp c)
    (FlightControls.pitchDown c) (FlightControls.yawLeft c)
    (FlightControls.yawRight c) (FlightControls.landingGear c).
Definition key_brake (b : bool) (c : FlightControls.t)
  : FlightControls.t :=
  FlightControls.mk (FlightControls.throttle c) b (FlightControls.left c)
    (FlightControls.right c) (FlightControls.pitchUp c)
    (FlightControls.pitchDown c) (FlightControls.yawLeft c)
    (FlightControls.yawRight c) (FlightControls.landingGear c).
Definition key_left (b : bool) (c : FlightControls.t)
  : FlightControls.t :=
  FlightControls.mk (FlightControls.throttle c) (FlightControls.brake c) b
    (FlightControls.right c) (FlightControls.pitchUp c)
    (FlightControls.pitchDown c) (FlightControls.yawLeft c)
    (FlightControls.yawRight c) (FlightControls.landingGear c).
Definition key_right (b : bool) (c : FlightControls.t)
  : FlightControls.t :=
  FlightControls.mk (FlightControls.throttle c) (FlightControls.brake c)
    (FlightControls.left c) b (FlightControls.pitchUp c)
    (FlightControls.pitchDown c) (FlightControls.yawLeft c)
    (FlightControls.yawRight c) (FlightControls.landingGear c).
Definition key_pitchUp (b : bool) (c : FlightControls.t)
  : FlightControls.t :=
  FlightControls.mk (FlightControls.throttle c) (FlightControls.brake c)
    (FlightControls.left c) (FlightControls.right c) b
    (FlightControls.pitchDown c) (FlightControls.yawLeft c)
    (FlightControls.yawRight c) (FlightControls.landingGear c).
Definition key_pitchDown (b : bool) (c : FlightControls.t)
  : FlightControls.t :=
  FlightControls.mk (FlightControls.throttle c) (FlightControls.brake c)
    (FlightControls.left c) (FlightControls.right c)
    (FlightControls.pitchUp c) b (FlightControls.yawLeft c)
    (FlightControls.yawRight c) (FlightControls.landingGear c).
Definition key_yawLeft (b : bool) (c : FlightControls.t)
  : FlightControls.t :=
  FlightControls.mk (FlightControls.throttle c) (FlightControls.brake c)
    (FlightControls.left c) (FlightControls.right c)
    (FlightControls.pitchUp c) (FlightControls.pitchDown c) b
    (FlightControls.yawRight c) (FlightControls.landingGear c).
Definition key_yawRight (b : bool) (c : FlightControls.t)
  : FlightControls.t :=
  FlightControls.mk (FlightControls.throttle c) (FlightControls.brake c)
    (FlightControls.left c) (FlightControls.right c)
    (FlightControls.pitchUp c) (FlightControls.pitchDown c)
    (FlightControls.yawLeft c) b (FlightControls.landingGear c).

(** [switch (event.code)] of [handleKeyDown]: the first case that is
    equal to the code is taken, an unknown code falls through. *)
Definition handleKeyDown (code : string) (controls : FlightControls.t)
  : FlightControls.t :=
  if (code =? "KeyW")%string || (code =? "ArrowUp")%string
  then key_throttle true controls
  else if (code =? "KeyS")%string || (code =? "ArrowDown")%string
  then key_brake true controls
  else if (code =? "KeyA")%string || (code =? "ArrowLeft")%string
  then key_left true controls
  else if (code =? "KeyD")%string || (code =? "ArrowRight")%string
  then key_right true controls
  else if (code =? "KeyR")%string then key_pitchUp true controls
  else if (code =? "KeyF")%string then key_pitchDown true controls
  else if (code =? "KeyZ")%string then key_yawLeft true controls
  else if (code =? "KeyC")%string then key_yawRight true controls
  else if (code =? "KeyL")%string
  then FlightControls.set_landingGear true controls
  else controls.

(** [handleKeyUp]: the same keys but KeyL, which has no case. *)
Definition handleKeyUp (code : string) (controls : FlightControls.t)
  : FlightControls.t :=
  if (code =? "KeyW")%string || (code =? "ArrowUp")%string
  then key_throttle false controls
  else if (code =? "KeyS")%string || (code =? "ArrowDown")%string
  then key_brake false controls
  else if (code =? "KeyA")%string || (code =? "ArrowLeft")%string
  then key_left false controls
  else if (code =? "KeyD")%string || (code =? "ArrowRight")%string
  then key_right false controls
  else if (code =? "KeyR")%string then key_pitchUp false controls
  else if (code =? "KeyF")%string then key_pitchDown false controls
  else if (code =? "KeyZ")%string then key_yawLeft false controls
  else if (code =? "KeyC")%string then key_yawRight false controls
  else controls.

(** The codes with a case in [handleKeyDown]. *)
Definition known_codes : list string :=
  ["KeyW"; "ArrowUp"; "KeyS"; "ArrowDown"; "KeyA"; "ArrowLeft"; "KeyD";
   "ArrowRight"; "KeyR"; "KeyF"; "KeyZ"; "KeyC"; "KeyL"]%string.

(** [controlsRef.current] as the component creates it. *)
Definition controlsRef : FlightControls.t :=
  FlightControls.mk false false false false false false false false false.

(** The nine flags of a control record. *)
Definition flags : list (FlightControls.t -> bool) :=
  [FlightControls.throttle; FlightControls.brake; FlightControls.left;
   FlightControls.right; FlightControls.pitchUp; FlightControls.pitchDown;
   FlightControls.yawLeft; FlightControls.yawRight;
   FlightControls.landingGear].

(** [cameraControlsRef.current]. *)
Module CameraControls.
Record t : Set := mk {
  mouseX : Q;
  mouseY : Q;
  isMouseDown : bool;
  cameraDistance : Q;
  cameraHeight : Q;
  cameraAngle : Q
}.
End CameraControls.

(** The initial camera record. *)
Definition cameraControlsRef : CameraControls.t :=
  CameraControls.mk 0 0 false 15 8 0.

Definition handleMouseDown (cc : CameraControls.t) : CameraControls.t :=
  CameraControls.mk (CameraControls.mouseX cc) (CameraControls.mouseY cc)
    true (CameraControls.cameraDistance cc)
    (CameraControls.cameraHeight cc) (CameraControls.cameraAngle cc).

Definition handleMouseUp (cc : CameraControls.t) : CameraControls.t :=
  CameraControls.mk (CameraControls.mouseX cc) (CameraControls.mouseY cc)
    false (CameraControls.cameraDistance cc)
    (CameraControls.cameraHeight cc) (CameraControls.cameraAngle cc).

(** [handleMouseMove] on an event with the given [movementX] and
    [movementY]. *)
Definition handleMouseMove (movementX movementY : Q)
    (cc : CameraControls.t) : CameraControls.t :=
  if CameraControls.isMouseDown cc then
    let mouseX := CameraControls.mouseX cc + movementX * 0.01 in
    let mouseY := CameraControls.mouseY cc + movementY * 0.01 in
    let mouseY := Qmax (-1) (Qmin 1 mouseY) in
    CameraControls.mk mouseX mouseY (CameraControls.isMouseDown cc)
      (CameraControls.cameraDistance cc) (CameraControls.cameraHeight cc)
      (CameraControls.cameraAngle cc)
  else cc.

(** [handleWheel] on an event with the given [deltaY]. *)
Definition handleWheel (deltaY : Q) (cc : CameraControls.t)
  : CameraControls.t :=
  let cameraDistance := CameraControls.cameraDistance cc + deltaY * 0.01 in
  let cameraDistance := Qmax 5 (Qmin 30 cameraDistance) in
  CameraControls.mk (CameraControls.mouseX cc) (CameraControls.mouseY cc)
    (CameraControls.isMouseDown cc) cameraDistance
    (CameraControls.cameraHeight cc) (CameraControls.cameraAngle cc).

(** The pointer events the component listens to. *)
Inductive pointer_event : Set :=
| MouseDown
| MouseUp
| MouseMove (movementX movementY : Q)
| Wheel (deltaY : Q).

Definition pointer (e : pointer_event) (cc : CameraControls.t)
  : CameraControls.t :=
  match e with
  | MouseDown => handleMouseDown cc
  | MouseUp => handleMouseUp cc
  | MouseMove dx dy => handleMouseMove dx dy cc
  | Wheel dy => handleWheel dy cc
  end.

(** The camera record after a run of pointer events. *)
Definition pointers (events : list pointer_event) (cc : CameraControls.t)
  : CameraControls.t :=
  fold_left (fun cc e => pointer e cc) events cc.

(* ------------------------------------------------------------------ *)
(** ** The simulator component: what [animate] derives from the state

    After [physics.update(controls, 0.016)] the animation loop turns the
    state into the propeller rotation and the oscillator settings. *)

Definition propellerSpeed (physics : FlightPhysics) : Q :=
  throttle physics * 0.8 + (speed physics * 0.2).
Definition throttleLevel (physics : FlightPhysics) : Q := throttle physics.
Definition speedLevel (physics : FlightPhysics) : Q := speed physics / 3.
Definition engineRPM (physics : FlightPhysics) : Q :=
  120 + (throttleLevel physics * 280).
Definition engineVolume (physics : FlightPhysics) : Q :=
  0.03 + (throttleLevel physics * 0.12).
Definition propRPM (physics : FlightPhysics) : Q :=
  30 + (throttleLevel physics * 80).
Definition propVolume (physics : FlightPhysics) : Q :=
  0.02 + (throttleLevel physics * 0.08).
Definition rumbleFreq (physics : FlightPhysics) : Q :=
  15 + (throttleLevel physics * 40).
Definition rumbleVolume (physics : FlightPhysics) : Q :=
  0.02 + (throttleLevel physics * 0.10).
Definition windIntensity (physics : FlightPhysics) : Q :=
  Qmin ((Vector3.y (position physics) / 50 + speedLevel physics) / 2) 1.
Definition windFreq (physics : FlightPhysics) : Q :=
  600 + (windIntensity physics * 800).
Definition windVolume (physics : FlightPhysics) : Q :=
  Qmin (windIntensity physics * 0.08) 0.06.

(* ------------------------------------------------------------------ *)
(** ** three.js: rotating a vector by Euler angles

    [Vector3.applyEuler] goes through [Quaternion.setFromEuler] (order
    XYZ) and [Vector3.applyQuaternion].  The library is not part of the
    repository; its two functions are written here after the library,
    over the sine and cosine taken as parameters. *)

Record Quaternion : Set := mkQuaternion { qx : Q; qy : Q; qz : Q; qw : Q }.

Section Engine.

Variables Math_sin Math_cos : Q -> Q.

Definition setFromEuler (e : Euler.t) : Quaternion :=
  let c1 := Math_cos (Euler.x e / 2) in
  let c2 := Math_cos (Euler.y e / 2) in
  let c3 := Math_cos (Euler.z e / 2) in
  let s1 := Math_sin (Euler.x e / 2) in
  let s2 := Math_sin (Euler.y e / 2) in
  let s3 := Math_sin (Euler.z e / 2) in
  mkQuaternion
    (s1 * c2 * c3 + c1 * s2 * s3)
    (c1 * s2 * c3 - s1 * c2 * s3)
    (c1 * c2 * s3 + s1 * s2 * c3)
    (c1 * c2 * c3 - s1 * s2 * s3).

Definition applyQuaternion (q : Quaternion) (v : Vector3.t) : Vector3.t :=
  let vx := Vector3.x v in
  let vy := Vector3.y v in
  let vz := Vector3.z v in
  let tx := 2 * (qy q * vz - qz q * vy) in
  let ty := 2 * (qz q * vx - qx q * vz) in
  let tz := 2 * (qx q * vy - qy q * vx) in
  Vector3.mk
    (vx + qw q * tx + qy q * tz - qz q * ty)
    (vy + qw q * ty + qz q * tx - qx q * tz)
    (vz + qw q * tz + qx q * ty - qy q * tx).

Definition applyEuler (e : Euler.t) (v : Vector3.t) : Vector3.t :=
  applyQuaternion (setFromEuler e) v.

(** Lines 275-279: the plane moves along the rotated forward axis by
    [speed], on x and z. *)
Definition forwardVector (this : FlightPhysics) : Vector3.t :=
  applyEuler (rotation this) (Vector3.mk 0 0 1).

Definition translate_stage (this : FlightPhysics) : FlightPhysics :=
  let forwardVector := forwardVector this in
  let this :=
    set_position_x
      (Vector3.x (position this) + Vector3.x forwardVector * speed this)
      this in
  set_position_z
    (Vector3.z (position this) + Vector3.z forwardVector * speed this) this.

(* ------------------------------------------------------------------ *)
(** ** [update] *)

(** The prefixes of the pipeline, named after what has been done. *)

(** After lines 48-71: throttle and speed are final but for ground
    friction. *)
Definition propelled (controls : FlightControls.t) (deltaTime : Q)
    (this : FlightPhysics) : FlightPhysics :=
  speed_stage deltaTime (throttle_stage controls deltaTime this).

(** After lines 73-117: flags, drag and lift are final. *)
Definition aerodynamic (controls : FlightControls.t) (deltaTime : Q)
    (this : FlightPhysics) : FlightPhysics :=
  aero_stage (stall_stage (propelled controls deltaTime this)).

(** After lines 119-136: the altitude after lift and gravity. *)
Definition integrated (controls : FlightControls.t) (deltaTime : Q)
    (this : FlightPhysics) : FlightPhysics :=
  vertical_stage deltaTime (aerodynamic controls deltaTime this).

(** After lines 138-164: speed is final. *)
Definition grounded (controls : FlightControls.t) (deltaTime : Q)
    (this : FlightPhysics) : FlightPhysics :=
  ground_stage deltaTime (integrated controls deltaTime this).

(** After lines 166-193: the smoothed inputs are final. *)
Definition smoothed (controls : FlightControls.t) (deltaTime : Q)
    (this : FlightPhysics) : FlightPhysics :=
  input_stage controls deltaTime (grounded controls deltaTime this).

(** After lines 195-207: the trims are final. *)
Definition trimmed (controls : FlightControls.t) (deltaTime : Q)
    (this : FlightPhysics) : FlightPhysics :=
  trim_stage deltaTime (smoothed controls deltaTime this).

(** After lines 209-252: the angular velocity is final. *)
Definition damped (controls : FlightControls.t) (deltaTime : Q)
    (this : FlightPhysics) : FlightPhysics :=
  damping_stage deltaTime
    (stability_stage deltaTime
       (control_stage deltaTime (trimmed controls deltaTime this))).

(** The state after line 267, before the gear toggle. *)
Definition attitude_done (controls : FlightControls.t) (deltaTime : Q)
    (this : FlightPhysics) : FlightPhysics :=
  let this := throttle_stage controls deltaTime this in
  let this := speed_stage deltaTime this in
  let this := stall_stage this in
  let this := aero_stage this in
  let this := vertical_stage deltaTime this in
  let this := ground_stage deltaTime this in
  let this := input_stage controls deltaTime this in
  let this := trim_stage deltaTime this in
  let this := control_stage deltaTime this in
  let this := stability_stage deltaTime this in
  let this := damping_stage deltaTime this in
  rotation_stage deltaTime this.

(** After lines 269-279: the state before the world bounds. *)
Definition translated (controls : FlightControls.t) (deltaTime : Q)
    (this : FlightPhysics) : FlightPhysics :=
  translate_stage
    (fst (gear_stage controls (attitude_done controls deltaTime this))).

Definition update (controls : FlightControls.t) (deltaTime : Q)
    (this : FlightPhysics) : FlightPhysics * FlightControls.t :=
  let this := attitude_done controls deltaTime this in
  let (this, controls) := gear_stage controls this in
  let this := translate_stage this in
  let this := bounds_stage this in
  (this, controls).

(** The states of a run of calls, each with a time slice that is not
    negative and with its own key state.  The relation is one of exact
    numbers: on doubles a run with long time slices also reaches states
    with NaN in rotation, position and lift, which it does not contain.
    It is used for throttle, speed and the flags, which overflow does
    not reach; what is said of the other fields is said of [flown]. *)
Inductive reachable : FlightPhysics -> Prop :=
| reach_init : reachable constructor
| reach_step : forall s controls deltaTime,
    reachable s -> 0 <= deltaTime ->
    reachable (fst (update controls deltaTime s)).

(** [n] calls with the same time slice on the same control record, as the
    animation loop makes them: the record written by one call is the one
    read by the next.  The steps add up exactly here; on doubles each
    sum is rounded. *)
Fixpoint run (n : nat) (controls : FlightControls.t) (deltaTime : Q)
    (this : FlightPhysics) : FlightPhysics * FlightControls.t :=
  match n with
  | O => (this, controls)
  | S n' =>
      let (this', controls') := run n' controls deltaTime this in
      update controls' deltaTime this'
  end.

(** The host loop, as far as the physics goes: the browser delivers key
    events and animation frames one at a time; a frame is one call of
    [update] with the time slice 0.016 on the control record that the
    key handlers write. *)
Inductive event : Set :=
| KeyDown (code : string)
| KeyUp (code : string)
| Frame.

Definition animate (w : FlightPhysics * FlightControls.t)
  : FlightPhysics * FlightControls.t :=
  let deltaTime := 0.016 in
  update (snd w) deltaTime (fst w).

Definition dispatch (e : event) (w : FlightPhysics * FlightControls.t)
  : FlightPhysics * FlightControls.t :=
  match e with
  | KeyDown code => (fst w, handleKeyDown code (snd w))
  | KeyUp code => (fst w, handleKeyUp code (snd w))
  | Frame => animate w
  end.

Definition play (events : list event)
    (w : FlightPhysics * FlightControls.t)
  : FlightPhysics * FlightControls.t :=
  fold_left (fun w e => dispatch e w) events w.

(** The chase camera of [animate]: the offset from the camera record,
    rotated with the aircraft ([new THREE.Euler(x, y, z)] has the order
    XYZ), and added to the position. *)
Definition cameraOffset (cameraControls : CameraControls.t) : Vector3.t :=
  Vector3.mk
    (Math_sin (CameraControls.mouseX cameraControls)
     * CameraControls.cameraDistance cameraControls)
    (CameraControls.cameraHeight cameraControls
     + CameraControls.mouseY cameraControls * 10)
    (Math_cos (CameraControls.mouseX cameraControls)
     * CameraControls.cameraDistance cameraControls).

Definition cameraPosition (cameraControls : CameraControls.t)
    (physics : FlightPhysics) : Vector3.t :=
  let cameraOffset :=
    applyEuler
      (Euler.mk (Euler.x (rotation physics)) (Euler.y (rotation physics))
         (Euler.z (rotation physics)))
      (cameraOffset cameraControls) in
  Vector3.mk
    (Vector3.x (position physics) + Vector3.x cameraOffset)
    (Vector3.y (position physics) + Vector3.y cameraOffset)
    (Vector3.z (position physics) + Vector3.z cameraOffset).

(* ------------------------------------------------------------------ *)
(** ** Predicates on states and controls *)

Definition within (lo hi v : Q) : Prop := lo <= v /\ v <= hi.

(** The bounds the data model gives to the fields. *)
Record Bounds (s : FlightPhysics) : Prop := mkBounds {
  throttle_bound : within 0 1 (throttle s);
  speed_bound : 0 <= speed s;
  pitch_bound :
    within (- Math_PI / 3) (Math_PI / 3) (Euler.x (rotation s));
  roll_bound :
    within (- Math_PI / 2) (Math_PI / 2) (Euler.z (rotation s));
  pitchTrim_bound : within (-0.3) 0.3 (pitchTrim s);
  rollTrim_bound : within (-0.2) 0.2 (rollTrim s);
  x_bound : within (-800) 800 (Vector3.x (position s));
  z_bound : within (-800) 800 (Vector3.z (position s));
  y_bound : Vector3.y (position s) <= 200
}.

(** What every call leaves behind, beyond [Bounds]: the stored drag is
    not negative, an open throttle caps the speed at 3.5 times the
    throttle, and the aircraft is not below the ground height. *)
Record Settled (s : FlightPhysics) : Prop := mkSettled {
  settled_bounds : Bounds s;
  settled_drag : 0 <= drag s;
  settled_cap : 0 < throttle s -> speed s <= 3.5 * throttle s;
  settled_floor : 0.8 <= Vector3.y (position s)
}.

(** Two states that agree on every field but [isGearDown]. *)
Definition same_but_gear (s1 s2 : FlightPhysics) : Prop :=
  set_isGearDown true s1 = set_isGearDown true s2.

(** Level, yaw zero, nothing turning, controls and trims neutral. *)
Definition steady_level (s : FlightPhysics) : Prop :=
  (Euler.x (rotation s) == 0 /\ Euler.y (rotation s) == 0
   /\ Euler.z (rotation s) == 0)
  /\ (Vector3.x (angularVelocity s) == 0
      /\ Vector3.y (angularVelocity s) == 0
      /\ Vector3.z (angularVelocity s) == 0)
  /\ (pitchInput s == 0 /\ rollInput s == 0 /\ yawInput s == 0)
  /\ (pitchTrim s == 0 /\ rollTrim s == 0).

(** The ranges of the camera record: the two clamps of the handlers,
    and the two fields that no handler writes. *)
Definition CameraOk (cc : CameraControls.t) : Prop :=
  within (-1) 1 (CameraControls.mouseY cc)
  /\ within 5 30 (CameraControls.cameraDistance cc)
  /\ CameraControls.cameraHeight cc = 8
  /\ CameraControls.cameraAngle cc = 0.

(** No key of the three axes is held. *)
Definition axes_released (c : FlightControls.t) : Prop :=
  FlightControls.pitchUp c = false /\ FlightControls.pitchDown c = false
  /\ FlightControls.left c = false /\ FlightControls.right c = false
  /\ FlightControls.yawLeft c = false /\ FlightControls.yawRight c = false.

(** The states of a run in which no key of the three axes is ever
    held: throttle, brake and gear keys only. *)
Inductive reachable_hands_off : FlightPhysics -> Prop :=
| hands_off_init : reachable_hands_off constructor
| hands_off_step : forall s controls deltaTime,
    reachable_hands_off s -> 0 <= deltaTime -> axes_released controls ->
    reachable_hands_off (fst (update controls deltaTime s)).

(** The states of the running simulator: what any sequence of key
    events and frames makes of the constructed state and the initial
    control record.  Every call has the time slice 0.016 of the
    animation loop. *)
Definition flown (s : FlightPhysics) : Prop :=
  exists events, s = fst (play events (constructor, controlsRef)).

(* ------------------------------------------------------------------ *)
(** ** The world bounds, in the words of the specification *)

(** A coordinate that crossed 800 reappears at -800, one that crossed
    -800 reappears at 800.  Lines 282-285 are compared with it. *)
Definition wrap (v : Q) : Q :=
  if Qgtb v 800 then -800 else if Qltb v (-800) then 800 else v.

(* ------------------------------------------------------------------ *)
(** ** Concrete inputs *)

(** Rational stand-ins for [Math.sin] and [Math.cos], to run the model on
    concrete inputs: the Taylor polynomials of degree three and two, in
    lowest terms.  At 0 they give the values of the sine and the
    cosine. *)
Definition sin_series (q : Q) : Q := Qred (q - q * q * q / 6).
Definition cos_series (q : Q) : Q := Qred (1 - q * q / 2).

(** No key is held. *)
Definition no_input : FlightControls.t :=
  FlightControls.mk false false false false false false false false false.

(** The throttle key alone is held. *)
Definition throttle_held : FlightControls.t :=
  FlightControls.mk true false false false false false false false false.

(** The brake key alone is held. *)
Definition brake_held : FlightControls.t :=
  FlightControls.mk false true false false false false false false false.

(** The time slice of the animation loop. *)
Definition frame : Q := 0.016.

(** An aircraft in level flight at altitude 10, away from the runway, at
    speed [v], throttle closed, nothing else moving. *)
Definition airborne (v : Q) : FlightPhysics :=
  mkFlightPhysics 0 v (Vector3.mk 0 10 300) (Euler.mk 0 0 0) 0 0
    true false false 0.3 0 0 0 0 0 (Vector3.mk 0 0 0).

(** Beside the runway, below the ground height, at rest. *)
Definition sunk : FlightPhysics :=
  mkFlightPhysics 0 0 (Vector3.mk 30 0.2 0) (Euler.mk 0 0 0) 0 0
    true false false 0.3 0 0 0 0 0 (Vector3.mk 0 0 0).

(** Level flight at full throttle and speed 3, with the lift and the
    drag of that speed, one unit before the edge of the world. *)
Definition cruising : FlightPhysics :=
  mkFlightPhysics 1 3 (Vector3.mk 0 50 799) (Euler.mk 0 0 0) 2.7 0.72
    true false false 0.3 0 0 0 0 0 (Vector3.mk 0 0 0).

(** Climbing gently, pitch 0.1, with the pitch trim already at 0.2:
    half throttle, speed 1.5, controls neutral, away from the runway. *)
Definition trimmed_up : FlightPhysics :=
  mkFlightPhysics 0.5 1.5 (Vector3.mk 0 50 300) (Euler.mk 0.1 0 0) 0.8775
    0.18 true false false 0.3 0 0 0 0.2 0 (Vector3.mk 0 0 0).

(** Level flight at speed 3 with the lift and the drag of that speed,
    one unit before the edge of the world, the throttle at 0.86. *)
Definition braking : FlightPhysics :=
  mkFlightPhysics 0.86 3 (Vector3.mk 0 50 799) (Euler.mk 0 0 0) 2.7 0.72
    true false false 0.3 0 0 0 0 0 (Vector3.mk 0 0 0).

(** [v] lies between [a] and [b], whichever is the larger. *)
Definition between (a b v : Q) : Prop :=
  (a <= v /\ v <= b) \/ (b <= v /\ v <= a).

(* ------------------------------------------------------------------ *)
(** ** Reading the tests and the clamps *)

Lemma Qltb_true (a b : Q) : Qltb a b = true <-> a < b.
Proof.
  unfold Qltb. rewrite negb_true_iff. split.
  - intros H. apply Qnot_le_lt. intro L.
    apply Qle_bool_iff in L. congruence.
  - intros H. destruct (Qle_bool b a) eqn:E; trivial.
    apply Qle_bool_iff in E. lra.
Qed.

Lemma Qltb_false (a b : Q) : Qltb a b = false <-> b <= a.
Proof.
  unfold Qltb. rewrite negb_false_iff. apply Qle_bool_iff.
Qed.

Lemma Qleb_true (a b : Q) : Qleb a b = true <-> a <= b.
Proof. apply Qle_bool_iff. Qed.

Lemma Qleb_false (a b : Q) : Qleb a b = false <-> b < a.
Proof.
  unfold Qleb. split.
  - intros H. apply Qnot_le_lt. intro L.
    apply Qle_bool_iff in L. congruence.
  - intros H. destruct (Qle_bool a b) eqn:E; trivial.
    apply Qle_bool_iff in E. lra.
Qed.

Lemma Qgtb_true (a b : Q) : Qgtb a b = true <-> b < a.
Proof. apply Qltb_true. Qed.

Lemma Qgtb_false (a b : Q) : Qgtb a b = false <-> a <= b.
Proof. apply Qltb_false. Qed.

(** The recorded outcomes of the tests, read as order facts. *)
Ltac readings :=
  repeat match goal with
  | T : Qgtb _ _ = true |- _ => apply Qgtb_true in T
  | T : Qgtb _ _ = false |- _ => apply Qgtb_false in T
  | T : Qltb _ _ = true |- _ => apply Qltb_true in T
  | T : Qltb _ _ = false |- _ => apply Qltb_false in T
  | T : Qleb _ _ = true |- _ => apply Qleb_true in T
  | T : Qleb _ _ = false |- _ => apply Qleb_false in T
  | T : negb _ = true |- _ => apply negb_true_iff in T
  | T : negb _ = false |- _ => apply negb_false_iff in T
  | T : _ && _ = true |- _ => apply andb_true_iff in T; destruct T
  | T : _ && _ = false |- _ => apply andb_false_iff in T; destruct T
  end.

(** Every [Qmin] and [Qmax] becomes a fresh number with its two
    defining cases, innermost first. *)
Ltac no_clamp t :=
  lazymatch t with
  | context [Qmax _ _] => fail
  | context [Qmin _ _] => fail
  | _ => idtac
  end.

Ltac clamp_max a b :=
  no_clamp a; no_clamp b;
  let m := fresh "m" in
  let H := fresh "M" in
  pose proof (Q.max_spec a b) as H;
  generalize dependent (Qmax a b); intros m H.

Ltac clamp_min a b :=
  no_clamp a; no_clamp b;
  let m := fresh "m" in
  let H := fresh "M" in
  pose proof (Q.min_spec a b) as H;
  generalize dependent (Qmin a b); intros m H.

Ltac clamps :=
  repeat match goal with
  | |- context [Qmax ?a ?b] => clamp_max a b
  | |- context [Qmin ?a ?b] => clamp_min a b
  | _ : context [Qmax ?a ?b] |- _ => clamp_max a b
  | _ : context [Qmin ?a ?b] |- _ => clamp_min a b
  end.

(** Projections of records that were just built are computed; numbers
    are left as they are written. *)
Ltac fields :=
  cbn [throttle speed position rotation lift drag isGearDown isOnRunway
       isStalling stallSpeed pitchInput rollInput yawInput pitchTrim
       rollTrim angularVelocity
       Vector3.x Vector3.y Vector3.z Vector3.set_x Vector3.set_y
       Vector3.set_z Euler.x Euler.y Euler.z Euler.set_x Euler.set_y
       Euler.set_z
       set_throttle set_speed set_position set_rotation set_lift set_drag
       set_isGearDown set_isOnRunway set_isStalling set_pitchInput
       set_rollInput set_yawInput set_pitchTrim set_rollTrim
       set_angularVelocity set_position_x set_position_y set_position_z
       set_angularVelocity_x set_angularVelocity_y set_angularVelocity_z
       set_rotation_x set_rotation_y set_rotation_z
       FlightControls.throttle FlightControls.brake FlightControls.left
       FlightControls.right FlightControls.pitchUp FlightControls.pitchDown
       FlightControls.yawLeft FlightControls.yawRight
       FlightControls.landingGear FlightControls.set_landingGear
       fst snd] in *.

(** Case analysis on every conditional of the goal, innermost test
    first, recording the outcome of each test.  A test between two
    literals is computed. *)
Ltac has_var t :=
  match t with
  | context [?x] => is_var x
  end.

Ltac branches :=
  repeat match goal with
  | |- context [if ?b then _ else _] =>
      tryif has_var b then fail else
        (let v := eval vm_compute in b in change b with v; cbv iota; fields)
  | |- context [if ?b then _ else _] =>
      lazymatch b with
      | context [if _ then _ else _] => fail
      | _ => idtac
      end;
      let T := fresh "T" in destruct b eqn:T; fields
  end.

(** A stage leaves a field alone: every branch is a record whose field
    is the old one. *)
Ltac untouched :=
  intros; fields;
  repeat match goal with
  | |- context [if ?b then _ else _] => destruct b
  end;
  reflexivity.

(** [f (stage x) = f x] for the outermost stage, then the next one. *)
Ltac head_of t :=
  lazymatch t with
  | ?f _ => head_of f
  | _ => t
  end.

Ltac skip_stage :=
  match goal with
  | |- ?f (?g ?x) = _ =>
      let h := head_of g in
      transitivity (f x);
      [ generalize x; unfold h;
        let y := fresh "y" in intro y; destruct y; untouched | ]
  | |- ?p (?f (?g ?x)) = _ =>
      lazymatch f with
      | position => idtac
      | rotation => idtac
      | angularVelocity => idtac
      end;
      let h := head_of g in
      transitivity (p (f x));
      [ generalize x; unfold h;
        let y := fresh "y" in intro y; destruct y; untouched | ]
  end.

(* ------------------------------------------------------------------ *)
(** ** Where each field of the result comes from *)

Lemma update_fst (c : FlightControls.t) (dt : Q) (s : FlightPhysics) :
  fst (update c dt s)
  = bounds_stage
      (translate_stage (fst (gear_stage c (attitude_done c dt s)))).
Proof.
  unfold update. destruct (gear_stage c (attitude_done c dt s)). reflexivity.
Qed.

Lemma update_snd (c : FlightControls.t) (dt : Q) (s : FlightPhysics) :
  snd (update c dt s) = snd (gear_stage c (attitude_done c dt s)).
Proof.
  unfold update. destruct (gear_stage c (attitude_done c dt s)). reflexivity.
Qed.

Lemma gear_keeps {A : Type} (f : FlightPhysics -> A)
    (c : FlightControls.t) (s : FlightPhysics) :
  (forall b x, f (set_isGearDown b x) = f x) ->
  f (fst (gear_stage c s)) = f s.
Proof.
  intros H. unfold gear_stage.
  destruct (FlightControls.landingGear c); cbn [fst]; auto.
Qed.

Lemma update_throttle (c : FlightControls.t) (dt : Q) (s : FlightPhysics) :
  throttle (fst (update c dt s)) = throttle (throttle_stage c dt s).
Proof.
  rewrite update_fst. cbv beta zeta delta [attitude_done].
  do 2 skip_stage. rewrite (gear_keeps throttle) by reflexivity.
  repeat skip_stage. reflexivity.
Qed.

(** The stages after the last one that writes the field are skipped. *)
Ltac locate :=
  intros; rewrite update_fst; cbv beta zeta delta [attitude_done];
  do 2 skip_stage;
  match goal with
  | |- ?f (fst (gear_stage _ _)) = _ =>
      rewrite (gear_keeps f) by reflexivity
  end;
  repeat skip_stage;
  unfold damped, trimmed, smoothed, grounded, integrated, aerodynamic,
    propelled;
  reflexivity.

Lemma update_speed (c : FlightControls.t) (dt : Q) (s : FlightPhysics) :
  speed (fst (update c dt s)) = speed (grounded c dt s).
Proof. locate. Qed.

Lemma update_rotation (c : FlightControls.t) (dt : Q) (s : FlightPhysics) :
  rotation (fst (update c dt s)) = rotation (attitude_done c dt s).
Proof. locate. Qed.

Lemma update_pitchTrim (c : FlightControls.t) (dt : Q) (s : FlightPhysics) :
  pitchTrim (fst (update c dt s)) = pitchTrim (trimmed c dt s).
Proof. locate. Qed.

Lemma update_rollTrim (c : FlightControls.t) (dt : Q) (s : FlightPhysics) :
  rollTrim (fst (update c dt s)) = rollTrim (trimmed c dt s).
Proof. locate. Qed.

Lemma update_lift (c : FlightControls.t) (dt : Q) (s : FlightPhysics) :
  lift (fst (update c dt s)) = lift (aerodynamic c dt s).
Proof. locate. Qed.

Lemma update_drag (c : FlightControls.t) (dt : Q) (s : FlightPhysics) :
  drag (fst (update c dt s)) = drag (aerodynamic c dt s).
Proof. locate. Qed.

Lemma update_isStalling (c : FlightControls.t) (dt : Q) (s : FlightPhysics) :
  isStalling (fst (update c dt s))
  = isStalling (stall_stage (propelled c dt s)).
Proof. locate. Qed.

Lemma update_isOnRunway (c : FlightControls.t) (dt : Q) (s : FlightPhysics) :
  isOnRunway (fst (update c dt s))
  = isOnRunway (stall_stage (propelled c dt s)).
Proof. locate. Qed.

Lemma update_stallSpeed (c : FlightControls.t) (dt : Q) (s : FlightPhysics) :
  stallSpeed (fst (update c dt s)) = stallSpeed s.
Proof. locate. Qed.

Lemma update_pitchInput (c : FlightControls.t) (dt : Q) (s : FlightPhysics) :
  pitchInput (fst (update c dt s)) = pitchInput (smoothed c dt s).
Proof. locate. Qed.

Lemma update_rollInput (c : FlightControls.t) (dt : Q) (s : FlightPhysics) :
  rollInput (fst (update c dt s)) = rollInput (smoothed c dt s).
Proof. locate. Qed.

Lemma update_yawInput (c : FlightControls.t) (dt : Q) (s : FlightPhysics) :
  yawInput (fst (update c dt s)) = yawInput (smoothed c dt s).
Proof. locate. Qed.

Lemma update_angularVelocity (c : FlightControls.t) (dt : Q)
    (s : FlightPhysics) :
  angularVelocity (fst (update c dt s)) = angularVelocity (damped c dt s).
Proof. locate. Qed.

(* ------------------------------------------------------------------ *)
(** ** Bounds of the state *)

Lemma clamp_within (lo hi v : Q) :
  lo <= hi -> within lo hi (Qmax lo (Qmin hi v)).
Proof.
  intros H. unfold within. clamps. lra.
Qed.

Lemma pitch_limits : - Math_PI / 3 <= Math_PI / 3.
Proof. unfold Qle. vm_compute. discriminate. Qed.

Lemma roll_limits : - Math_PI / 2 <= Math_PI / 2.
Proof. unfold Qle. vm_compute. discriminate. Qed.

Lemma throttle_stage_within (c : FlightControls.t) (dt : Q)
    (s : FlightPhysics) :
  0 <= dt -> within 0 1 (throttle s) ->
  within 0 1 (throttle (throttle_stage c dt s)).
Proof.
  unfold within, throttle_stage. intros Hdt [H0 H1].
  destruct (FlightControls.throttle c), (FlightControls.brake c);
    fields; clamps; lra.
Qed.

Lemma speed_stage_nonneg (dt : Q) (s : FlightPhysics) :
  0 <= speed (speed_stage dt s).
Proof.
  unfold speed_stage. fields. apply Q.le_max_r.
Qed.

Lemma propelled_speed_nonneg (c : FlightControls.t) (dt : Q)
    (s : FlightPhysics) :
  0 <= speed (propelled c dt s).
Proof. apply speed_stage_nonneg. Qed.

Lemma integrated_speed (c : FlightControls.t) (dt : Q) (s : FlightPhysics) :
  speed (integrated c dt s) = speed (propelled c dt s).
Proof.
  unfold integrated, aerodynamic. repeat skip_stage. reflexivity.
Qed.

Lemma ground_stage_speed_nonneg (dt : Q) (s : FlightPhysics) :
  0 <= speed s -> 0 <= speed (ground_stage dt s).
Proof.
  intros H. unfold ground_stage.
  destruct (Qltb (Vector3.y (position s)) groundHeight); trivial.
  fields. destruct (isOnRunway s).
  - destruct (Qltb _ 0.3); fields; apply Q.le_max_r.
  - fields. apply Q.le_max_r.
Qed.

Lemma grounded_speed_nonneg (c : FlightControls.t) (dt : Q)
    (s : FlightPhysics) :
  0 <= speed (grounded c dt s).
Proof.
  unfold grounded. apply ground_stage_speed_nonneg.
  rewrite integrated_speed. apply propelled_speed_nonneg.
Qed.

Lemma smoothed_pitchTrim (c : FlightControls.t) (dt : Q) (s : FlightPhysics) :
  pitchTrim (smoothed c dt s) = pitchTrim s.
Proof.
  unfold smoothed, grounded, integrated, aerodynamic, propelled.
  repeat skip_stage. reflexivity.
Qed.

Lemma smoothed_rollTrim (c : FlightControls.t) (dt : Q) (s : FlightPhysics) :
  rollTrim (smoothed c dt s) = rollTrim s.
Proof.
  unfold smoothed, grounded, integrated, aerodynamic, propelled.
  repeat skip_stage. reflexivity.
Qed.

Lemma trim_stage_pitch_within (dt : Q) (s : FlightPhysics) :
  within (-0.3) 0.3 (pitchTrim s) ->
  within (-0.3) 0.3 (pitchTrim (trim_stage dt s)).
Proof.
  unfold within, trim_stage. intros H.
  destruct (Qltb (Qabs (pitchInput s)) 0.1 && Qgtb (speed s) 0.4);
    fields;
    match goal with
    | |- context [if ?b then _ else _] => destruct b
    end; fields; trivial; clamps; lra.
Qed.

Lemma trim_stage_roll_within (dt : Q) (s : FlightPhysics) :
  within (-0.2) 0.2 (rollTrim s) ->
  within (-0.2) 0.2 (rollTrim (trim_stage dt s)).
Proof.
  unfold within, trim_stage. intros H.
  destruct (Qltb (Qabs (pitchInput s)) 0.1 && Qgtb (speed s) 0.4);
    fields;
    match goal with
    | |- context [if ?b then _ else _] => destruct b
    end; fields; trivial; clamps; lra.
Qed.

Lemma rotation_stage_pitch_within (dt : Q) (s : FlightPhysics) :
  within (- Math_PI / 3) (Math_PI / 3)
    (Euler.x (rotation (rotation_stage dt s))).
Proof.
  unfold rotation_stage. fields. apply clamp_within, pitch_limits.
Qed.

Lemma rotation_stage_roll_within (dt : Q) (s : FlightPhysics) :
  within (- Math_PI / 2) (Math_PI / 2)
    (Euler.z (rotation (rotation_stage dt s))).
Proof.
  unfold rotation_stage. fields. apply clamp_within, roll_limits.
Qed.

Lemma bounds_stage_x_within (s : FlightPhysics) :
  within (-800) 800 (Vector3.x (position (bounds_stage s))).
Proof.
  unfold within, bounds_stage. destruct s as [? ? [px py pz]]. fields.
  branches; readings; lra.
Qed.

Lemma bounds_stage_z_within (s : FlightPhysics) :
  within (-800) 800 (Vector3.z (position (bounds_stage s))).
Proof.
  unfold within, bounds_stage. destruct s as [? ? [px py pz]]. fields.
  branches; readings; lra.
Qed.

Lemma bounds_stage_y (s : FlightPhysics) :
  Vector3.y (position (bounds_stage s))
  == Qmin (Vector3.y (position s)) 200.
Proof.
  unfold bounds_stage. destruct s as [? ? [px py pz]]. fields.
  branches; readings; clamps; lra.
Qed.

Lemma update_Bounds (c : FlightControls.t) (dt : Q) (s : FlightPhysics) :
  0 <= dt ->
  within 0 1 (throttle s) ->
  within (-0.3) 0.3 (pitchTrim s) ->
  within (-0.2) 0.2 (rollTrim s) ->
  Bounds (fst (update c dt s)).
Proof.
  intros Hdt Ht Hp Hr. constructor.
  - rewrite update_throttle. now apply throttle_stage_within.
  - rewrite update_speed. apply grounded_speed_nonneg.
  - rewrite update_rotation. apply rotation_stage_pitch_within.
  - rewrite update_rotation. apply rotation_stage_roll_within.
  - rewrite update_pitchTrim. apply trim_stage_pitch_within.
    now rewrite smoothed_pitchTrim.
  - rewrite update_rollTrim. apply trim_stage_roll_within.
    now rewrite smoothed_rollTrim.
  - rewrite update_fst. apply bounds_stage_x_within.
  - rewrite update_fst. apply bounds_stage_z_within.
  - rewrite update_fst, bounds_stage_y. apply Q.le_min_r.
Qed.

(* ------------------------------------------------------------------ *)
(** ** The states of the host loop *)

Lemma play_cons (e : event) (events : list event)
    (w : FlightPhysics * FlightControls.t) :
  play (e :: events) w = play events (dispatch e w).
Proof. reflexivity. Qed.

Lemma animate_update (s : FlightPhysics) (c : FlightControls.t) :
  animate (s, c) = update c 0.016 s.
Proof. reflexivity. Qed.

Lemma frame_slice : 0 <= 0.016 /\ 15 * 0.016 <= 1.
Proof. split; unfold Qle; vm_compute; discriminate. Qed.

(** What the constructed state has and every frame keeps, every state
    of the loop has: the key handlers leave the physics alone. *)
Lemma play_preserves (P : FlightPhysics -> Prop) :
  (forall c s, P s -> P (fst (update c 0.016 s))) ->
  forall events w, P (fst w) -> P (fst (play events w)).
Proof.
  intros Step events. induction events as [|e events IH]; intros w H.
  - exact H.
  - rewrite play_cons. apply IH. destruct w as [s c]. cbn [fst] in H.
    destruct e as [code|code|]; cbn [dispatch fst snd].
    + exact H.
    + exact H.
    + rewrite animate_update. apply Step, H.
Qed.

Lemma flown_invariant (P : FlightPhysics -> Prop) :
  P constructor ->
  (forall c s, P s -> P (fst (update c 0.016 s))) ->
  forall s, flown s -> P s.
Proof.
  intros Init Step s [events E]. rewrite E.
  apply play_preserves; [exact Step | exact Init].
Qed.

Lemma flown_reachable (s : FlightPhysics) : flown s -> reachable s.
Proof.
  apply flown_invariant; [apply reach_init|].
  intros c s' R. apply reach_step; [exact R | apply frame_slice].
Qed.

Lemma constructor_Bounds : Bounds constructor.
Proof.
  constructor; unfold within; cbn; try split;
    unfold Qle; vm_compute; discriminate.
Qed.

(** C1, amended.  Every state that the animation loop reaches from the
    constructed state, by calls with the time slice 0.016 and whatever
    keys, satisfies the bounds: throttle in [0,1], speed at least 0,
    pitch in [-PI/3, PI/3], roll in [-PI/2, PI/2], pitchTrim in
    [-0.3, 0.3], rollTrim in [-0.2, 0.2], position x and z in
    [-800, 800], position y at most 200.  Over runs of calls with any
    time slice that is not negative, the bounds of throttle and speed
    hold as well; the other fields are bounded there in exact arithmetic
    only, since on doubles a long time slice leaves NaN in them. *)
Theorem reachable_Bounds (s : FlightPhysics) :
  (flown s -> Bounds s)
  /\ (reachable s -> within 0 1 (throttle s) /\ 0 <= speed s).
Proof.
  split.
  - revert s. apply flown_invariant; [apply constructor_Bounds|].
    intros c s [T _ _ _ PT RT _ _ _].
    apply update_Bounds; [apply frame_slice | exact T | exact PT | exact RT].
  - intros R.
    assert (B : Bounds s).
    { induction R as [|s c dt R IH Hdt].
      - apply constructor_Bounds.
      - destruct IH as [T _ _ _ PT RT _ _ _].
        apply update_Bounds; [exact Hdt | exact T | exact PT | exact RT]. }
    destruct B as [T V _ _ _ _ _ _ _]. split; [exact T | exact V].
Qed.

(* ------------------------------------------------------------------ *)
(** ** Runway and stall *)

Lemma onRunway_true (p : Vector3.t) :
  onRunway p = true
  <-> Qabs (Vector3.x p) < 25 /\ Qabs (Vector3.z p) < 100
      /\ Vector3.y p <= 0.8 + 0.1.
Proof.
  unfold onRunway, groundHeight.
  rewrite !andb_true_iff, !Qltb_true, Qleb_true. tauto.
Qed.

Lemma propelled_position (c : FlightControls.t) (dt : Q)
    (s : FlightPhysics) :
  position (propelled c dt s) = position s.
Proof. unfold propelled. repeat skip_stage. reflexivity. Qed.

Lemma propelled_stallSpeed (c : FlightControls.t) (dt : Q)
    (s : FlightPhysics) :
  stallSpeed (propelled c dt s) = stallSpeed s.
Proof. unfold propelled. repeat skip_stage. reflexivity. Qed.

Lemma propelled_rotation (c : FlightControls.t) (dt : Q)
    (s : FlightPhysics) :
  rotation (propelled c dt s) = rotation s.
Proof. unfold propelled. repeat skip_stage. reflexivity. Qed.

Lemma update_isStalling_eq (c : FlightControls.t) (dt : Q)
    (s : FlightPhysics) :
  isStalling (fst (update c dt s))
  = Qltb (speed (propelled c dt s)) (stallSpeed s)
    && negb (onRunway (position s))
    && Qgtb (Vector3.y (position s)) 2.
Proof.
  rewrite update_isStalling. unfold stall_stage. fields.
  now rewrite propelled_position, propelled_stallSpeed.
Qed.

Lemma update_isOnRunway_eq (c : FlightControls.t) (dt : Q)
    (s : FlightPhysics) :
  isOnRunway (fst (update c dt s)) = onRunway (position s).
Proof.
  rewrite update_isOnRunway. unfold stall_stage. fields.
  now rewrite propelled_position.
Qed.

(** With the throttle at zero and the throttle key up, the
    propulsion stage only decelerates and applies the stored drag. *)
Lemma propelled_speed_idle (c : FlightControls.t) (dt : Q)
    (s : FlightPhysics) :
  throttle s == 0 -> FlightControls.throttle c = false -> 0 <= dt ->
  speed (propelled c dt s)
  == Qmax (Qmax (speed s - 0.12 * dt) 0 - drag s * dt) 0.
Proof.
  intros Ht Hc Hdt.
  unfold propelled, speed_stage, throttle_stage, deceleration.
  rewrite Hc. destruct (FlightControls.brake c); fields.
  - branches; readings; [|reflexivity].
    exfalso. revert T. clamps. lra.
  - branches; readings; [|reflexivity]. lra.
Qed.

Lemma onRunway_false (p : Vector3.t) :
  onRunway p = false
  <-> ~ (Qabs (Vector3.x p) < 25 /\ Qabs (Vector3.z p) < 100
         /\ Vector3.y p <= 0.8 + 0.1).
Proof.
  rewrite <- onRunway_true. destruct (onRunway p); split; intros H;
    try discriminate; try reflexivity; try (intro; discriminate).
  exfalso. now apply H.
Qed.

(** C2, amended.  After one update call isStalling holds exactly when
    the speed left by the propulsion stage is below stallSpeed, the
    aircraft is not on the runway and the altitude exceeds 2; the runway
    flag is recomputed from the position as |x| < 25, |z| < 100 and
    y <= 0.8 + 0.1.  With stallSpeed 0.3, throttle closed, the throttle
    key up, altitude 10 (where the runway test fails whatever x and z),
    a stored drag and a time slice that are not negative: a state at
    speed 0.2 is stalling after the call; a state at speed 0.5 is not,
    as long as deceleration and stored drag take at most 0.2 off the
    speed in the call, (0.12 + drag) * dt <= 0.2, which the time slice
    of the animation loop ensures. *)
Theorem stall_rule (c : FlightControls.t) (dt : Q) (s : FlightPhysics) :
  (isStalling (fst (update c dt s)) = true
   <-> speed (propelled c dt s) < stallSpeed s
       /\ ~ (Qabs (Vector3.x (position s)) < 25
             /\ Qabs (Vector3.z (position s)) < 100
             /\ Vector3.y (position s) <= 0.8 + 0.1)
       /\ 2 < Vector3.y (position s))
  /\ (isOnRunway (fst (update c dt s)) = true
      <-> Qabs (Vector3.x (position s)) < 25
          /\ Qabs (Vector3.z (position s)) < 100
          /\ Vector3.y (position s) <= 0.8 + 0.1)
  /\ (stallSpeed s == 0.3 -> throttle s == 0 ->
      FlightControls.throttle c = false ->
      Vector3.y (position s) == 10 -> 0 <= dt -> 0 <= drag s ->
      (speed s == 0.2 -> isStalling (fst (update c dt s)) = true)
      /\ (speed s == 0.5 -> (0.12 + drag s) * dt <= 0.2 ->
          isStalling (fst (update c dt s)) = false)).
Proof.
  assert (E : isStalling (fst (update c dt s)) = true
   <-> speed (propelled c dt s) < stallSpeed s
       /\ ~ (Qabs (Vector3.x (position s)) < 25
             /\ Qabs (Vector3.z (position s)) < 100
             /\ Vector3.y (position s) <= 0.8 + 0.1)
       /\ 2 < Vector3.y (position s)).
  { rewrite update_isStalling_eq, !andb_true_iff, negb_true_iff,
      Qltb_true, Qgtb_true, onRunway_false. tauto. }
  split; [exact E|]. split.
  { rewrite update_isOnRunway_eq. apply onRunway_true. }
  intros Hst Ht Hc Hy Hdt Hd.
  pose proof (propelled_speed_idle c dt s Ht Hc Hdt) as P.
  assert (0 <= drag s * dt) by now apply Qmult_le_0_compat.
  split.
  - intros Hv. apply E. repeat split.
    + revert P. clamps. intros P. lra.
    + intros (_ & _ & F). lra.
    + lra.
  - intros Hv Hsmall.
    apply not_true_is_false. intros S.
    apply E in S. destruct S as [S _].
    revert P S. clamps. intros P S. lra.
Qed.

(* ------------------------------------------------------------------ *)
(** ** Drag and lift *)

Lemma aero_stage_drag (s : FlightPhysics) :
  drag (aero_stage s) = speed s * speed s * dragCoefficient.
Proof.
  unfold aero_stage. destruct s. fields.
  match goal with |- context [if ?b then _ else _] => destruct b end;
    reflexivity.
Qed.

Lemma aero_stage_lift (s : FlightPhysics) :
  lift (aero_stage s)
  = if isStalling s
    then speed s * speed s * liftCoefficient
         * Qmax 0.1 (angleOfAttackEffect (Euler.x (rotation s))) * 0.2
    else speed s * speed s * liftCoefficient
         * Qmax 0.1 (angleOfAttackEffect (Euler.x (rotation s))).
Proof.
  unfold aero_stage. destruct s. fields.
  match goal with |- context [if ?b then _ else _] => destruct b end;
    reflexivity.
Qed.

Lemma stall_stage_speed (s : FlightPhysics) :
  speed (stall_stage s) = speed s.
Proof. skip_stage. reflexivity. Qed.

Lemma stall_stage_rotation (s : FlightPhysics) :
  rotation (stall_stage s) = rotation s.
Proof. skip_stage. reflexivity. Qed.

Lemma throttle_stage_drag (c : FlightControls.t) (dt : Q)
    (s : FlightPhysics) :
  drag (throttle_stage c dt s) = drag s.
Proof. skip_stage. reflexivity. Qed.

Lemma throttle_stage_speed (c : FlightControls.t) (dt : Q)
    (s : FlightPhysics) :
  speed (throttle_stage c dt s) = speed s.
Proof. skip_stage. reflexivity. Qed.

Lemma angleOfAttackEffect_low (a : Q) :
  a < -0.3 -> angleOfAttackEffect a == 0.2.
Proof.
  intros H. unfold angleOfAttackEffect. branches; readings; lra.
Qed.

Lemma angleOfAttackEffect_linear (a : Q) :
  -0.3 <= a -> a <= 0.35 -> angleOfAttackEffect a == 1 + 3 * a.
Proof.
  intros H1 H2. unfold angleOfAttackEffect. branches; readings; lra.
Qed.

Lemma angleOfAttackEffect_high (a : Q) :
  0.35 < a -> angleOfAttackEffect a == 2 - 2 * (a - 0.35).
Proof.
  intros H. unfold angleOfAttackEffect. branches; readings; lra.
Qed.

(** C3. In every update call, drag is the square of the speed left by
    the propulsion stage times 0.08, and lift is that square times 0.3
    times max(0.1, effect), times 0.2 when isStalling, where effect is
    0.2 for a pitch a below -0.3, 1 + 3a for a from -0.3 to 0.35, and
    2 - 2(a - 0.35) above 0.35.  The drag taken off the speed in the
    propulsion stage is the drag field as the call found it, that is the
    value the previous call stored. *)
Theorem aerodynamic_rule (c : FlightControls.t) (dt : Q)
    (s : FlightPhysics) :
  let v := speed (propelled c dt s) in
  let a := Euler.x (rotation s) in
  let base := v * v * 0.3 * Qmax 0.1 (angleOfAttackEffect a) in
  let t := throttle (throttle_stage c dt s) in
  let u :=
    if Qgtb t 0
    then Qmin (speed s + t * 3.5 * 1 * dt) (3.5 * t)
    else Qmax (speed s - 0.12 * dt) 0 in
  drag (fst (update c dt s)) == v * v * 0.08
  /\ lift (fst (update c dt s))
     == (if isStalling (fst (update c dt s)) then base * 0.2 else base)
  /\ (forall x : Q,
        (x < -0.3 -> angleOfAttackEffect x == 0.2)
        /\ (-0.3 <= x -> x <= 0.35 -> angleOfAttackEffect x == 1 + 3 * x)
        /\ (0.35 < x -> angleOfAttackEffect x == 2 - 2 * (x - 0.35)))
  /\ v == Qmax (u - drag s * dt) 0.
Proof.
  cbv zeta. repeat split.
  - rewrite update_drag. unfold aerodynamic.
    rewrite aero_stage_drag, stall_stage_speed. reflexivity.
  - rewrite update_lift, update_isStalling. unfold aerodynamic.
    rewrite aero_stage_lift, stall_stage_speed, stall_stage_rotation,
      propelled_rotation.
    destruct (isStalling _); reflexivity.
  - apply angleOfAttackEffect_low.
  - apply angleOfAttackEffect_linear.
  - apply angleOfAttackEffect_high.
  - unfold propelled, speed_stage, maxSpeed, deceleration.
    destruct (Qgtb (throttle (throttle_stage c dt s)) 0); fields;
      rewrite throttle_stage_drag, throttle_stage_speed; reflexivity.
Qed.

(* ------------------------------------------------------------------ *)
(** ** Landing gear *)

Lemma attitude_done_isGearDown (c : FlightControls.t) (dt : Q)
    (s : FlightPhysics) :
  isGearDown (attitude_done c dt s) = isGearDown s.
Proof.
  cbv beta zeta delta [attitude_done]. repeat skip_stage. reflexivity.
Qed.

Lemma update_isGearDown (c : FlightControls.t) (dt : Q)
    (s : FlightPhysics) :
  isGearDown (fst (update c dt s))
  = if FlightControls.landingGear c
    then negb (isGearDown s) else isGearDown s.
Proof.
  rewrite update_fst. do 2 skip_stage. unfold gear_stage.
  destruct (FlightControls.landingGear c); fields;
    now rewrite attitude_done_isGearDown.
Qed.

Lemma update_controls (c : FlightControls.t) (dt : Q) (s : FlightPhysics) :
  snd (update c dt s)
  = if FlightControls.landingGear c
    then FlightControls.set_landingGear false c else c.
Proof.
  rewrite update_snd. unfold gear_stage.
  now destruct (FlightControls.landingGear c).
Qed.

(** C7. update changes at most the landingGear field of the caller's
    control record.  When landingGear is true at the call, isGearDown is
    negated and the record comes back with landingGear false; when it is
    false, isGearDown and the record are unchanged.  The eight other
    flags always come back as they were, and a second call on the
    returned record does not flip the gear again. *)
Theorem gear_toggle (c : FlightControls.t) (dt dt' : Q)
    (s : FlightPhysics) :
  let s' := fst (update c dt s) in
  let c' := snd (update c dt s) in
  (FlightControls.landingGear c = true ->
     isGearDown s' = negb (isGearDown s)
     /\ FlightControls.landingGear c' = false)
  /\ (FlightControls.landingGear c = false ->
        isGearDown s' = isGearDown s /\ c' = c)
  /\ (FlightControls.throttle c' = FlightControls.throttle c
      /\ FlightControls.brake c' = FlightControls.brake c
      /\ FlightControls.left c' = FlightControls.left c
      /\ FlightControls.right c' = FlightControls.right c
      /\ FlightControls.pitchUp c' = FlightControls.pitchUp c
      /\ FlightControls.pitchDown c' = FlightControls.pitchDown c
      /\ FlightControls.yawLeft c' = FlightControls.yawLeft c
      /\ FlightControls.yawRight c' = FlightControls.yawRight c)
  /\ isGearDown (fst (update c' dt' s')) = isGearDown s'
  /\ FlightControls.landingGear (snd (update c' dt' s')) = false.
Proof.
  cbv zeta.
  rewrite !update_isGearDown, !update_controls.
  destruct c as [a1 a2 a3 a4 a5 a6 a7 a8 g]. fields.
  destruct g; fields; repeat split; try discriminate; reflexivity.
Qed.

(** No stage reads the gear: each commutes with an assignment to
    [isGearDown]. *)
Ltac gear_blind :=
  intros;
  match goal with
  | |- ?g (set_isGearDown _ ?s) = _ =>
      let h := head_of g in unfold h; destruct s
  end;
  fields; branches; reflexivity.

Lemma throttle_stage_gear (c : FlightControls.t) (dt : Q) (g : bool)
    (s : FlightPhysics) :
  throttle_stage c dt (set_isGearDown g s)
  = set_isGearDown g (throttle_stage c dt s).
Proof. gear_blind. Qed.

Lemma speed_stage_gear (dt : Q) (g : bool) (s : FlightPhysics) :
  speed_stage dt (set_isGearDown g s) = set_isGearDown g (speed_stage dt s).
Proof. gear_blind. Qed.

Lemma stall_stage_gear (g : bool) (s : FlightPhysics) :
  stall_stage (set_isGearDown g s) = set_isGearDown g (stall_stage s).
Proof. gear_blind. Qed.

Lemma aero_stage_gear (g : bool) (s : FlightPhysics) :
  aero_stage (set_isGearDown g s) = set_isGearDown g (aero_stage s).
Proof. gear_blind. Qed.

Lemma vertical_stage_gear (dt : Q) (g : bool) (s : FlightPhysics) :
  vertical_stage dt (set_isGearDown g s)
  = set_isGearDown g (vertical_stage dt s).
Proof. gear_blind. Qed.

Lemma ground_stage_gear (dt : Q) (g : bool) (s : FlightPhysics) :
  ground_stage dt (set_isGearDown g s)
  = set_isGearDown g (ground_stage dt s).
Proof. gear_blind. Qed.

Lemma input_stage_gear (c : FlightControls.t) (dt : Q) (g : bool)
    (s : FlightPhysics) :
  input_stage c dt (set_isGearDown g s)
  = set_isGearDown g (input_stage c dt s).
Proof. gear_blind. Qed.

Lemma trim_stage_gear (dt : Q) (g : bool) (s : FlightPhysics) :
  trim_stage dt (set_isGearDown g s) = set_isGearDown g (trim_stage dt s).
Proof. gear_blind. Qed.

Lemma control_stage_gear (dt : Q) (g : bool) (s : FlightPhysics) :
  control_stage dt (set_isGearDown g s)
  = set_isGearDown g (control_stage dt s).
Proof. gear_blind. Qed.

Lemma stability_stage_gear (dt : Q) (g : bool) (s : FlightPhysics) :
  stability_stage dt (set_isGearDown g s)
  = set_isGearDown g (stability_stage dt s).
Proof. gear_blind. Qed.

Lemma damping_stage_gear (dt : Q) (g : bool) (s : FlightPhysics) :
  damping_stage dt (set_isGearDown g s)
  = set_isGearDown g (damping_stage dt s).
Proof. gear_blind. Qed.

Lemma rotation_stage_gear (dt : Q) (g : bool) (s : FlightPhysics) :
  rotation_stage dt (set_isGearDown g s)
  = set_isGearDown g (rotation_stage dt s).
Proof. gear_blind. Qed.

Lemma translate_stage_gear (g : bool) (s : FlightPhysics) :
  translate_stage (set_isGearDown g s)
  = set_isGearDown g (translate_stage s).
Proof. unfold translate_stage, forwardVector. destruct s. reflexivity. Qed.

Lemma bounds_stage_gear (g : bool) (s : FlightPhysics) :
  bounds_stage (set_isGearDown g s) = set_isGearDown g (bounds_stage s).
Proof. gear_blind. Qed.

Lemma attitude_done_gear (c : FlightControls.t) (dt : Q) (g : bool)
    (s : FlightPhysics) :
  attitude_done c dt (set_isGearDown g s)
  = set_isGearDown g (attitude_done c dt s).
Proof.
  cbv beta zeta delta [attitude_done].
  now rewrite throttle_stage_gear, speed_stage_gear, stall_stage_gear,
    aero_stage_gear, vertical_stage_gear, ground_stage_gear,
    input_stage_gear, trim_stage_gear, control_stage_gear,
    stability_stage_gear, damping_stage_gear, rotation_stage_gear.
Qed.

Lemma set_isGearDown_twice (a b : bool) (s : FlightPhysics) :
  set_isGearDown a (set_isGearDown b s) = set_isGearDown a s.
Proof. reflexivity. Qed.

Lemma set_isGearDown_same (s : FlightPhysics) :
  set_isGearDown (isGearDown s) s = s.
Proof. now destruct s. Qed.

Lemma gear_stage_gear (c : FlightControls.t) (g : bool)
    (s : FlightPhysics) :
  gear_stage c (set_isGearDown g s)
  = (set_isGearDown
       (if FlightControls.landingGear c then negb g else g)
       (fst (gear_stage c s)),
     snd (gear_stage c s)).
Proof.
  unfold gear_stage. destruct (FlightControls.landingGear c), s;
    reflexivity.
Qed.

Lemma update_gear (c : FlightControls.t) (dt : Q) (g : bool)
    (s : FlightPhysics) :
  update c dt (set_isGearDown g s)
  = (set_isGearDown
       (if FlightControls.landingGear c then negb g else g)
       (fst (update c dt s)),
     snd (update c dt s)).
Proof.
  rewrite update_fst, update_snd. unfold update.
  rewrite attitude_done_gear, gear_stage_gear. cbv beta iota zeta.
  now rewrite translate_stage_gear, bounds_stage_gear.
Qed.

Lemma same_but_gear_set (s1 s2 : FlightPhysics) :
  same_but_gear s1 s2 <-> s2 = set_isGearDown (isGearDown s2) s1.
Proof.
  unfold same_but_gear. destruct s1, s2. cbn. split; intros H.
  - now injection H as -> -> -> -> -> -> -> -> -> -> -> -> -> -> ->.
  - now injection H as -> -> -> -> -> -> -> -> -> -> -> -> -> -> ->.
Qed.

(** C10. The gear state has no effect on the physics: from two states
    that differ at most in isGearDown, update with the same control
    record and the same time slice gives two states that differ at most
    in isGearDown, and the same control record; when landingGear is
    false each keeps its own gear state. *)
Theorem gear_noninterference (c : FlightControls.t) (dt : Q)
    (s1 s2 : FlightPhysics) :
  same_but_gear s1 s2 ->
  same_but_gear (fst (update c dt s1)) (fst (update c dt s2))
  /\ snd (update c dt s1) = snd (update c dt s2)
  /\ (FlightControls.landingGear c = false ->
      isGearDown (fst (update c dt s1)) = isGearDown s1
      /\ isGearDown (fst (update c dt s2)) = isGearDown s2).
Proof.
  intros H. apply (proj1 (same_but_gear_set s1 s2)) in H. revert H.
  generalize (isGearDown s2). intros g ->.
  rewrite update_gear. fields. split; [|split].
  - unfold same_but_gear. symmetry. apply set_isGearDown_twice.
  - reflexivity.
  - intros H. rewrite H, update_isGearDown, H. now split.
Qed.

(* ------------------------------------------------------------------ *)
(** ** Throttle ramp *)

Lemma update_throttle_held (c : FlightControls.t) (dt : Q)
    (s : FlightPhysics) :
  FlightControls.throttle c = true -> FlightControls.brake c = false ->
  throttle (fst (update c dt s)) = Qmin (throttle s + 0.5 * dt) 1.
Proof.
  intros Ht Hb. rewrite update_throttle. unfold throttle_stage.
  now rewrite Ht, Hb.
Qed.

Lemma run_flags (n : nat) (c : FlightControls.t) (dt : Q)
    (s : FlightPhysics) :
  FlightControls.throttle (snd (run n c dt s)) = FlightControls.throttle c
  /\ FlightControls.brake (snd (run n c dt s)) = FlightControls.brake c.
Proof.
  induction n as [|n [IH1 IH2]]; [now split|].
  cbn [run]. destruct (run n c dt s) as [s' c']. cbn [snd] in *.
  rewrite update_controls.
  destruct (FlightControls.landingGear c'), c'; cbn in *; now split.
Qed.

Lemma run_throttle_step (n : nat) (c : FlightControls.t) (dt : Q)
    (s : FlightPhysics) :
  FlightControls.throttle c = true -> FlightControls.brake c = false ->
  throttle (fst (run (S n) c dt s))
  = Qmin (throttle (fst (run n c dt s)) + 0.5 * dt) 1.
Proof.
  intros Ht Hb. destruct (run_flags n c dt s) as [F1 F2].
  cbn [run]. destruct (run n c dt s) as [s' c']. cbn [fst snd] in *.
  apply update_throttle_held; congruence.
Qed.

Lemma run_throttle_ramp (n : nat) (c : FlightControls.t) (dt : Q)
    (s : FlightPhysics) :
  FlightControls.throttle c = true -> FlightControls.brake c = false ->
  0 <= dt -> throttle s == 0 ->
  throttle (fst (run n c dt s))
  == Qmin (inject_Z (Z.of_nat n) * (0.5 * dt)) 1.
Proof.
  intros Ht Hb Hdt H0. induction n as [|n IH].
  - cbn [run fst]. rewrite H0. change (inject_Z (Z.of_nat 0)) with 0.
    clamps. lra.
  - rewrite run_throttle_step by assumption.
    rewrite Nat2Z.inj_succ. unfold Z.succ. rewrite inject_Z_plus.
    change (inject_Z 1) with 1.
    assert (0 <= inject_Z (Z.of_nat n)).
    { change 0 with (inject_Z 0). rewrite <- Zle_Qle. lia. }
    assert (0 <= inject_Z (Z.of_nat n) * dt) by
      now apply Qmult_le_0_compat.
    revert IH. generalize (throttle (fst (run n c dt s))). intros t IH.
    revert IH. clamps. intros IH. lra.
Qed.

(** C8. From throttle 0, with the throttle key held and the brake key
    up, in steps of 0.016: every call adds 0.5 * dt to the throttle up
    to the clamp at 1; after n calls the throttle is min(n * 0.008, 1),
    which is never above 1 and is exactly 1 after 125 calls, two
    seconds of simulated time.  On doubles the 125th value is exactly
    1.0 as well, and no value on the way is above 1.0. *)
Theorem throttle_ramp (c : FlightControls.t) (s : FlightPhysics) :
  FlightControls.throttle c = true -> FlightControls.brake c = false ->
  throttle s == 0 ->
  (forall dt s', throttle (fst (update c dt s'))
                 == Qmin (throttle s' + 0.5 * dt) 1)
  /\ (forall n, throttle (fst (run n c 0.016 s))
                == Qmin (inject_Z (Z.of_nat n) * 0.008) 1)
  /\ (forall n, throttle (fst (run n c 0.016 s)) <= 1)
  /\ throttle (fst (run 125 c 0.016 s)) == 1
  /\ inject_Z (Z.of_nat 125) * 0.016 == 2
  /\ Double.ramp 125 = Double.one
  /\ Double.ramp_bounded 125 = true.
Proof.
  intros Ht Hb H0.
  assert (R : forall n, throttle (fst (run n c 0.016 s))
                        == Qmin (inject_Z (Z.of_nat n) * 0.008) 1).
  { intros n. rewrite (run_throttle_ramp n c 0.016 s Ht Hb); trivial.
    - assert (E : 0.5 * 0.016 == 0.008) by reflexivity.
      rewrite E. reflexivity.
    - vm_compute. discriminate. }
  split; [|split; [exact R|split; [|split; [|split; [|split]]]]].
  - intros dt s'. now rewrite update_throttle_held.
  - intros n. rewrite R. apply Q.le_min_r.
  - rewrite R. vm_compute. reflexivity.
  - vm_compute. reflexivity.
  - vm_compute. reflexivity.
  - vm_compute. reflexivity.
Qed.

(* ------------------------------------------------------------------ *)
(** ** Altitude *)

Lemma ground_stage_y (dt : Q) (s : FlightPhysics) :
  Vector3.y (position (ground_stage dt s))
  = if Qltb (Vector3.y (position s)) groundHeight
    then Qmax groundHeight minimumHeight
    else Vector3.y (position s).
Proof.
  unfold ground_stage. destruct s as [? ? [px py pz]]. fields.
  branches; reflexivity.
Qed.

Lemma translate_stage_y (s : FlightPhysics) :
  Vector3.y (position (translate_stage s)) = Vector3.y (position s).
Proof. reflexivity. Qed.

Lemma attitude_done_position (c : FlightControls.t) (dt : Q)
    (s : FlightPhysics) :
  position (attitude_done c dt s) = position (grounded c dt s).
Proof.
  cbv beta zeta delta [attitude_done]. repeat skip_stage.
  unfold grounded, integrated, aerodynamic, propelled. reflexivity.
Qed.

Lemma attitude_done_speed (c : FlightControls.t) (dt : Q)
    (s : FlightPhysics) :
  speed (attitude_done c dt s) = speed (grounded c dt s).
Proof.
  cbv beta zeta delta [attitude_done]. repeat skip_stage.
  unfold grounded, integrated, aerodynamic, propelled. reflexivity.
Qed.

Lemma update_y (c : FlightControls.t) (dt : Q) (s : FlightPhysics) :
  Vector3.y (position (fst (update c dt s)))
  == Qmin (Vector3.y (position (grounded c dt s))) 200.
Proof.
  rewrite update_fst, bounds_stage_y, translate_stage_y.
  rewrite (gear_keeps position) by reflexivity.
  now rewrite attitude_done_position.
Qed.

Lemma grounded_y (c : FlightControls.t) (dt : Q) (s : FlightPhysics) :
  Vector3.y (position (grounded c dt s))
  = if Qltb (Vector3.y (position (integrated c dt s))) 0.8
    then Qmax 0.8 0.5
    else Vector3.y (position (integrated c dt s)).
Proof. unfold grounded. apply ground_stage_y. Qed.

(** C9. In every update call, if the altitude is below 0.8 after lift
    and gravity, it is set to max(0.8, 0.5), which is 0.8, and that is
    the altitude the call ends with, so at least 0.5; and whatever the
    state and the time slice, no call ends with a negative altitude.
    In the states of the animation loop the altitude is at least 0.8.
    (That every call ends at 0.8 or above is true of exact numbers
    only: on doubles a call can end with the altitude NaN, which is
    not negative, but is not at least 0.8 either.) *)
Theorem ground_clamp (c : FlightControls.t) (dt : Q) (s : FlightPhysics) :
  (Vector3.y (position (integrated c dt s)) < 0.8 ->
   Vector3.y (position (grounded c dt s)) == Qmax 0.8 0.5
   /\ Vector3.y (position (fst (update c dt s))) == Qmax 0.8 0.5
   /\ 0.5 <= Vector3.y (position (fst (update c dt s))))
  /\ Qmax 0.8 0.5 == 0.8
  /\ ~ Vector3.y (position (fst (update c dt s))) < 0
  /\ (flown s -> 0.8 <= Vector3.y (position s)).
Proof.
  assert (M : Qmax 0.8 0.5 == 0.8) by reflexivity.
  assert (G : forall c dt s,
             0.8 <= Vector3.y (position (fst (update c dt s)))).
  { intros c0 dt0 s0. rewrite update_y, grounded_y.
    branches; readings; rewrite ?M; clamps; lra. }
  split; [|split; [exact M|split]].
  - intros L. rewrite update_y, grounded_y.
    apply Qltb_true in L. rewrite L. rewrite M.
    split; [reflexivity|]. split; clamps; lra.
  - pose proof (G c dt s) as G0. revert G0.
    generalize (Vector3.y (position (fst (update c dt s)))).
    intros y G0 N. lra.
  - revert s. apply flown_invariant; [cbn; lra|].
    intros c0 s0 _. apply G.
Qed.

(* ------------------------------------------------------------------ *)
(** ** Translation and world bounds *)

Lemma update_translated (c : FlightControls.t) (dt : Q)
    (s : FlightPhysics) :
  fst (update c dt s) = bounds_stage (translated c dt s).
Proof. apply update_fst. Qed.

Lemma bounds_stage_x (s : FlightPhysics) :
  Vector3.x (position (bounds_stage s)) = wrap (Vector3.x (position s)).
Proof.
  unfold bounds_stage, wrap. destruct s as [? ? [px py pz]]. fields.
  branches; reflexivity.
Qed.

Lemma bounds_stage_z (s : FlightPhysics) :
  Vector3.z (position (bounds_stage s)) = wrap (Vector3.z (position s)).
Proof.
  unfold bounds_stage, wrap. destruct s as [? ? [px py pz]]. fields.
  branches; reflexivity.
Qed.

Lemma wrap_cases (v : Q) :
  (800 < v -> wrap v == -800)
  /\ (v < -800 -> wrap v == 800)
  /\ (-800 <= v -> v <= 800 -> wrap v == v).
Proof.
  unfold wrap. repeat split; intros; branches; readings; lra.
Qed.

Lemma clamp_zero (lo hi e : Q) :
  lo <= 0 -> 0 <= hi -> e == 0 -> Qmax lo (Qmin hi e) == 0.
Proof. intros L H E. clamps. lra. Qed.

(** A sum of products that each have a factor known to be 0. *)
Ltac vanish :=
  repeat match goal with
  | H : ?v == 0 |- _ => is_var v; rewrite ?H; clear H
  end;
  ring.

Ltac steady_goals :=
  unfold steady_level; fields;
  intros [[? [? ?]] [[? [? ?]] [[? [? ?]] [? ?]]]];
  repeat split; try assumption.

Lemma input_stage_steady (c : FlightControls.t) (dt : Q)
    (s : FlightPhysics) :
  axes_released c -> steady_level s -> steady_level (input_stage c dt s).
Proof.
  intros (U & D & L & R & YL & YR).
  unfold input_stage, targetPitchInput, targetRollInput, targetYawInput.
  rewrite U, D, L, R, YL, YR.
  destruct s as [? ? ? [rx ry rz] ? ? ? ? ? ? pin rin yin pt rt [ax ay az]].
  steady_goals; vanish.
Qed.

Lemma trim_stage_steady (dt : Q) (s : FlightPhysics) :
  steady_level s -> steady_level (trim_stage dt s).
Proof.
  unfold trim_stage.
  destruct s as [? ? ? [rx ry rz] ? ? ? ? ? ? pin rin yin pt rt [ax ay az]].
  fields. branches; steady_goals;
    (apply clamp_zero; [vm_compute; discriminate ..|vanish]).
Qed.

Lemma control_stage_steady (dt : Q) (s : FlightPhysics) :
  steady_level s -> steady_level (control_stage dt s).
Proof.
  unfold control_stage, speedEffectiveness.
  destruct s as [? ? ? [rx ry rz] ? ? ? ? ? ? pin rin yin pt rt [ax ay az]].
  fields. branches; steady_goals; vanish.
Qed.

Lemma stability_stage_steady (dt : Q) (s : FlightPhysics) :
  steady_level s -> steady_level (stability_stage dt s).
Proof.
  unfold stability_stage, speedEffectiveness.
  destruct s as [? ? ? [rx ry rz] ? ? ? ? ? ? pin rin yin pt rt [ax ay az]].
  fields. branches; steady_goals; vanish.
Qed.

Lemma damping_stage_steady (dt : Q) (s : FlightPhysics) :
  steady_level s -> steady_level (damping_stage dt s).
Proof.
  unfold damping_stage.
  destruct s as [? ? ? [rx ry rz] ? ? ? ? ? ? pin rin yin pt rt [ax ay az]].
  steady_goals; vanish.
Qed.

Lemma rotation_stage_steady (dt : Q) (s : FlightPhysics) :
  steady_level s -> steady_level (rotation_stage dt s).
Proof.
  unfold rotation_stage.
  destruct s as [? ? ? [rx ry rz] ? ? ? ? ? ? pin rin yin pt rt [ax ay az]].
  steady_goals; try vanish;
    (apply clamp_zero; [vm_compute; discriminate ..|vanish]).
Qed.

Lemma steady_level_ext (a b : FlightPhysics) :
  rotation a = rotation b -> angularVelocity a = angularVelocity b ->
  pitchInput a = pitchInput b -> rollInput a = rollInput b ->
  yawInput a = yawInput b -> pitchTrim a = pitchTrim b ->
  rollTrim a = rollTrim b ->
  steady_level b -> steady_level a.
Proof.
  unfold steady_level. intros -> -> -> -> -> -> ->. trivial.
Qed.

Lemma integrated_isOnRunway (c : FlightControls.t) (dt : Q)
    (s : FlightPhysics) :
  isOnRunway (integrated c dt s) = onRunway (position s).
Proof.
  unfold integrated, aerodynamic. do 2 skip_stage.
  unfold stall_stage. fields. now rewrite propelled_position.
Qed.

Lemma ground_stage_angularVelocity (dt : Q) (s : FlightPhysics) :
  isOnRunway s = false ->
  angularVelocity (ground_stage dt s) = angularVelocity s.
Proof.
  intros H. unfold ground_stage. destruct s. fields. subst.
  branches; reflexivity.
Qed.

Lemma grounded_steady (c : FlightControls.t) (dt : Q) (s : FlightPhysics) :
  onRunway (position s) = false ->
  steady_level s -> steady_level (grounded c dt s).
Proof.
  intros H. apply steady_level_ext.
  - unfold grounded, integrated, aerodynamic, propelled.
    repeat skip_stage. reflexivity.
  - unfold grounded.
    rewrite ground_stage_angularVelocity
      by now rewrite integrated_isOnRunway.
    unfold integrated, aerodynamic, propelled.
    repeat skip_stage. reflexivity.
  - unfold grounded, integrated, aerodynamic, propelled.
    repeat skip_stage. reflexivity.
  - unfold grounded, integrated, aerodynamic, propelled.
    repeat skip_stage. reflexivity.
  - unfold grounded, integrated, aerodynamic, propelled.
    repeat skip_stage. reflexivity.
  - unfold grounded, integrated, aerodynamic, propelled.
    repeat skip_stage. reflexivity.
  - unfold grounded, integrated, aerodynamic, propelled.
    repeat skip_stage. reflexivity.
Qed.

Lemma attitude_done_open (c : FlightControls.t) (dt : Q)
    (s : FlightPhysics) :
  attitude_done c dt s
  = rotation_stage dt
      (damping_stage dt
         (stability_stage dt
            (control_stage dt
               (trim_stage dt (input_stage c dt (grounded c dt s)))))).
Proof.
  cbv beta zeta delta [attitude_done].
  unfold grounded, integrated, aerodynamic, propelled. reflexivity.
Qed.

Lemma attitude_done_steady (c : FlightControls.t) (dt : Q)
    (s : FlightPhysics) :
  axes_released c -> onRunway (position s) = false ->
  steady_level s -> steady_level (attitude_done c dt s).
Proof.
  intros A R S. rewrite attitude_done_open.
  apply rotation_stage_steady, damping_stage_steady,
    stability_stage_steady, control_stage_steady, trim_stage_steady,
    input_stage_steady; [exact A|].
  exact (grounded_steady c dt s R S).
Qed.

(** With no rotation the forward axis stays (0, 0, 1): only the sine and
    the cosine of 0 are used. *)
Lemma applyEuler_level (e : Euler.t) :
  (forall q, q == 0 -> Math_cos q == 1) ->
  (forall q, q == 0 -> Math_sin q == 0) ->
  Euler.x e == 0 -> Euler.y e == 0 -> Euler.z e == 0 ->
  Vector3.x (applyEuler e (Vector3.mk 0 0 1)) == 0
  /\ Vector3.z (applyEuler e (Vector3.mk 0 0 1)) == 1.
Proof.
  intros Hc Hs X Y Z.
  assert (X2 : Euler.x e / 2 == 0) by (rewrite X; reflexivity).
  assert (Y2 : Euler.y e / 2 == 0) by (rewrite Y; reflexivity).
  assert (Z2 : Euler.z e / 2 == 0) by (rewrite Z; reflexivity).
  pose proof (Hc _ X2) as C1. pose proof (Hc _ Y2) as C2.
  pose proof (Hc _ Z2) as C3. pose proof (Hs _ X2) as S1.
  pose proof (Hs _ Y2) as S2. pose proof (Hs _ Z2) as S3.
  unfold applyEuler, applyQuaternion, setFromEuler.
  cbn [Vector3.x Vector3.y Vector3.z qx qy qz qw].
  rewrite C1, C2, C3, S1, S2, S3. split; ring.
Qed.

Lemma grounded_x (c : FlightControls.t) (dt : Q) (s : FlightPhysics) :
  Vector3.x (position (grounded c dt s)) = Vector3.x (position s).
Proof.
  unfold grounded, integrated, aerodynamic, propelled.
  repeat skip_stage. reflexivity.
Qed.

Lemma grounded_z (c : FlightControls.t) (dt : Q) (s : FlightPhysics) :
  Vector3.z (position (grounded c dt s)) = Vector3.z (position s).
Proof.
  unfold grounded, integrated, aerodynamic, propelled.
  repeat skip_stage. reflexivity.
Qed.

Lemma update_forwardVector (c : FlightControls.t) (dt : Q)
    (s : FlightPhysics) :
  forwardVector (fst (update c dt s))
  = forwardVector (fst (gear_stage c (attitude_done c dt s))).
Proof.
  unfold forwardVector. rewrite update_rotation.
  now rewrite (gear_keeps rotation) by reflexivity.
Qed.

Lemma translated_x (c : FlightControls.t) (dt : Q) (s : FlightPhysics) :
  Vector3.x (position (translated c dt s))
  = Vector3.x (position s)
    + Vector3.x (forwardVector (fst (update c dt s)))
      * speed (fst (update c dt s)).
Proof.
  rewrite update_forwardVector, update_speed.
  unfold translated, translate_stage. fields.
  rewrite (gear_keeps position), (gear_keeps speed) by reflexivity.
  now rewrite attitude_done_position, attitude_done_speed, grounded_x.
Qed.

Lemma translated_z (c : FlightControls.t) (dt : Q) (s : FlightPhysics) :
  Vector3.z (position (translated c dt s))
  = Vector3.z (position s)
    + Vector3.z (forwardVector (fst (update c dt s)))
      * speed (fst (update c dt s)).
Proof.
  rewrite update_forwardVector, update_speed.
  unfold translated, translate_stage. fields.
  rewrite (gear_keeps position), (gear_keeps speed) by reflexivity.
  now rewrite attitude_done_position, attitude_done_speed, grounded_z.
Qed.

Lemma propelled_speed_eq (c : FlightControls.t) (dt : Q)
    (s : FlightPhysics) :
  speed (propelled c dt s)
  = Qmax
      ((if Qgtb (throttle (throttle_stage c dt s)) 0
        then Qmin (speed s + throttle (throttle_stage c dt s) * 3.5 * 1 * dt)
                  (3.5 * throttle (throttle_stage c dt s))
        else Qmax (speed s - 0.12 * dt) 0)
       - drag s * dt) 0.
Proof.
  unfold propelled, speed_stage, maxSpeed, deceleration.
  destruct (Qgtb (throttle (throttle_stage c dt s)) 0); fields;
    rewrite throttle_stage_drag, throttle_stage_speed; reflexivity.
Qed.

Lemma ground_stage_speed_off_runway (dt : Q) (s : FlightPhysics) :
  isOnRunway s = false ->
  speed (ground_stage dt s)
  = if Qltb (Vector3.y (position s)) groundHeight
    then Qmax (speed s - 0.8 * dt) 0 else speed s.
Proof.
  intros H. unfold ground_stage. destruct s as [? ? [px py pz]].
  fields. subst. branches; reflexivity.
Qed.

Lemma far_from_runway (p : Vector3.t) :
  Vector3.z p == 799 -> onRunway p = false.
Proof.
  intros H. apply onRunway_false. intros (_ & Z & _).
  apply Qabs_Qlt_condition in Z. lra.
Qed.

(** At full throttle, brake up, speed 3 and a stored drag of at most
    0.72, off the runway, a call of one second leaves a speed between
    1.98 and 3.5. *)
Lemma cruise_speed (c : FlightControls.t) (s : FlightPhysics) :
  throttle s == 1 -> FlightControls.brake c = false ->
  0 <= drag s -> drag s <= 0.72 -> speed s == 3 ->
  onRunway (position s) = false ->
  1.98 <= speed (grounded c 1 s) /\ speed (grounded c 1 s) <= 3.5.
Proof.
  intros Ht Hb D0 D1 Hv R. unfold grounded.
  rewrite ground_stage_speed_off_runway
    by now rewrite integrated_isOnRunway.
  rewrite integrated_speed, propelled_speed_eq.
  unfold throttle_stage. rewrite Hb.
  destruct (FlightControls.throttle c); fields;
    branches; readings; clamps; lra.
Qed.

(** C6, amended.  In every update call the position advances on x and
    z by the forward direction of the new orientation times the new
    speed, and a coordinate above 800 then becomes -800, one below -800
    becomes 800.  The forward direction is the z axis turned by the
    rotation: with the quaternion (qx, qy, qz, qw) of the three angles
    its x is 2 (qw qy + qx qz) and its z is 1 - 2 (qx qx + qy qy); with
    pitch and roll zero that is 2 sin(yaw/2) cos(yaw/2) on x and
    1 - 2 sin(yaw/2)^2 on z.  In every state of the animation loop x
    and z are in [-800, 800].  With the sine and the cosine of 0 at
    their values, one call of one second, from level flight with yaw
    zero at z = 799 and speed 3, at full throttle with the brake up, a
    stored drag of at most that of speed 3, nothing turning and no
    axis key held, carries z beyond 800 by an overshoot of at most 2.5,
    and leaves z at -800: negative, on the opposite edge, and the
    overshoot is dropped. *)
Theorem world_wrap (c : FlightControls.t) (dt : Q) (s : FlightPhysics) :
  let s' := fst (update c dt s) in
  let p := position (translated c dt s) in
  (Vector3.x p
   = Vector3.x (position s) + Vector3.x (forwardVector s') * speed s'
   /\ Vector3.z p
      = Vector3.z (position s) + Vector3.z (forwardVector s') * speed s')
  /\ (Vector3.x (position s') = wrap (Vector3.x p)
      /\ Vector3.z (position s') = wrap (Vector3.z p))
  /\ (forall v : Q,
        (800 < v -> wrap v == -800)
        /\ (v < -800 -> wrap v == 800)
        /\ (-800 <= v -> v <= 800 -> wrap v == v))
  /\ (let e := rotation s' in
      let c1 := Math_cos (Euler.x e / 2) in
      let c2 := Math_cos (Euler.y e / 2) in
      let c3 := Math_cos (Euler.z e / 2) in
      let s1 := Math_sin (Euler.x e / 2) in
      let s2 := Math_sin (Euler.y e / 2) in
      let s3 := Math_sin (Euler.z e / 2) in
      let qx := s1 * c2 * c3 + c1 * s2 * s3 in
      let qy := c1 * s2 * c3 - s1 * c2 * s3 in
      let qz := c1 * c2 * s3 + s1 * s2 * c3 in
      let qw := c1 * c2 * c3 - s1 * s2 * s3 in
      (Vector3.x (forwardVector s') == 2 * (qw * qy + qx * qz)
       /\ Vector3.z (forwardVector s') == 1 - 2 * (qx * qx + qy * qy))
      /\ ((forall q, q == 0 -> Math_cos q == 1) ->
          (forall q, q == 0 -> Math_sin q == 0) ->
          Euler.x e == 0 -> Euler.z e == 0 ->
          Vector3.x (forwardVector s') == 2 * s2 * c2
          /\ Vector3.z (forwardVector s') == 1 - 2 * s2 * s2))
  /\ (flown s ->
      within (-800) 800 (Vector3.x (position s))
      /\ within (-800) 800 (Vector3.z (position s)))
  /\ ((forall q, q == 0 -> Math_cos q == 1) ->
      (forall q, q == 0 -> Math_sin q == 0) ->
      steady_level s -> axes_released c ->
      throttle s == 1 -> FlightControls.brake c = false ->
      0 <= drag s -> drag s <= 0.72 ->
      speed s == 3 -> Vector3.z (position s) == 799 ->
      let z1 := Vector3.z (position (translated c 1 s)) in
      let z' := Vector3.z (position (fst (update c 1 s))) in
      800 < z1 /\ z1 - 800 <= 2.5 /\ z' == -800 /\ z' < 0).
Proof.
  cbv zeta. split; [|split; [|split; [|split; [|split]]]].
  - split; [apply translated_x | apply translated_z].
  - rewrite update_translated.
    split; [apply bounds_stage_x | apply bounds_stage_z].
  - apply wrap_cases.
  - unfold forwardVector. generalize (rotation (fst (update c dt s))).
    intros e. unfold applyEuler, applyQuaternion, setFromEuler.
    cbn [Vector3.x Vector3.y Vector3.z qx qy qz qw].
    split; [split; ring|].
    intros Hc Hs X Z.
    assert (X2 : Euler.x e / 2 == 0) by (rewrite X; reflexivity).
    assert (Z2 : Euler.z e / 2 == 0) by (rewrite Z; reflexivity).
    rewrite (Hc _ X2), (Hc _ Z2), (Hs _ X2), (Hs _ Z2). split; ring.
  - revert s.
    apply (flown_invariant
             (fun s => within (-800) 800 (Vector3.x (position s))
                       /\ within (-800) 800 (Vector3.z (position s)))).
    + unfold within; cbn; split; split; lra.
    + intros c0 s0 _. rewrite update_fst.
      split; [apply bounds_stage_x_within | apply bounds_stage_z_within].
  - intros Hc Hs S A Ht Hb D0 D1 Hv Hz.
    pose proof (far_from_runway _ Hz) as R.
    destruct (cruise_speed c s Ht Hb D0 D1 Hv R) as [V0 V1].
    destruct (attitude_done_steady c 1 s A R S) as [[X [Y Z]] _].
    rewrite <- update_rotation in X, Y, Z.
    destruct (applyEuler_level _ Hc Hs X Y Z) as [_ F].
    fold (forwardVector (fst (update c 1 s))) in F.
    rewrite <- update_speed in V0, V1.
    assert (E : Vector3.z (position (translated c 1 s))
                == 799 + speed (fst (update c 1 s))).
    { rewrite translated_z, F, Hz. ring. }
    assert (C : 800 < Vector3.z (position (translated c 1 s))).
    { rewrite E. lra. }
    rewrite update_translated, bounds_stage_z.
    destruct (wrap_cases (Vector3.z (position (translated c 1 s))))
      as [W _].
    specialize (W C). rewrite W, E. repeat split; lra.
Qed.

(* ------------------------------------------------------------------ *)
(** ** Auto-trim *)

Lemma smoothed_rotation (c : FlightControls.t) (dt : Q)
    (s : FlightPhysics) :
  rotation (smoothed c dt s) = rotation s.
Proof.
  unfold smoothed, grounded, integrated, aerodynamic, propelled.
  repeat skip_stage. reflexivity.
Qed.

Lemma smoothed_speed (c : FlightControls.t) (dt : Q) (s : FlightPhysics) :
  speed (smoothed c dt s) = speed (grounded c dt s).
Proof. unfold smoothed. repeat skip_stage. reflexivity. Qed.

Lemma trim_stage_pitchTrim (dt : Q) (s : FlightPhysics) :
  pitchTrim (trim_stage dt s)
  = if Qltb (Qabs (pitchInput s)) 0.1 && Qgtb (speed s) 0.4
    then Qmax (-0.3)
           (Qmin 0.3 (pitchTrim s + Euler.x (rotation s) * (0.3 * dt)))
    else pitchTrim s.
Proof.
  unfold trim_stage. destruct s as [? ? ? [rx ry rz]]. fields.
  destruct (Qltb (Qabs pitchInput0) 0.1 && Qgtb speed0 0.4); fields;
    match goal with
    | |- context [if ?b then _ else _] => destruct b
    end; reflexivity.
Qed.

Lemma trim_stage_rollTrim (dt : Q) (s : FlightPhysics) :
  rollTrim (trim_stage dt s)
  = if Qltb (Qabs (rollInput s)) 0.1 && Qgtb (speed s) 0.4
    then Qmax (-0.2)
           (Qmin 0.2 (rollTrim s + Euler.z (rotation s) * (0.5 * dt)))
    else rollTrim s.
Proof.
  unfold trim_stage. destruct s as [? ? ? [rx ry rz]]. fields.
  destruct (Qltb (Qabs pitchInput0) 0.1 && Qgtb speed0 0.4); fields;
    match goal with
    | |- context [if ?b then _ else _] => destruct b
    end; reflexivity.
Qed.

(** C5. When the smoothed pitch input is below 0.1 in absolute value
    and the speed is above 0.4, the new pitchTrim is the old one plus
    pitch times 0.3 * dt, clamped to [-0.3, 0.3]; otherwise it is
    unchanged; the same for roll with 0.5 * dt and [-0.2, 0.2].  The
    trim does not drift toward the attitude, as the comment of line 197
    has it: the attitude is added to it.  From pitch 0.1 with pitchTrim
    0.2, controls neutral, speed 1.5, one call of 0.016 gives pitchTrim
    0.20048, farther from the pitch than before. *)
Theorem auto_trim_adds_attitude :
  (forall c dt s,
     pitchTrim (fst (update c dt s))
     = if Qltb (Qabs (pitchInput (smoothed c dt s))) 0.1
          && Qgtb (speed (grounded c dt s)) 0.4
       then Qmax (-0.3)
              (Qmin 0.3 (pitchTrim s + Euler.x (rotation s) * (0.3 * dt)))
       else pitchTrim s)
  /\ (forall c dt s,
        rollTrim (fst (update c dt s))
        = if Qltb (Qabs (rollInput (smoothed c dt s))) 0.1
             && Qgtb (speed (grounded c dt s)) 0.4
          then Qmax (-0.2)
                 (Qmin 0.2 (rollTrim s + Euler.z (rotation s) * (0.5 * dt)))
          else rollTrim s)
  /\ pitchTrim (fst (update no_input frame trimmed_up)) == 0.20048
  /\ Qabs (pitchTrim trimmed_up - Euler.x (rotation trimmed_up))
     < Qabs (pitchTrim (fst (update no_input frame trimmed_up))
             - Euler.x (rotation trimmed_up)).
Proof.
  split; [|split; [|split]].
  - intros. rewrite update_pitchTrim. unfold trimmed.
    now rewrite trim_stage_pitchTrim, smoothed_pitchTrim,
      smoothed_rotation, smoothed_speed.
  - intros. rewrite update_rollTrim. unfold trimmed.
    now rewrite trim_stage_rollTrim, smoothed_rollTrim,
      smoothed_rotation, smoothed_speed.
  - rewrite update_pitchTrim. vm_compute. reflexivity.
  - rewrite update_pitchTrim. vm_compute. reflexivity.
Qed.

(* ------------------------------------------------------------------ *)
(** ** What every call leaves behind *)

Lemma update_y_floor (c : FlightControls.t) (dt : Q) (s : FlightPhysics) :
  0.8 <= Vector3.y (position (fst (update c dt s))).
Proof.
  rewrite update_y, grounded_y.
  assert (M : Qmax 0.8 0.5 == 0.8) by reflexivity.
  branches; readings; rewrite ?M; clamps; lra.
Qed.

Lemma update_drag_eq (c : FlightControls.t) (dt : Q) (s : FlightPhysics) :
  drag (fst (update c dt s))
  = speed (propelled c dt s) * speed (propelled c dt s) * dragCoefficient.
Proof.
  rewrite update_drag. unfold aerodynamic.
  now rewrite aero_stage_drag, stall_stage_speed.
Qed.

Lemma update_lift_eq (c : FlightControls.t) (dt : Q) (s : FlightPhysics) :
  lift (fst (update c dt s))
  = if isStalling (fst (update c dt s))
    then speed (propelled c dt s) * speed (propelled c dt s)
         * liftCoefficient
         * Qmax 0.1 (angleOfAttackEffect (Euler.x (rotation s))) * 0.2
    else speed (propelled c dt s) * speed (propelled c dt s)
         * liftCoefficient
         * Qmax 0.1 (angleOfAttackEffect (Euler.x (rotation s))).
Proof.
  rewrite update_lift, update_isStalling. unfold aerodynamic.
  now rewrite aero_stage_lift, stall_stage_speed, stall_stage_rotation,
    propelled_rotation.
Qed.

Lemma ground_stage_speed_le (dt : Q) (s : FlightPhysics) :
  0 <= dt -> 0 <= speed s -> speed (ground_stage dt s) <= speed s.
Proof.
  intros Hdt Hv. unfold ground_stage. destruct s as [? ? [px py pz]].
  fields. branches; clamps; lra.
Qed.

Lemma update_cap (c : FlightControls.t) (dt : Q) (s : FlightPhysics) :
  0 <= dt -> 0 <= drag s ->
  0 < throttle (fst (update c dt s)) ->
  speed (fst (update c dt s)) <= 3.5 * throttle (fst (update c dt s)).
Proof.
  intros Hdt Hd. rewrite update_throttle, update_speed. intros Ht.
  unfold grounded.
  apply Qle_trans with (speed (integrated c dt s)).
  - apply ground_stage_speed_le; trivial.
    rewrite integrated_speed. apply propelled_speed_nonneg.
  - rewrite integrated_speed, propelled_speed_eq.
    assert (0 <= drag s * dt) by now apply Qmult_le_0_compat.
    apply Qgtb_true in Ht. rewrite Ht. apply Qgtb_true in Ht.
    revert Ht. generalize (throttle (throttle_stage c dt s)).
    intros t Ht. clamps. lra.
Qed.

Lemma update_Settled (c : FlightControls.t) (dt : Q) (s : FlightPhysics) :
  0 <= dt -> Settled s -> Settled (fst (update c dt s)).
Proof.
  intros Hdt [[]]. constructor.
  - now apply update_Bounds.
  - rewrite update_drag_eq. unfold dragCoefficient.
    generalize (speed (propelled c dt s)). intros v. nra.
  - now apply update_cap.
  - apply update_y_floor.
Qed.

Lemma reachable_Settled (s : FlightPhysics) :
  reachable s -> Settled s.
Proof.
  induction 1 as [|s c dt R IH Hdt].
  - constructor.
    + apply constructor_Bounds.
    + cbn. lra.
    + cbn. lra.
    + cbn. lra.
  - now apply update_Settled.
Qed.

(* ------------------------------------------------------------------ *)
(** ** A call with a time slice of zero *)

Lemma throttle_stage_0 (c : FlightControls.t) (s : FlightPhysics) :
  within 0 1 (throttle s) -> throttle (throttle_stage c 0 s) == throttle s.
Proof.
  unfold within, throttle_stage. intros [H0 H1].
  destruct (FlightControls.throttle c), (FlightControls.brake c);
    fields; clamps; lra.
Qed.

Lemma propelled_speed_0 (c : FlightControls.t) (s : FlightPhysics) :
  within 0 1 (throttle s) -> 0 <= speed s ->
  (0 < throttle s -> speed s <= 3.5 * throttle s) ->
  speed (propelled c 0 s) == speed s.
Proof.
  intros Ht Hv Hcap. rewrite propelled_speed_eq.
  pose proof (throttle_stage_0 c s Ht) as E. revert E.
  generalize (throttle (throttle_stage c 0 s)). intros t E.
  branches; readings.
  - assert (speed s <= 3.5 * throttle s) by (apply Hcap; lra).
    clamps. lra.
  - clamps. lra.
Qed.

Lemma vertical_stage_y_0 (s : FlightPhysics) :
  Vector3.y (position (vertical_stage 0 s)) == Vector3.y (position s).
Proof.
  unfold vertical_stage. destruct s as [? ? [px py pz]]. fields.
  branches; fields; ring.
Qed.

Lemma aerodynamic_position (c : FlightControls.t) (dt : Q)
    (s : FlightPhysics) :
  position (aerodynamic c dt s) = position s.
Proof.
  unfold aerodynamic, propelled. repeat skip_stage. reflexivity.
Qed.

Lemma integrated_y_0 (c : FlightControls.t) (s : FlightPhysics) :
  Vector3.y (position (integrated c 0 s)) == Vector3.y (position s).
Proof.
  unfold integrated. now rewrite vertical_stage_y_0, aerodynamic_position.
Qed.

Lemma ground_stage_above (dt : Q) (s : FlightPhysics) :
  groundHeight <= Vector3.y (position s) -> ground_stage dt s = s.
Proof.
  intros H. apply Qltb_false in H. unfold ground_stage. now rewrite H.
Qed.

Lemma grounded_0 (c : FlightControls.t) (s : FlightPhysics) :
  0.8 <= Vector3.y (position s) -> grounded c 0 s = integrated c 0 s.
Proof.
  intros H. unfold grounded. apply ground_stage_above.
  unfold groundHeight. now rewrite integrated_y_0.
Qed.

Lemma integrated_angularVelocity (c : FlightControls.t) (dt : Q)
    (s : FlightPhysics) :
  angularVelocity (integrated c dt s) = angularVelocity s.
Proof.
  unfold integrated, aerodynamic, propelled. repeat skip_stage.
  reflexivity.
Qed.

Lemma input_stage_0 (c : FlightControls.t) (s : FlightPhysics) :
  pitchInput (input_stage c 0 s) == pitchInput s
  /\ rollInput (input_stage c 0 s) == rollInput s
  /\ yawInput (input_stage c 0 s) == yawInput s.
Proof.
  unfold input_stage. fields. repeat split; ring.
Qed.

Lemma grounded_inputs (c : FlightControls.t) (dt : Q) (s : FlightPhysics) :
  pitchInput (grounded c dt s) = pitchInput s
  /\ rollInput (grounded c dt s) = rollInput s
  /\ yawInput (grounded c dt s) = yawInput s.
Proof.
  unfold grounded, integrated, aerodynamic, propelled.
  repeat split; repeat skip_stage; reflexivity.
Qed.

(** Control forces, stability forces and damping at a time slice of
    zero. *)
Lemma forces_0 (s : FlightPhysics) :
  let s' := damping_stage 0 (stability_stage 0 (control_stage 0 s)) in
  Vector3.x (angularVelocity s') == Vector3.x (angularVelocity s)
  /\ Vector3.y (angularVelocity s') == Vector3.y (angularVelocity s)
  /\ Vector3.z (angularVelocity s') == Vector3.z (angularVelocity s).
Proof.
  cbv zeta.
  unfold damping_stage, stability_stage, control_stage, speedEffectiveness.
  destruct s as [? ? ? [rx ry rz] ? ? ? ? ? ? ? ? ? ? ? [ax ay az]].
  fields.
  assert (D : Qmax 0 (1 - dampingFactor * 0) == 1) by reflexivity.
  branches; rewrite D; repeat split; ring.
Qed.

Lemma trimmed_angularVelocity (c : FlightControls.t) (dt : Q)
    (s : FlightPhysics) :
  angularVelocity (trimmed c dt s) = angularVelocity (grounded c dt s).
Proof. unfold trimmed, smoothed. repeat skip_stage. reflexivity. Qed.

Lemma damped_rotation (c : FlightControls.t) (dt : Q) (s : FlightPhysics) :
  rotation (damped c dt s) = rotation s.
Proof.
  unfold damped, trimmed, smoothed, grounded, integrated, aerodynamic,
    propelled.
  repeat skip_stage. reflexivity.
Qed.

Lemma rotation_stage_0 (s : FlightPhysics) :
  within (- Math_PI / 3) (Math_PI / 3) (Euler.x (rotation s)) ->
  within (- Math_PI / 2) (Math_PI / 2) (Euler.z (rotation s)) ->
  Euler.x (rotation (rotation_stage 0 s)) == Euler.x (rotation s)
  /\ Euler.y (rotation (rotation_stage 0 s)) == Euler.y (rotation s)
  /\ Euler.z (rotation (rotation_stage 0 s)) == Euler.z (rotation s).
Proof.
  unfold within, rotation_stage.
  destruct s as [? ? ? [rx ry rz] ? ? ? ? ? ? ? ? ? ? ? [ax ay az]].
  fields. intros [X0 X1] [Z0 Z1]. repeat split.
  - revert X0 X1. generalize (- Math_PI / 3), (Math_PI / 3).
    intros lo hi X0 X1. clamps. lra.
  - ring.
  - revert Z0 Z1. generalize (- Math_PI / 2), (Math_PI / 2).
    intros lo hi Z0 Z1. clamps. lra.
Qed.

Lemma attitude_done_damped (c : FlightControls.t) (dt : Q)
    (s : FlightPhysics) :
  attitude_done c dt s = rotation_stage dt (damped c dt s).
Proof.
  cbv beta zeta delta [attitude_done].
  unfold damped, trimmed, smoothed, grounded, integrated, aerodynamic,
    propelled.
  reflexivity.
Qed.

Lemma update_x (c : FlightControls.t) (dt : Q) (s : FlightPhysics) :
  Vector3.x (position (fst (update c dt s)))
  = wrap (Vector3.x (position s)
          + Vector3.x (forwardVector (fst (update c dt s)))
            * speed (fst (update c dt s))).
Proof.
  rewrite <- translated_x. rewrite update_translated.
  apply bounds_stage_x.
Qed.

Lemma update_z (c : FlightControls.t) (dt : Q) (s : FlightPhysics) :
  Vector3.z (position (fst (update c dt s)))
  = wrap (Vector3.z (position s)
          + Vector3.z (forwardVector (fst (update c dt s)))
            * speed (fst (update c dt s))).
Proof.
  rewrite <- translated_z. rewrite update_translated.
  apply bounds_stage_z.
Qed.

(** C4, amended.  A call with a time slice of zero, from any state
    that the animation loop reaches, leaves throttle, speed, altitude,
    rotation, angular velocity, the three smoothed inputs and the two
    trims unchanged.
    Drag and lift are computed anew from the speed and the pitch.  The
    position still advances on x and z by the forward direction times
    the speed, and is wrapped: the translation is not scaled by the time
    slice.  The gear toggle fires as in any call. *)
Theorem zero_slice (c : FlightControls.t) (s : FlightPhysics) :
  flown s ->
  let s' := fst (update c 0 s) in
  let base :=
    speed s * speed s * 0.3
    * Qmax 0.1 (angleOfAttackEffect (Euler.x (rotation s))) in
  (throttle s' == throttle s /\ speed s' == speed s
   /\ Vector3.y (position s') == Vector3.y (position s))
  /\ (Euler.x (rotation s') == Euler.x (rotation s)
      /\ Euler.y (rotation s') == Euler.y (rotation s)
      /\ Euler.z (rotation s') == Euler.z (rotation s))
  /\ (Vector3.x (angularVelocity s') == Vector3.x (angularVelocity s)
      /\ Vector3.y (angularVelocity s') == Vector3.y (angularVelocity s)
      /\ Vector3.z (angularVelocity s') == Vector3.z (angularVelocity s))
  /\ (pitchInput s' == pitchInput s /\ rollInput s' == rollInput s
      /\ yawInput s' == yawInput s)
  /\ (pitchTrim s' == pitchTrim s /\ rollTrim s' == rollTrim s)
  /\ (drag s' == speed s * speed s * 0.08
      /\ lift s' == (if isStalling s' then base * 0.2 else base))
  /\ (Vector3.x (position s')
      = wrap (Vector3.x (position s)
              + Vector3.x (forwardVector s') * speed s')
      /\ Vector3.z (position s')
         = wrap (Vector3.z (position s)
                 + Vector3.z (forwardVector s') * speed s'))
  /\ (isGearDown s'
      = (if FlightControls.landingGear c
         then negb (isGearDown s) else isGearDown s)
      /\ FlightControls.landingGear (snd (update c 0 s)) = false).
Proof.
  intros F. cbv zeta. pose proof (flown_reachable s F) as R.
  destruct (reachable_Settled s R)
    as [[Ht Hv Hp Hr Hpt Hrt Hx Hz Hy] Hd Hcap Hfl].
  pose proof (propelled_speed_0 c s Ht Hv Hcap) as V.
  pose proof (grounded_0 c s Hfl) as G.
  split; [|split; [|split; [|split; [|split; [|split; [|split]]]]]].
  - split; [|split].
    + rewrite update_throttle. now apply throttle_stage_0.
    + now rewrite update_speed, G, integrated_speed.
    + rewrite update_y, G, integrated_y_0. clamps. lra.
  - rewrite update_rotation, attitude_done_damped.
    rewrite <- (damped_rotation c 0 s) in Hp, Hr.
    destruct (rotation_stage_0 (damped c 0 s) Hp Hr) as (X & Y & Z).
    rewrite X, Y, Z, damped_rotation. repeat split; reflexivity.
  - rewrite update_angularVelocity. unfold damped.
    destruct (forces_0 (trimmed c 0 s)) as (X & Y & Z). cbv zeta in *.
    rewrite X, Y, Z, trimmed_angularVelocity, G,
      integrated_angularVelocity.
    repeat split; reflexivity.
  - rewrite update_pitchInput, update_rollInput, update_yawInput.
    unfold smoothed.
    destruct (input_stage_0 c (grounded c 0 s)) as (X & Y & Z).
    destruct (grounded_inputs c 0 s) as (X' & Y' & Z').
    rewrite X, Y, Z, X', Y', Z'. repeat split; reflexivity.
  - rewrite update_pitchTrim, update_rollTrim. unfold trimmed.
    rewrite trim_stage_pitchTrim, trim_stage_rollTrim,
      smoothed_pitchTrim, smoothed_rollTrim.
    unfold within in Hpt, Hrt.
    split; match goal with
           | |- context [if ?b then _ else _] => destruct b
           end; try reflexivity; clamps; lra.
  - split.
    + rewrite update_drag_eq, V. reflexivity.
    + rewrite update_lift_eq.
      destruct (isStalling _); rewrite V; reflexivity.
  - split; [apply update_x | apply update_z].
  - rewrite update_isGearDown, update_controls.
    split; [reflexivity|].
    destruct c as [? ? ? ? ? ? ? ? g]. now destruct g.
Qed.

(* ------------------------------------------------------------------ *)
(** ** Speed, drag and lift over a run *)

Lemma update_speed_le_propelled (c : FlightControls.t) (dt : Q)
    (s : FlightPhysics) :
  0 <= dt -> speed (fst (update c dt s)) <= speed (propelled c dt s).
Proof.
  intros Hdt. rewrite update_speed. unfold grounded.
  pose proof (ground_stage_speed_le dt (integrated c dt s) Hdt) as G.
  rewrite integrated_speed in G.
  apply G, propelled_speed_nonneg.
Qed.

(** The speed after the propulsion stage is at most the old speed plus
    what the throttle adds in the time slice. *)
Lemma propelled_speed_gain (c : FlightControls.t) (dt : Q)
    (s : FlightPhysics) :
  0 <= dt -> 0 <= drag s -> 0 <= speed s -> within 0 1 (throttle s) ->
  speed (propelled c dt s)
  <= speed s + 3.5 * throttle (throttle_stage c dt s) * dt.
Proof.
  intros Hdt Hd Hv Ht. rewrite propelled_speed_eq.
  destruct (throttle_stage_within c dt s Hdt Ht) as [T0 T1].
  revert T0 T1. generalize (throttle (throttle_stage c dt s)).
  intros t T0 T1.
  assert (0 <= drag s * dt) by now apply Qmult_le_0_compat.
  assert (0 <= t * dt) by now apply Qmult_le_0_compat.
  branches; readings; clamps; lra.
Qed.

Lemma propelled_speed_le_maxSpeed (c : FlightControls.t) (dt : Q)
    (s : FlightPhysics) :
  0 <= dt -> 0 <= drag s -> within 0 1 (throttle s) -> speed s <= 3.5 ->
  speed (propelled c dt s) <= 3.5.
Proof.
  intros Hdt Hd Ht Hv. rewrite propelled_speed_eq.
  destruct (throttle_stage_within c dt s Hdt Ht) as [T0 T1].
  revert T0 T1. generalize (throttle (throttle_stage c dt s)).
  intros t T0 T1.
  assert (0 <= drag s * dt) by now apply Qmult_le_0_compat.
  branches; readings; clamps; lra.
Qed.

Lemma reachable_speed_maxSpeed (s : FlightPhysics) :
  reachable s -> speed s <= 3.5.
Proof.
  induction 1 as [|s c dt R IH Hdt]; [cbn; lra|].
  destruct (reachable_Settled s R) as [[Ht] Hd _ _].
  apply Qle_trans with (speed (propelled c dt s)).
  - now apply update_speed_le_propelled.
  - now apply propelled_speed_le_maxSpeed.
Qed.

(** X1. In every reachable state the speed is at most maxSpeed, 3.5,
    and, while the throttle is open, at most 3.5 times the throttle. *)
Theorem speed_cap (s : FlightPhysics) :
  reachable s ->
  speed s <= 3.5 /\ (0 < throttle s -> speed s <= 3.5 * throttle s).
Proof.
  intros R. split.
  - now apply reachable_speed_maxSpeed.
  - apply (settled_cap s (reachable_Settled s R)).
Qed.

(** X2. In one call the speed rises by at most 3.5 times the new
    throttle times the time slice; with the throttle closed after the
    call the speed has not risen. *)
Theorem speed_gain (c : FlightControls.t) (dt : Q) (s : FlightPhysics) :
  0 <= dt -> 0 <= drag s -> 0 <= speed s -> within 0 1 (throttle s) ->
  speed (fst (update c dt s))
  <= speed s + 3.5 * throttle (fst (update c dt s)) * dt
  /\ (throttle (fst (update c dt s)) == 0 ->
      speed (fst (update c dt s)) <= speed s).
Proof.
  intros Hdt Hd Hv Ht.
  assert (G : speed (fst (update c dt s))
              <= speed s + 3.5 * throttle (fst (update c dt s)) * dt).
  { rewrite update_throttle.
    apply Qle_trans with (speed (propelled c dt s)).
    - now apply update_speed_le_propelled.
    - now apply propelled_speed_gain. }
  split; [exact G|].
  intros Z. rewrite Z in G. lra.
Qed.

Lemma angleOfAttackEffect_le (a : Q) : angleOfAttackEffect a <= 2.05.
Proof.
  unfold angleOfAttackEffect. branches; readings; lra.
Qed.

Lemma pitch_limit_value : Math_PI / 3 <= 1.05.
Proof. unfold Qle. vm_compute. discriminate. Qed.

(** X3. The angle of attack curve never exceeds 2.05, the value it
    takes at 0.35, where its two upper pieces meet.  At -0.3 it drops
    from 0.2 to 0.1.  For a pitch within the limits of the rotation
    clamp the effect is at least 0.1, so the floor of 0.1 in the lift
    never acts there. *)
Theorem lift_curve_shape (a : Q) :
  angleOfAttackEffect a <= 2.05
  /\ angleOfAttackEffect 0.35 == 2.05
  /\ (a < -0.3 -> angleOfAttackEffect a == 0.2)
  /\ angleOfAttackEffect (-0.3) == 0.1
  /\ (- Math_PI / 3 <= a -> a <= Math_PI / 3 ->
      0.1 <= angleOfAttackEffect a
      /\ Qmax 0.1 (angleOfAttackEffect a) == angleOfAttackEffect a).
Proof.
  split; [apply angleOfAttackEffect_le|].
  split; [reflexivity|]. split; [apply angleOfAttackEffect_low|].
  split; [reflexivity|].
  intros L H. pose proof pitch_limit_value as P.
  assert (E : 0.1 <= angleOfAttackEffect a).
  { unfold angleOfAttackEffect. branches; readings; lra. }
  split; [exact E|]. clamps. lra.
Qed.

Lemma square_le (v b : Q) : 0 <= v -> v <= b -> v * v <= b * b.
Proof. intros. nra. Qed.

Lemma update_drag_le (c : FlightControls.t) (dt : Q) (s : FlightPhysics) :
  speed (propelled c dt s) <= 3.5 ->
  within 0 0.98 (drag (fst (update c dt s))).
Proof.
  intros V. rewrite update_drag_eq. unfold dragCoefficient, within.
  pose proof (propelled_speed_nonneg c dt s) as V0.
  pose proof (square_le _ _ V0 V) as S. revert S.
  generalize (speed (propelled c dt s)). intros v S.
  split; nra.
Qed.

Lemma update_lift_le (c : FlightControls.t) (dt : Q) (s : FlightPhysics) :
  speed (propelled c dt s) <= 3.5 ->
  within 0 7.53375 (lift (fst (update c dt s))).
Proof.
  intros V. rewrite update_lift_eq. unfold liftCoefficient, within.
  pose proof (propelled_speed_nonneg c dt s) as V0.
  pose proof (square_le _ _ V0 V) as S.
  pose proof (angleOfAttackEffect_le (Euler.x (rotation s))) as A.
  revert S A V0.
  generalize (speed (propelled c dt s)),
    (angleOfAttackEffect (Euler.x (rotation s))).
  intros v e S A V0. clamps.
  assert (0 <= v * v) by nra.
  assert (B : v * v * m <= 3.5 * 3.5 * 2.05).
  { apply Qle_trans with (3.5 * 3.5 * m).
    - apply Qmult_le_compat_r; lra.
    - lra. }
  assert (0 <= v * v * m) by (apply Qmult_le_0_compat; lra).
  destruct (isStalling _); split; lra.
Qed.

(** X4. In every state of the animation loop drag lies in [0, 0.98]
    and lift in [0, 7.53375]: the values at maxSpeed and at the top of
    the angle of attack curve. *)
Theorem forces_bounded (s : FlightPhysics) :
  flown s -> within 0 0.98 (drag s) /\ within 0 7.53375 (lift s).
Proof.
  intros F. pose proof (flown_reachable s F) as R. clear F.
  destruct R as [|s c dt R Hdt].
  - split; split; cbn; lra.
  - destruct (reachable_Settled s R) as [[Ht] Hd _ _].
    pose proof (reachable_speed_maxSpeed s R) as V.
    pose proof (propelled_speed_le_maxSpeed c dt s Hdt Hd Ht V) as P.
    split; [now apply update_drag_le | now apply update_lift_le].
Qed.

(** X5. No reachable state has both flags: an aircraft reported as
    stalling is never reported on the runway. *)
Theorem stall_off_runway (s : FlightPhysics) :
  reachable s -> isStalling s = true -> isOnRunway s = false.
Proof.
  intros R. destruct R as [|s c dt R Hdt]; [discriminate|].
  rewrite update_isStalling_eq, update_isOnRunway_eq.
  destruct (onRunway (position s)); trivial.
  now rewrite andb_false_r.
Qed.

(* ------------------------------------------------------------------ *)
(** ** The throttle keys *)

(** X6. What the two throttle keys do to a throttle in [0, 1] in one
    call: neither key leaves it as it is; the throttle key alone raises
    it by 0.5 * dt up to 1; the brake key alone lowers it by 0.5 * dt
    down to 0; both keys together never raise it, and lower it to
    1 - 0.5 * dt when it was above that. *)
Theorem throttle_keys (c : FlightControls.t) (dt : Q) (s : FlightPhysics) :
  within 0 1 (throttle s) -> 0 <= dt ->
  let t := throttle s in
  let t' := throttle (fst (update c dt s)) in
  (FlightControls.throttle c = false -> FlightControls.brake c = false ->
   t' = t)
  /\ (FlightControls.throttle c = true -> FlightControls.brake c = false ->
      t' == Qmin (t + 0.5 * dt) 1 /\ t <= t')
  /\ (FlightControls.throttle c = false -> FlightControls.brake c = true ->
      t' == Qmax (t - 0.5 * dt) 0 /\ t' <= t)
  /\ (FlightControls.throttle c = true -> FlightControls.brake c = true ->
      t' == Qmax (Qmin t (1 - 0.5 * dt)) 0 /\ t' <= t).
Proof.
  intros [H0 H1] Hdt. cbv zeta. rewrite update_throttle.
  unfold throttle_stage.
  split; [|split; [|split]]; intros Ht Hb; rewrite Ht, Hb; fields;
    [reflexivity | split; clamps; lra ..].
Qed.

(* ------------------------------------------------------------------ *)
(** ** Input smoothing and damping *)

Lemma input_stage_inputs (c : FlightControls.t) (dt : Q)
    (s : FlightPhysics) :
  pitchInput (input_stage c dt s)
  = pitchInput s + (targetPitchInput c - pitchInput s) * 15 * dt
  /\ rollInput (input_stage c dt s)
     = rollInput s + (targetRollInput c - rollInput s) * 15 * dt
  /\ yawInput (input_stage c dt s)
     = yawInput s + (targetYawInput c - yawInput s) * 15 * dt.
Proof.
  unfold input_stage, controlSmoothingFactor. destruct s. fields.
  repeat split; reflexivity.
Qed.

Lemma update_inputs (c : FlightControls.t) (dt : Q) (s : FlightPhysics) :
  pitchInput (fst (update c dt s))
  = pitchInput s + (targetPitchInput c - pitchInput s) * 15 * dt
  /\ rollInput (fst (update c dt s))
     = rollInput s + (targetRollInput c - rollInput s) * 15 * dt
  /\ yawInput (fst (update c dt s))
     = yawInput s + (targetYawInput c - yawInput s) * 15 * dt.
Proof.
  rewrite update_pitchInput, update_rollInput, update_yawInput.
  unfold smoothed.
  destruct (grounded_inputs c dt s) as (P & R & Y).
  destruct (input_stage_inputs c dt (grounded c dt s)) as (P' & R' & Y').
  rewrite P', R', Y', P, R, Y. repeat split; reflexivity.
Qed.

Lemma smooth_between (p t dt : Q) :
  0 <= dt -> 15 * dt <= 1 -> between p t (p + (t - p) * 15 * dt).
Proof.
  intros H0 H1. unfold between.
  destruct (Qlt_le_dec t p) as [L|L].
  - right. assert (0 <= (p - t) * dt) by (apply Qmult_le_0_compat; lra).
    assert (0 <= (p - t) * (1 - 15 * dt))
      by (apply Qmult_le_0_compat; lra).
    split; lra.
  - left. assert (0 <= (t - p) * dt) by (apply Qmult_le_0_compat; lra).
    assert (0 <= (t - p) * (1 - 15 * dt))
      by (apply Qmult_le_0_compat; lra).
    split; lra.
Qed.

Lemma between_within (lo hi a b v : Q) :
  within lo hi a -> within lo hi b -> between a b v -> within lo hi v.
Proof. unfold within, between. intros [] [] [[]|[]]; split; lra. Qed.

Lemma target_within (c : FlightControls.t) :
  within (-1) 1 (targetPitchInput c)
  /\ within (-1) 1 (targetRollInput c)
  /\ within (-1) 1 (targetYawInput c).
Proof.
  unfold within, targetPitchInput, targetRollInput, targetYawInput.
  destruct c as [? ? l r u d yl yr ?]. fields.
  destruct l, r, u, d, yl, yr; repeat split; lra.
Qed.

(** X8. In a frame of the animation loop each smoothed input that is
    in [-1, 1] moves from its old value toward the target of its key
    pair, -1, 0 or 1, without passing it, and so stays in [-1, 1]. *)
Theorem smoothing_approaches (c : FlightControls.t) (s : FlightPhysics) :
  within (-1) 1 (pitchInput s) -> within (-1) 1 (rollInput s) ->
  within (-1) 1 (yawInput s) ->
  let s' := fst (update c 0.016 s) in
  (between (pitchInput s) (targetPitchInput c) (pitchInput s')
   /\ between (rollInput s) (targetRollInput c) (rollInput s')
   /\ between (yawInput s) (targetYawInput c) (yawInput s'))
  /\ (within (-1) 1 (pitchInput s') /\ within (-1) 1 (rollInput s')
      /\ within (-1) 1 (yawInput s')).
Proof.
  intros WP WR WY. cbv zeta.
  destruct frame_slice as [H0 H1].
  destruct (update_inputs c 0.016 s) as (P & R & Y). rewrite P, R, Y.
  destruct (target_within c) as (TP & TR & TY).
  pose proof (smooth_between (pitchInput s) (targetPitchInput c) _ H0 H1)
    as BP.
  pose proof (smooth_between (rollInput s) (targetRollInput c) _ H0 H1)
    as BR.
  pose proof (smooth_between (yawInput s) (targetYawInput c) _ H0 H1)
    as BY.
  split; [split; [exact BP | split; [exact BR | exact BY]]|].
  split; [exact (between_within _ _ _ _ _ WP TP BP)|].
  split; [exact (between_within _ _ _ _ _ WR TR BR)
         |exact (between_within _ _ _ _ _ WY TY BY)].
Qed.

Lemma damping_stage_angularVelocity (dt : Q) (s : FlightPhysics) :
  Vector3.x (angularVelocity (damping_stage dt s))
  = Vector3.x (angularVelocity s) * Qmax 0 (1 - 2.8 * dt)
  /\ Vector3.y (angularVelocity (damping_stage dt s))
     = Vector3.y (angularVelocity s) * Qmax 0 (1 - 2.8 * dt)
  /\ Vector3.z (angularVelocity (damping_stage dt s))
     = Vector3.z (angularVelocity s) * Qmax 0 (1 - 2.8 * dt).
Proof.
  unfold damping_stage, dampingFactor. destruct s. fields.
  repeat split; reflexivity.
Qed.

Lemma rotation_stage_rotation (dt : Q) (s : FlightPhysics) :
  Euler.x (rotation (rotation_stage dt s))
  = Qmax (- Math_PI / 3)
      (Qmin (Math_PI / 3)
         (Euler.x (rotation s) + Vector3.x (angularVelocity s) * dt))
  /\ Euler.y (rotation (rotation_stage dt s))
     = Euler.y (rotation s) + Vector3.y (angularVelocity s) * dt
  /\ Euler.z (rotation (rotation_stage dt s))
     = Qmax (- Math_PI / 2)
         (Qmin (Math_PI / 2)
            (Euler.z (rotation s) + Vector3.z (angularVelocity s) * dt)).
Proof.
  unfold rotation_stage. destruct s. fields. repeat split; reflexivity.
Qed.

(** With a damping factor max(0, 1 - 2.8 * dt) of 0 the call ends with
    an angular velocity of zero, and the rotation is the old one, pitch
    and roll brought into their limits. *)
Lemma update_long_slice (c : FlightControls.t) (dt : Q)
    (s : FlightPhysics) :
  1 <= 2.8 * dt ->
  let s' := fst (update c dt s) in
  (Vector3.x (angularVelocity s') == 0
   /\ Vector3.y (angularVelocity s') == 0
   /\ Vector3.z (angularVelocity s') == 0)
  /\ Euler.x (rotation s')
     == Qmax (- Math_PI / 3) (Qmin (Math_PI / 3) (Euler.x (rotation s)))
  /\ Euler.y (rotation s') == Euler.y (rotation s)
  /\ Euler.z (rotation s')
     == Qmax (- Math_PI / 2) (Qmin (Math_PI / 2) (Euler.z (rotation s))).
Proof.
  intros H. cbv zeta.
  assert (Z : Qmax 0 (1 - 2.8 * dt) == 0) by (clamps; lra).
  assert (A : Vector3.x (angularVelocity (damped c dt s)) == 0
              /\ Vector3.y (angularVelocity (damped c dt s)) == 0
              /\ Vector3.z (angularVelocity (damped c dt s)) == 0).
  { unfold damped.
    destruct (damping_stage_angularVelocity dt
                (stability_stage dt
                   (control_stage dt (trimmed c dt s)))) as (X & Y & W).
    rewrite X, Y, W, Z.
    split; [apply Qmult_0_r | split; apply Qmult_0_r]. }
  destruct A as (AX & AY & AZ).
  split.
  { rewrite update_angularVelocity.
    split; [exact AX | split; [exact AY | exact AZ]]. }
  rewrite update_rotation, attitude_done_damped.
  destruct (rotation_stage_rotation dt (damped c dt s)) as (X & Y & W).
  rewrite X, Y, W, damped_rotation.
  assert (EX : Euler.x (rotation s)
               + Vector3.x (angularVelocity (damped c dt s)) * dt
               == Euler.x (rotation s)) by (rewrite AX; ring).
  assert (EY : Euler.y (rotation s)
               + Vector3.y (angularVelocity (damped c dt s)) * dt
               == Euler.y (rotation s)) by (rewrite AY; ring).
  assert (EZ : Euler.z (rotation s)
               + Vector3.z (angularVelocity (damped c dt s)) * dt
               == Euler.z (rotation s)) by (rewrite AZ; ring).
  split; [|split; [exact EY|]].
  - revert EX.
    generalize (Euler.x (rotation s)
                + Vector3.x (angularVelocity (damped c dt s)) * dt),
      (- Math_PI / 3), (Math_PI / 3).
    intros e lo hi EX. clamps. lra.
  - revert EZ.
    generalize (Euler.z (rotation s)
                + Vector3.z (angularVelocity (damped c dt s)) * dt),
      (- Math_PI / 2), (Math_PI / 2).
    intros e lo hi EZ. clamps. lra.
Qed.

(** X9. A long frame stops the rotation.  From a state of the animation
    loop, a call with a time slice between 0.36 and 1000 seconds has the
    damping factor max(0, 1 - 2.8 * dt) at 0: it ends with an angular
    velocity of zero on all three axes, whatever keys are held, and with
    the rotation it began with. *)
Theorem long_slice_stops_rotation (c : FlightControls.t) (dt : Q)
    (s : FlightPhysics) :
  flown s -> 0.36 <= dt -> dt <= 1000 ->
  let s' := fst (update c dt s) in
  (Vector3.x (angularVelocity s') == 0
   /\ Vector3.y (angularVelocity s') == 0
   /\ Vector3.z (angularVelocity s') == 0)
  /\ (Euler.x (rotation s') == Euler.x (rotation s)
      /\ Euler.y (rotation s') == Euler.y (rotation s)
      /\ Euler.z (rotation s') == Euler.z (rotation s)).
Proof.
  intros F L _. cbv zeta.
  assert (H : 1 <= 2.8 * dt) by lra.
  destruct (reachable_Settled s (flown_reachable s F))
    as [[_ _ [P0 P1] [R0 R1] _ _ _ _ _] _ _ _].
  destruct (update_long_slice c dt s H) as (A & X & Y & Z).
  cbv zeta in A, X, Y, Z.
  split; [exact A|]. split; [|split; [exact Y|]].
  - rewrite X. revert P0 P1.
    generalize (Euler.x (rotation s)), (- Math_PI / 3), (Math_PI / 3).
    intros e lo hi P0 P1. clamps. lra.
  - rewrite Z. revert R0 R1.
    generalize (Euler.z (rotation s)), (- Math_PI / 2), (Math_PI / 2).
    intros e lo hi R0 R1. clamps. lra.
Qed.

(* ------------------------------------------------------------------ *)
(** ** Altitude on the runway and in a stall *)

Lemma vertical_stage_y (dt : Q) (s : FlightPhysics) :
  Vector3.y (position (vertical_stage dt s))
  == Vector3.y (position s)
     + (if Qgtb (speed s) takeoffSpeed then lift s * dt
        else if Qgtb (speed s) 0.4
             then lift s * dt * (speed s / takeoffSpeed) else 0)
     - (if isOnRunway s then 0
        else baseGravity * dt * (if isStalling s then 2.5 else 1)).
Proof.
  unfold vertical_stage. destruct s as [? ? [px py pz]]. fields.
  destruct (Qgtb speed0 takeoffSpeed), (Qgtb speed0 0.4), isOnRunway0,
    isStalling0; unfold negb; fields; ring.
Qed.

Lemma update_lift_nonneg (c : FlightControls.t) (dt : Q)
    (s : FlightPhysics) :
  0 <= lift (fst (update c dt s)).
Proof.
  rewrite update_lift_eq. unfold liftCoefficient.
  generalize (speed (propelled c dt s)),
    (angleOfAttackEffect (Euler.x (rotation s))).
  intros v e. clamps.
  assert (0 <= v * v) by nra.
  assert (0 <= v * v * m) by (apply Qmult_le_0_compat; lra).
  destruct (isStalling _); lra.
Qed.

Lemma aerodynamic_speed (c : FlightControls.t) (dt : Q)
    (s : FlightPhysics) :
  speed (aerodynamic c dt s) = speed (propelled c dt s).
Proof. unfold aerodynamic. repeat skip_stage. reflexivity. Qed.

Lemma aerodynamic_isOnRunway (c : FlightControls.t) (dt : Q)
    (s : FlightPhysics) :
  isOnRunway (aerodynamic c dt s) = onRunway (position s).
Proof.
  unfold aerodynamic. skip_stage. unfold stall_stage. fields.
  now rewrite propelled_position.
Qed.

Lemma aerodynamic_isStalling (c : FlightControls.t) (dt : Q)
    (s : FlightPhysics) :
  isStalling (aerodynamic c dt s) = isStalling (fst (update c dt s)).
Proof.
  rewrite update_isStalling. unfold aerodynamic. skip_stage. reflexivity.
Qed.

(** The lift added to the altitude is not negative. *)
Lemma lifted_nonneg (v l dt : Q) :
  0 <= dt -> 0 <= l ->
  0 <= (if Qgtb v takeoffSpeed then l * dt
        else if Qgtb v 0.4 then l * dt * (v / takeoffSpeed) else 0).
Proof.
  intros Hdt Hl. assert (0 <= l * dt) by now apply Qmult_le_0_compat.
  branches; readings; try lra.
  apply Qmult_le_0_compat; trivial.
  apply Qle_shift_div_l; [reflexivity|]. lra.
Qed.

Lemma integrated_y_runway (c : FlightControls.t) (dt : Q)
    (s : FlightPhysics) :
  0 <= dt -> onRunway (position s) = true ->
  Vector3.y (position s) <= Vector3.y (position (integrated c dt s)).
Proof.
  intros Hdt R. unfold integrated. rewrite vertical_stage_y.
  rewrite aerodynamic_isOnRunway, R, aerodynamic_position,
    aerodynamic_speed, <- update_lift.
  pose proof (lifted_nonneg (speed (propelled c dt s))
                (lift (fst (update c dt s))) dt Hdt
                (update_lift_nonneg c dt s)) as L.
  revert L.
  generalize (if Qgtb (speed (propelled c dt s)) takeoffSpeed
              then lift (fst (update c dt s)) * dt
              else if Qgtb (speed (propelled c dt s)) 0.4
                   then lift (fst (update c dt s)) * dt
                        * (speed (propelled c dt s) / takeoffSpeed)
                   else 0).
  intros q L. lra.
Qed.

(** X10. On the runway a call with a time slice that is not negative
    never lowers the aircraft: gravity is not applied there and the lift
    is not negative. *)
Theorem runway_holds_altitude (c : FlightControls.t) (dt : Q)
    (s : FlightPhysics) :
  0 <= dt -> onRunway (position s) = true ->
  Vector3.y (position s) <= Vector3.y (position (fst (update c dt s))).
Proof.
  intros Hdt R. pose proof (integrated_y_runway c dt s Hdt R) as I.
  apply onRunway_true in R. destruct R as (_ & _ & Y).
  rewrite update_y, grounded_y.
  assert (M : Qmax 0.8 0.5 == 0.8) by reflexivity.
  revert I. generalize (Vector3.y (position (integrated c dt s))).
  intros y I. branches; readings; rewrite ?M; clamps; lra.
Qed.

(** X11. A call that reports a stall, with a stall speed of at most 0.4,
    applies no lift and 2.5 times the gravity: from an altitude of at
    most 200 the aircraft comes down by 0.75 * dt, and not below the
    ground height 0.8. *)
Theorem stall_sinks (c : FlightControls.t) (dt : Q) (s : FlightPhysics) :
  isStalling (fst (update c dt s)) = true ->
  stallSpeed s <= 0.4 -> 0 <= dt -> Vector3.y (position s) <= 200 ->
  Vector3.y (position (fst (update c dt s)))
  == Qmax (Vector3.y (position s) - 0.75 * dt) 0.8.
Proof.
  intros S Hst Hdt Hy.
  assert (I : Vector3.y (position (integrated c dt s))
              == Vector3.y (position s) - 0.75 * dt).
  { unfold integrated. rewrite vertical_stage_y.
    rewrite aerodynamic_isOnRunway, aerodynamic_isStalling, S,
      aerodynamic_position, aerodynamic_speed.
    rewrite update_isStalling_eq in S.
    apply andb_true_iff in S. destruct S as [S _].
    apply andb_true_iff in S. destruct S as [V R].
    apply negb_true_iff in R. rewrite R.
    apply Qltb_true in V. unfold takeoffSpeed, baseGravity.
    assert (T1 : Qgtb (speed (propelled c dt s)) 0.8 = false)
      by (apply Qgtb_false; lra).
    assert (T2 : Qgtb (speed (propelled c dt s)) 0.4 = false)
      by (apply Qgtb_false; lra).
    rewrite T1, T2. ring. }
  rewrite update_y, grounded_y.
  assert (M : Qmax 0.8 0.5 == 0.8) by reflexivity.
  revert I. generalize (Vector3.y (position (integrated c dt s))).
  intros y I. branches; readings; rewrite ?M; clamps; lra.
Qed.

(* ------------------------------------------------------------------ *)
(** ** Level flight without axis keys *)

Lemma grounded_steady_above (c : FlightControls.t) (dt : Q)
    (s : FlightPhysics) :
  0.8 <= Vector3.y (position (integrated c dt s)) ->
  steady_level s -> steady_level (grounded c dt s).
Proof.
  intros H. unfold grounded. rewrite ground_stage_above by exact H.
  apply steady_level_ext;
    unfold integrated, aerodynamic, propelled;
    repeat skip_stage; reflexivity.
Qed.

Lemma update_keeps_attitude_fields (c : FlightControls.t) (dt : Q)
    (s : FlightPhysics) :
  rotation (fst (update c dt s)) = rotation (attitude_done c dt s)
  /\ angularVelocity (fst (update c dt s))
     = angularVelocity (attitude_done c dt s)
  /\ pitchInput (fst (update c dt s)) = pitchInput (attitude_done c dt s)
  /\ rollInput (fst (update c dt s)) = rollInput (attitude_done c dt s)
  /\ yawInput (fst (update c dt s)) = yawInput (attitude_done c dt s)
  /\ pitchTrim (fst (update c dt s)) = pitchTrim (attitude_done c dt s)
  /\ rollTrim (fst (update c dt s)) = rollTrim (attitude_done c dt s).
Proof.
  rewrite update_fst. generalize (attitude_done c dt s). intros a.
  repeat split; do 2 skip_stage;
    match goal with
    | |- ?f (fst (gear_stage _ _)) = _ =>
        apply (gear_keeps f); reflexivity
    end.
Qed.

Lemma update_steady (c : FlightControls.t) (dt : Q) (s : FlightPhysics) :
  axes_released c ->
  onRunway (position s) = false
  \/ (0.8 <= Vector3.y (position s) /\ 0 <= dt) ->
  steady_level s -> steady_level (fst (update c dt s)).
Proof.
  intros A H S.
  destruct (update_keeps_attitude_fields c dt s)
    as (E1 & E2 & E3 & E4 & E5 & E6 & E7).
  apply (steady_level_ext _ (attitude_done c dt s)); trivial.
  rewrite attitude_done_open.
  apply rotation_stage_steady, damping_stage_steady,
    stability_stage_steady, control_stage_steady, trim_stage_steady,
    input_stage_steady; [exact A|].
  destruct (onRunway (position s)) eqn:R.
  - destruct H as [H|[Y Hdt]]; [discriminate|].
    apply grounded_steady_above; trivial.
    apply Qle_trans with (Vector3.y (position s)); trivial.
    now apply integrated_y_runway.
  - now apply grounded_steady.
Qed.

(** X12. Level flight is kept by the attitude dynamics: from a state
    with rotation, angular velocity, smoothed inputs and trims all zero,
    a call with no axis key held ends in such a state again, whatever
    the throttle and brake keys do, as long as the aircraft is off the
    runway, or not below the ground height with a time slice that is not
    negative. *)
Theorem level_flight_holds (c : FlightControls.t) (dt : Q)
    (s : FlightPhysics) :
  axes_released c ->
  onRunway (position s) = false
  \/ (0.8 <= Vector3.y (position s) /\ 0 <= dt) ->
  steady_level s -> steady_level (fst (update c dt s)).
Proof. apply update_steady. Qed.

Lemma reachable_hands_off_steady (s : FlightPhysics) :
  reachable_hands_off s ->
  steady_level s /\ 0.8 <= Vector3.y (position s).
Proof.
  induction 1 as [|s c dt R [IH Y] Hdt A].
  - split; [|cbn; lra].
    unfold steady_level; cbn; repeat split; reflexivity.
  - split; [|apply update_y_floor].
    apply update_steady; trivial. right. now split.
Qed.

Lemma wrap_zero (v : Q) : v == 0 -> wrap v == 0.
Proof.
  intros H. destruct (wrap_cases v) as (_ & _ & W). rewrite W; lra.
Qed.

(** X13. In a run in which no axis key is ever held the aircraft never
    turns: rotation, angular velocity, smoothed inputs and trims stay
    zero, so throttle alone does not raise the nose.  With the sine and
    the cosine of 0 at their values the aircraft then also stays on the
    line x = 0 of the runway. *)
Theorem hands_off_stays_level (s : FlightPhysics) :
  reachable_hands_off s ->
  steady_level s
  /\ ((forall q, q == 0 -> Math_cos q == 1) ->
      (forall q, q == 0 -> Math_sin q == 0) ->
      Vector3.x (position s) == 0).
Proof.
  intros R. split; [apply (reachable_hands_off_steady s R)|].
  intros Hc Hs. induction R as [|s c dt R IH Hdt A]; [reflexivity|].
  destruct (reachable_hands_off_steady s R) as [S Y].
  assert (S' : steady_level (fst (update c dt s))).
  { apply update_steady; trivial. right. now split. }
  destruct S' as [(X1 & X2 & X3) _].
  destruct (applyEuler_level _ Hc Hs X1 X2 X3) as [F _].
  fold (forwardVector (fst (update c dt s))) in F.
  rewrite update_x. apply wrap_zero. rewrite IH, F. ring.
Qed.

(* ------------------------------------------------------------------ *)
(** ** The world bounds applied twice *)

Lemma bounds_stage_inside (s : FlightPhysics) :
  within (-800) 800 (Vector3.x (position s)) ->
  within (-800) 800 (Vector3.z (position s)) ->
  Vector3.y (position s) <= 200 ->
  bounds_stage s = s.
Proof.
  intros [X0 X1] [Z0 Z1] Y. unfold bounds_stage.
  apply Qgtb_false in X1, Z1, Y. apply Qltb_false in X0, Z0.
  rewrite Z1. rewrite Z0. rewrite X1. rewrite X0. now rewrite Y.
Qed.

(** X14. The world bounds of lines 282-286 leave a state alone whose x
    and z are in [-800, 800] and whose y is at most 200, and they are
    idempotent. *)
Theorem bounds_stage_idempotent (s : FlightPhysics) :
  (within (-800) 800 (Vector3.x (position s)) ->
   within (-800) 800 (Vector3.z (position s)) ->
   Vector3.y (position s) <= 200 ->
   bounds_stage s = s)
  /\ bounds_stage (bounds_stage s) = bounds_stage s.
Proof.
  split; [apply bounds_stage_inside|].
  apply bounds_stage_inside.
  - apply bounds_stage_x_within.
  - apply bounds_stage_z_within.
  - rewrite bounds_stage_y. apply Q.le_min_r.
Qed.

(* ------------------------------------------------------------------ *)
(** ** The key handlers *)

(** Case analysis along a [switch]: the cases are tried in order, and a
    case that was taken ends the proof. *)
Ltac taken :=
  repeat match goal with
  | E : ?b = _ |- context [?b] => rewrite E
  end;
  cbn [orb];
  try match goal with
  | c : FlightControls.t |- _ => destruct c
  end;
  simpl; auto; try (intros; discriminate).

Ltac switch_cases :=
  repeat match goal with
  | |- context [if ?b then _ else _] =>
      let E := fresh "E" in
      destruct b eqn:E; [solve [taken] | ]
  end.

(** X15. Releasing a key undoes its press: for every code but KeyL,
    a press followed by the release of the same key leaves the record as
    the release alone does.  KeyL has no release case, so the gear
    request of a press outlives the release. *)
Theorem release_undoes_press (code : string) (c : FlightControls.t) :
  (code <> "KeyL"%string ->
   handleKeyUp code (handleKeyDown code c) = handleKeyUp code c)
  /\ handleKeyUp "KeyL" (handleKeyDown "KeyL" c)
     = FlightControls.set_landingGear true c.
Proof.
  split; [|reflexivity].
  intros N. unfold handleKeyDown.
  repeat match goal with
  | |- context [if ?b then _ else _] =>
      lazymatch b with
      | (code =? "KeyL")%string => fail
      | _ => idtac
      end;
      let E := fresh "E" in
      destruct b eqn:E; [unfold handleKeyUp; solve [taken] | ]
  end.
  destruct (code =? "KeyL")%string eqn:L; [|reflexivity].
  apply String.eqb_eq in L. contradiction.
Qed.

Lemma handleKeyDown_unknown (code : string) (c : FlightControls.t) :
  ~ In code known_codes -> handleKeyDown code c = c.
Proof.
  intros N. unfold handleKeyDown.
  repeat match goal with
  | |- context [if ?b then _ else _] =>
      let E := fresh "E" in
      destruct b eqn:E;
      [exfalso; apply N;
       rewrite ?orb_true_iff, ?String.eqb_eq in E;
       unfold known_codes; cbn [In]; intuition auto | ]
  end.
  reflexivity.
Qed.

Lemma handleKeyUp_unknown (code : string) (c : FlightControls.t) :
  ~ In code known_codes -> handleKeyUp code c = c.
Proof.
  intros N. unfold handleKeyUp.
  repeat match goal with
  | |- context [if ?b then _ else _] =>
      let E := fresh "E" in
      destruct b eqn:E;
      [exfalso; apply N;
       rewrite ?orb_true_iff, ?String.eqb_eq in E;
       unfold known_codes; cbn [In]; intuition auto | ]
  end.
  reflexivity.
Qed.

(** X16. A code without a case changes nothing, in either handler.  A
    press never clears a flag, a release never sets one, and a release
    never writes landingGear. *)
Theorem key_handlers_frame (code : string) (c : FlightControls.t) :
  (~ In code known_codes ->
   handleKeyDown code c = c /\ handleKeyUp code c = c)
  /\ Forall (fun f => f c = true -> f (handleKeyDown code c) = true) flags
  /\ Forall (fun f => f (handleKeyUp code c) = true -> f c = true) flags
  /\ FlightControls.landingGear (handleKeyUp code c)
     = FlightControls.landingGear c.
Proof.
  split; [|split; [|split]].
  - intros N. split;
      [now apply handleKeyDown_unknown | now apply handleKeyUp_unknown].
  - unfold flags, handleKeyDown.
    repeat (apply Forall_cons || apply Forall_nil);
      switch_cases; trivial.
  - unfold flags, handleKeyUp.
    repeat (apply Forall_cons || apply Forall_nil);
      switch_cases; trivial.
  - unfold handleKeyUp. switch_cases. reflexivity.
Qed.

(* ------------------------------------------------------------------ *)
(** ** The camera record *)

Lemma pointer_CameraOk (e : pointer_event) (cc : CameraControls.t) :
  CameraOk cc -> CameraOk (pointer e cc).
Proof using.
  assert (C : forall lo hi v,
             lo <= hi -> within lo hi (Qmax lo (Qmin hi v))).
  { intros lo hi v L. split.
    - apply Q.le_max_l.
    - apply Q.max_lub; [exact L | apply Q.le_min_l]. }
  unfold CameraOk. intros (Y & D & H & A).
  destruct e as [| |dx dy|dy], cc as [mx my down d h a]; cbn in *.
  - split; [exact Y | split; [exact D | split; [exact H | exact A]]].
  - split; [exact Y | split; [exact D | split; [exact H | exact A]]].
  - destruct down; cbn.
    + split; [apply C; discriminate|].
      split; [exact D | split; [exact H | exact A]].
    + split; [exact Y | split; [exact D | split; [exact H | exact A]]].
  - split; [exact Y|].
    split; [apply C; discriminate | split; [exact H | exact A]].
Qed.

Lemma pointers_CameraOk (events : list pointer_event)
    (cc : CameraControls.t) :
  CameraOk cc -> CameraOk (pointers events cc).
Proof.
  unfold pointers. revert cc.
  induction events as [|e events IH]; intros cc H; [exact H|].
  cbn [fold_left]. apply IH, pointer_CameraOk, H.
Qed.

Lemma cameraControlsRef_CameraOk : CameraOk cameraControlsRef.
Proof.
  unfold CameraOk, within, cameraControlsRef; cbn.
  repeat split; lra.
Qed.

(** The mouse position of a record whose button is up moves only
    after a press. *)
Lemma pointers_button_up (events : list pointer_event)
    (cc : CameraControls.t) :
  ~ In MouseDown events -> CameraControls.isMouseDown cc = false ->
  CameraControls.isMouseDown (pointers events cc) = false
  /\ CameraControls.mouseX (pointers events cc) = CameraControls.mouseX cc
  /\ CameraControls.mouseY (pointers events cc)
     = CameraControls.mouseY cc.
Proof.
  unfold pointers. revert cc.
  induction events as [|e events IH]; intros cc N U; [now repeat split|].
  cbn [fold_left].
  assert (N' : ~ In MouseDown events) by (intros I; apply N; now right).
  destruct e as [| |dx dy|dy].
  - exfalso. apply N. now left.
  - destruct (IH (pointer MouseUp cc) N') as (A & B & C);
      [reflexivity|]. now rewrite A, B, C.
  - assert (E : pointer (MouseMove dx dy) cc = cc).
    { cbn. unfold handleMouseMove. now rewrite U. }
    rewrite E. now apply IH.
  - destruct (IH (pointer (Wheel dy) cc) N') as (A & B & C);
      [exact U|]. now rewrite A, B, C.
Qed.

(** X17. Whatever pointer events arrive, in whatever order, the camera
    record stays in range: mouseY in [-1, 1], cameraDistance in
    [5, 30], cameraHeight 8 and cameraAngle 0, which no handler
    writes.  Without a button press the mouse position stays where it
    started, at 0 and 0: moves count only while the button is down. *)
Theorem camera_in_range (events : list pointer_event) :
  let cc := pointers events cameraControlsRef in
  CameraOk cc
  /\ (~ In MouseDown events ->
      CameraControls.mouseX cc = 0 /\ CameraControls.mouseY cc = 0).
Proof.
  cbv zeta. split.
  - apply pointers_CameraOk, cameraControlsRef_CameraOk.
  - intros N.
    destruct (pointers_button_up events cameraControlsRef N eq_refl)
      as (_ & X & Y).
    now rewrite X, Y.
Qed.

(* ------------------------------------------------------------------ *)
(** ** The oscillator settings of the animation loop *)

(** X18. In every state of the animation loop the quantities that the
    loop derives from it stay in fixed ranges: the engine tone in [120, 400]
    with a gain in [0.03, 0.15], the propeller tone in [30, 110] with a
    gain in [0.02, 0.10], the rumble in [15, 55] with a gain in
    [0.02, 0.12], the wind intensity in [0.008, 1], the wind tone in
    [606.4, 1400], the wind gain in [0.00064, 0.06], at its cap 0.06
    from an intensity of 0.75 on, and the propeller turns by a
    value in [0, 1.5] per frame. *)
Theorem audio_ranges (s : FlightPhysics) :
  flown s ->
  (within 120 400 (engineRPM s) /\ within 0.03 0.15 (engineVolume s))
  /\ (within 30 110 (propRPM s) /\ within 0.02 0.10 (propVolume s))
  /\ (within 15 55 (rumbleFreq s) /\ within 0.02 0.12 (rumbleVolume s))
  /\ (within 0.008 1 (windIntensity s)
      /\ within 606.4 1400 (windFreq s)
      /\ within 0.00064 0.06 (windVolume s)
      /\ (0.75 <= windIntensity s -> windVolume s == 0.06))
  /\ within 0 1.5 (propellerSpeed s).
Proof.
  intros L. pose proof (flown_reachable s L) as R. clear L.
  pose proof (reachable_speed_maxSpeed s R) as V.
  destruct (reachable_Settled s R) as [[[T0 T1] V0 _ _ _ _ _ _ _] _ _ F].
  unfold engineRPM, engineVolume, propRPM, propVolume, rumbleFreq,
    rumbleVolume, windFreq, windVolume, windIntensity, propellerSpeed,
    throttleLevel, speedLevel, within.
  revert T0 T1 V0 V F.
  generalize (throttle s), (speed s), (Vector3.y (position s)).
  intros t v y T0 T1 V0 V F.
  assert (E : (y / 50 + v / 3) / 2 == y * (1 # 100) + v * (1 # 6))
    by field.
  assert (W : 0.008 <= (y / 50 + v / 3) / 2) by (rewrite E; lra).
  clear E.
  split; [split; split; lra|].
  split; [split; split; lra|].
  split; [split; split; lra|].
  split; [|split; lra].
  revert W. generalize ((y / 50 + v / 3) / 2). intros w W.
  split; [split; clamps; lra|].
  split; [split; clamps; lra|].
  split; [split; clamps; lra|].
  clamps; lra.
Qed.

(* ------------------------------------------------------------------ *)
(** ** The host loop *)

Lemma play_app (l1 l2 : list event)
    (w : FlightPhysics * FlightControls.t) :
  play (l1 ++ l2) w = play l2 (play l1 w).
Proof. unfold play. apply fold_left_app. Qed.

Lemma play_frames (n : nat) (c : FlightControls.t) (s : FlightPhysics) :
  play (repeat Frame n) (s, c) = run n c 0.016 s.
Proof.
  induction n as [|n IH]; [reflexivity|].
  cbn [repeat]. rewrite repeat_cons, play_app, IH. cbn [run].
  destruct (run n c 0.016 s) as [s' c']. reflexivity.
Qed.

(** One frame keeps the smoothed inputs in [-1, 1]. *)
Lemma animate_inputs (s : FlightPhysics) (c : FlightControls.t) :
  within (-1) 1 (pitchInput s) /\ within (-1) 1 (rollInput s)
  /\ within (-1) 1 (yawInput s) ->
  within (-1) 1 (pitchInput (fst (animate (s, c))))
  /\ within (-1) 1 (rollInput (fst (animate (s, c))))
  /\ within (-1) 1 (yawInput (fst (animate (s, c)))).
Proof.
  intros (P & R & Y). rewrite animate_update.
  destruct (update_inputs c 0.016 s) as (EP & ER & EY).
  rewrite EP, ER, EY.
  destruct (target_within c) as (TP & TR & TY).
  destruct frame_slice as [F0 F1].
  split; [|split].
  - exact (between_within _ _ _ _ _ P TP
             (smooth_between (pitchInput s) (targetPitchInput c) _ F0 F1)).
  - exact (between_within _ _ _ _ _ R TR
             (smooth_between (rollInput s) (targetRollInput c) _ F0 F1)).
  - exact (between_within _ _ _ _ _ Y TY
             (smooth_between (yawInput s) (targetYawInput c) _ F0 F1)).
Qed.

Lemma play_invariant (events : list event)
    (w : FlightPhysics * FlightControls.t) :
  reachable (fst w) ->
  within (-1) 1 (pitchInput (fst w)) /\ within (-1) 1 (rollInput (fst w))
  /\ within (-1) 1 (yawInput (fst w)) ->
  reachable (fst (play events w))
  /\ within (-1) 1 (pitchInput (fst (play events w)))
  /\ within (-1) 1 (rollInput (fst (play events w)))
  /\ within (-1) 1 (yawInput (fst (play events w))).
Proof.
  revert w. induction events as [|e events IH]; intros w R I.
  - split; [exact R | exact I].
  - rewrite play_cons. destruct w as [s c]. cbn [fst] in R, I.
    destruct e as [code|code|].
    + apply IH; [exact R | exact I].
    + apply IH; [exact R | exact I].
    + apply IH.
      * cbn [dispatch]. rewrite animate_update.
        apply reach_step; [exact R | apply frame_slice].
      * cbn [dispatch]. apply animate_inputs, I.
Qed.

(** X19. Whatever key events and frames the browser delivers, in
    whatever order, the state of the running simulator is a reachable
    state, so the ranges shown for reachable states hold in the game;
    and its three smoothed inputs stay in [-1, 1], the range the class
    gives them in its comments.  The second part is owed to the time
    slice 0.016 of the loop, which is below 1/15: a single call with
    the pitch-down key held and a time slice of 1 second takes the
    pitch input from 0 to 15. *)
Theorem host_loop_invariant (events : list event) :
  let physics := fst (play events (constructor, controlsRef)) in
  (reachable physics
   /\ within (-1) 1 (pitchInput physics)
   /\ within (-1) 1 (rollInput physics)
   /\ within (-1) 1 (yawInput physics))
  /\ pitchInput
       (fst (update (handleKeyDown "KeyF" controlsRef) 1 constructor))
     == 15.
Proof.
  cbv zeta. split.
  - apply play_invariant; [apply reach_init|].
    unfold within; cbn; repeat split; lra.
  - destruct (update_inputs (handleKeyDown "KeyF" controlsRef) 1
                constructor) as (EP & _).
    rewrite EP. reflexivity.
Qed.

(** Without key events the throttle and brake flags stay as they are,
    and with both up the throttle does not move. *)
Lemma run_idle (n : nat) (c : FlightControls.t) (dt : Q)
    (s : FlightPhysics) :
  FlightControls.throttle c = false -> FlightControls.brake c = false ->
  throttle (fst (run n c dt s)) = throttle s.
Proof.
  intros Ht Hb. induction n as [|n IH]; [reflexivity|].
  destruct (run_flags n c dt s) as [F1 F2].
  cbn [run]. destruct (run n c dt s) as [s' c']. cbn [fst snd] in *.
  rewrite update_throttle. unfold throttle_stage.
  rewrite F1, F2, Ht, Hb. exact IH.
Qed.

(** X20. The throttle is a lever, not a pedal.  With the brake key up
    and the throttle at 0, pressing W, letting [n] frames pass,
    releasing W and letting [m] more frames pass leaves the throttle at
    min(n * 0.008, 1): it rose by 0.008 per frame while the key was
    held and stays where it was when the key is released; 125 frames
    or more with the key held open it fully. *)
Theorem throttle_lever (n m : nat) (c : FlightControls.t)
    (s : FlightPhysics) :
  throttle s == 0 -> FlightControls.brake c = false ->
  let w :=
    play (KeyDown "KeyW" :: repeat Frame n
          ++ KeyUp "KeyW" :: repeat Frame m) (s, c) in
  throttle (fst w) == Qmin (inject_Z (Z.of_nat n) * 0.008) 1
  /\ ((125 <= n)%nat -> throttle (fst w) == 1).
Proof.
  intros H0 Hb. cbv zeta.
  rewrite play_cons, play_app. cbn [dispatch fst snd].
  change (handleKeyDown "KeyW" c) with (key_throttle true c).
  rewrite play_frames.
  assert (Ht1 : FlightControls.throttle (key_throttle true c) = true)
    by reflexivity.
  assert (Hb1 : FlightControls.brake (key_throttle true c) = false)
    by exact Hb.
  destruct frame_slice as [F0 _].
  pose proof (run_throttle_ramp n _ 0.016 s Ht1 Hb1 F0 H0) as Ramp.
  destruct (run_flags n (key_throttle true c) 0.016 s) as [_ F2].
  revert Ramp F2.
  destruct (run n (key_throttle true c) 0.016 s) as [s1 c1].
  cbn [fst snd]. intros Ramp F2.
  rewrite play_cons. cbn [dispatch fst snd].
  change (handleKeyUp "KeyW" c1) with (key_throttle false c1).
  rewrite play_frames.
  rewrite run_idle;
    [|reflexivity | cbn [key_throttle FlightControls.brake]; congruence].
  assert (E : inject_Z (Z.of_nat n) * (0.5 * 0.016)
              == inject_Z (Z.of_nat n) * 0.008) by ring.
  rewrite E in Ramp. split; [exact Ramp|].
  intros L. rewrite Ramp.
  assert (125 <= inject_Z (Z.of_nat n)).
  { change 125 with (inject_Z 125). rewrite <- Zle_Qle. lia. }
  clamps; lra.
Qed.

(* ------------------------------------------------------------------ *)
(** ** The gear key *)

Lemma handleKeyDown_landingGear (code : string) (c : FlightControls.t) :
  FlightControls.landingGear (handleKeyDown code c)
  = FlightControls.landingGear c || (code =? "KeyL")%string.
Proof.
  unfold handleKeyDown.
  repeat match goal with
  | |- context [if ?b then _ else _] =>
      lazymatch b with
      | (code =? "KeyL")%string => fail
      | _ => idtac
      end;
      let E := fresh "E" in
      destruct b eqn:E;
      [ rewrite ?orb_true_iff, ?String.eqb_eq in E;
        destruct c; (destruct E as [E|E] || idtac); subst code; cbn;
        now rewrite orb_false_r | ]
  end.
  destruct (code =? "KeyL")%string; destruct c; cbn;
    [now rewrite orb_true_r | now rewrite orb_false_r].
Qed.

Lemma handleKeyUp_landingGear (code : string) (c : FlightControls.t) :
  FlightControls.landingGear (handleKeyUp code c)
  = FlightControls.landingGear c.
Proof. unfold handleKeyUp. switch_cases. reflexivity. Qed.

(** Key events alone leave the physics alone, and leave a gear request
    behind exactly if there was one or KeyL was pressed. *)
Lemma keys_landingGear (keys : list event)
    (w : FlightPhysics * FlightControls.t) :
  ~ In Frame keys ->
  fst (play keys w) = fst w
  /\ (FlightControls.landingGear (snd (play keys w)) = true
      <-> FlightControls.landingGear (snd w) = true
          \/ In (KeyDown "KeyL") keys).
Proof.
  revert w. induction keys as [|e keys IH]; intros w N.
  - split; [reflexivity|]. cbn [play fold_left In]. tauto.
  - assert (N' : ~ In Frame keys) by (intros I; apply N; now right).
    rewrite play_cons.
    destruct (IH (dispatch e w) N') as [E1 E2]. rewrite E1, E2.
    destruct e as [code|code|].
    + cbn [dispatch fst snd]. split; [reflexivity|].
      rewrite handleKeyDown_landingGear, orb_true_iff, String.eqb_eq.
      cbn [In]. split.
      * intros [[H|H]|H];
          [now left | right; left; now subst | now right; right].
      * intros [H|[H|H]];
          [now left; left | left; right; congruence | now right].
    + cbn [dispatch fst snd]. split; [reflexivity|].
      rewrite handleKeyUp_landingGear. cbn [In]. split.
      * intros [H|H]; [now left | now right; right].
      * intros [H|[H|H]]; [now left | discriminate | now right].
    + exfalso. apply N. now left.
Qed.

(** X21. The gear key between two frames.  However many key events
    arrive before a frame, the frame toggles the gear once if a gear
    request was pending or KeyL was pressed among them, and not at all
    otherwise: several presses, as the key repeat of a held key sends
    them, count as one, and a release does not withdraw the request.
    The frame clears the request, so the next frame leaves the gear
    alone. *)
Theorem gear_request (keys : list event)
    (w : FlightPhysics * FlightControls.t) :
  ~ In Frame keys ->
  let w' := play (keys ++ [Frame]) w in
  (FlightControls.landingGear (snd w) = true \/ In (KeyDown "KeyL") keys ->
   isGearDown (fst w') = negb (isGearDown (fst w)))
  /\ (FlightControls.landingGear (snd w) = false ->
      ~ In (KeyDown "KeyL") keys ->
      isGearDown (fst w') = isGearDown (fst w))
  /\ FlightControls.landingGear (snd w') = false
  /\ isGearDown (fst (animate w')) = isGearDown (fst w').
Proof.
  intros N. cbv zeta. rewrite play_app.
  destruct (keys_landingGear keys w N) as [E1 E2].
  revert E1 E2. destruct (play keys w) as [s1 c1]. cbn [fst snd].
  intros E1 E2. subst s1.
  rewrite play_cons. cbn [dispatch]. change (play [] ?x) with x.
  rewrite !animate_update.
  assert (G : FlightControls.landingGear (snd (update c1 0.016 (fst w)))
              = false).
  { rewrite update_controls.
    destruct (FlightControls.landingGear c1) eqn:L;
      [now destruct c1 | exact L]. }
  split; [|split; [|split]].
  - intros H. apply E2 in H. rewrite update_isGearDown, H. reflexivity.
  - intros H1 H2. rewrite update_isGearDown.
    destruct (FlightControls.landingGear c1) eqn:L; [|reflexivity].
    destruct (proj1 E2 eq_refl) as [H|H]; [congruence | contradiction].
  - exact G.
  - revert G. destruct (update c1 0.016 (fst w)) as [s2 c2].
    cbn [fst snd]. intros G. rewrite animate_update, update_isGearDown, G.
    reflexivity.
Qed.

(* ------------------------------------------------------------------ *)
(** ** Climb and sink rates *)





(* ------------------------------------------------------------------ *)
(** ** Below the control speed *)

Lemma control_stage_slow (dt : Q) (s : FlightPhysics) :
  speed s <= 0.1 -> control_stage dt s = s.
Proof.
  intros H. apply Qgtb_false in H.
  unfold control_stage, minControlSpeed. now rewrite H.
Qed.

Lemma stability_stage_slow (dt : Q) (s : FlightPhysics) :
  speed s <= 0.1 -> stability_stage dt s = s.
Proof.
  intros H. apply Qgtb_false in H.
  unfold stability_stage, minControlSpeed. now rewrite H.
Qed.

Lemma trimmed_speed (c : FlightControls.t) (dt : Q) (s : FlightPhysics) :
  speed (trimmed c dt s) = speed (grounded c dt s).
Proof. unfold trimmed, smoothed. repeat skip_stage. reflexivity. Qed.

(** At or above the ground height the ground physics leaves the angular
    velocity alone: on the runway the altitude does not fall, off the
    runway the ground writes the speed only. *)
Lemma grounded_angularVelocity (c : FlightControls.t) (dt : Q)
    (s : FlightPhysics) :
  0 <= dt -> 0.8 <= Vector3.y (position s) ->
  angularVelocity (grounded c dt s) = angularVelocity s.
Proof.
  intros Hdt Y. unfold grounded.
  destruct (onRunway (position s)) eqn:R.
  - rewrite ground_stage_above.
    + apply integrated_angularVelocity.
    + apply Qle_trans with (Vector3.y (position s)); [exact Y|].
      apply integrated_y_runway; [exact Hdt | exact R].
  - rewrite ground_stage_angularVelocity
      by (rewrite integrated_isOnRunway; exact R).
    apply integrated_angularVelocity.
Qed.

(** X23. Below the control speed the keys have no authority.  If a call
    from a state at or above the ground height ends with a speed of at
    most 0.1, it has applied neither a control force nor a stability
    force: the angular velocity is the old one times the damping factor
    max(0, 1 - 2.8 * dt) on every axis, whatever keys are held and
    whatever the smoothed inputs and trims are, and the yaw advances by
    that angular velocity times the time slice. *)
Theorem no_authority_when_slow (c : FlightControls.t) (dt : Q)
    (s : FlightPhysics) :
  0 <= dt -> 0.8 <= Vector3.y (position s) ->
  speed (fst (update c dt s)) <= 0.1 ->
  let k := Qmax 0 (1 - 2.8 * dt) in
  let w := angularVelocity s in
  let w' := angularVelocity (fst (update c dt s)) in
  Vector3.x w' = Vector3.x w * k
  /\ Vector3.y w' = Vector3.y w * k
  /\ Vector3.z w' = Vector3.z w * k
  /\ Euler.y (rotation (fst (update c dt s)))
     = Euler.y (rotation s) + Vector3.y w * k * dt.
Proof.
  intros Hdt Y V. cbv zeta. rewrite update_speed in V.
  assert (D : damped c dt s = damping_stage dt (trimmed c dt s)).
  { unfold damped.
    rewrite (control_stage_slow dt (trimmed c dt s))
      by (rewrite trimmed_speed; exact V).
    rewrite (stability_stage_slow dt (trimmed c dt s))
      by (rewrite trimmed_speed; exact V).
    reflexivity. }
  assert (W : angularVelocity (trimmed c dt s) = angularVelocity s).
  { rewrite trimmed_angularVelocity.
    apply grounded_angularVelocity; [exact Hdt | exact Y]. }
  rewrite update_rotation, attitude_done_damped, update_angularVelocity.
  destruct (rotation_stage_rotation dt (damped c dt s)) as (_ & RY & _).
  rewrite RY, damped_rotation, D. clear RY D.
  destruct (damping_stage_angularVelocity dt (trimmed c dt s))
    as (A & B & C).
  rewrite A, B, C, W.
  split; [reflexivity | split; [reflexivity | split; reflexivity]].
Qed.

(* ------------------------------------------------------------------ *)
(** ** The chase camera *)

(** With no rotation [applyEuler] moves no vector. *)
Lemma applyEuler_zero (e : Euler.t) (v : Vector3.t) :
  (forall q, q == 0 -> Math_cos q == 1) ->
  (forall q, q == 0 -> Math_sin q == 0) ->
  Euler.x e == 0 -> Euler.y e == 0 -> Euler.z e == 0 ->
  Vector3.x (applyEuler e v) == Vector3.x v
  /\ Vector3.y (applyEuler e v) == Vector3.y v
  /\ Vector3.z (applyEuler e v) == Vector3.z v.
Proof.
  intros Hc Hs X Y Z.
  assert (X2 : Euler.x e / 2 == 0) by (rewrite X; reflexivity).
  assert (Y2 : Euler.y e / 2 == 0) by (rewrite Y; reflexivity).
  assert (Z2 : Euler.z e / 2 == 0) by (rewrite Z; reflexivity).
  pose proof (Hc _ X2) as C1. pose proof (Hc _ Y2) as C2.
  pose proof (Hc _ Z2) as C3. pose proof (Hs _ X2) as S1.
  pose proof (Hs _ Y2) as S2. pose proof (Hs _ Z2) as S3.
  unfold applyEuler, applyQuaternion, setFromEuler.
  cbn [Vector3.x Vector3.y Vector3.z qx qy qz qw].
  rewrite C1, C2, C3, S1, S2, S3. split; [ring | split; ring].
Qed.

(** X24. The chase camera behind a level aircraft.  In a run without
    axis keys the aircraft stays level, so the camera offset is not
    rotated: whatever pointer events arrived, the camera is between 2
    below and 18 above the aircraft, and as long as the mouse button
    was never pressed it sits 8 above the aircraft, level with it on x,
    and on z at the camera distance, on the side the aircraft moves
    toward.  Only the sine and the cosine of 0 are used. *)
Theorem chase_camera_level (events : list pointer_event)
    (s : FlightPhysics) :
  (forall q, q == 0 -> Math_cos q == 1) ->
  (forall q, q == 0 -> Math_sin q == 0) ->
  reachable_hands_off s ->
  let cc := pointers events cameraControlsRef in
  let p := cameraPosition cc s in
  within (Vector3.y (position s) - 2) (Vector3.y (position s) + 18)
    (Vector3.y p)
  /\ (~ In MouseDown events ->
      Vector3.x p == Vector3.x (position s)
      /\ Vector3.y p == Vector3.y (position s) + 8
      /\ Vector3.z p
         == Vector3.z (position s) + CameraControls.cameraDistance cc).
Proof.
  intros Hc Hs R. cbv zeta.
  destruct (reachable_hands_off_steady s R) as (((X & Y & Z) & _) & _).
  destruct (pointers_CameraOk events cameraControlsRef
              cameraControlsRef_CameraOk) as ([Y0 Y1] & _ & H & _).
  unfold cameraPosition. cbv zeta.
  cbn [Vector3.x Vector3.y Vector3.z].
  destruct (applyEuler_zero
              (Euler.mk (Euler.x (rotation s)) (Euler.y (rotation s))
                 (Euler.z (rotation s)))
              (cameraOffset (pointers events cameraControlsRef))
              Hc Hs X Y Z) as (EX & EY & EZ).
  unfold cameraOffset in *.
  cbn [Vector3.x Vector3.y Vector3.z] in EX, EY, EZ. rewrite H in *.
  split.
  - unfold within. rewrite EY. revert Y0 Y1.
    generalize (CameraControls.mouseY (pointers events cameraControlsRef)),
      (Vector3.y (position s)).
    intros my y Y0 Y1. split; lra.
  - intros N. rewrite EX, EY, EZ.
    destruct (pointers_button_up events cameraControlsRef N eq_refl)
      as (_ & MX & MY).
    rewrite MX, MY. cbn [cameraControlsRef CameraControls.mouseX
                           CameraControls.mouseY].
    rewrite (Hc 0), (Hs 0) by reflexivity.
    split; [ring | split; ring].
Qed.

End Engine.

(* ------------------------------------------------------------------ *)
(** ** The statements at concrete inputs *)

Lemma reachable_Bounds_witness :
  Bounds
    (fst (play sin_series cos_series [KeyDown "KeyW"; Frame]
            (constructor, controlsRef))).
Proof.
  refine (proj1 (reachable_Bounds sin_series cos_series _) _).
  exists [KeyDown "KeyW"; Frame]. reflexivity.
Defined.

(** C1, as written, fails on doubles.  One call from the constructed
    state with the throttle and the pitch-down key held and a time
    slice of 1e200, which is not negative: the pitch input becomes
    1.5e201, the pitch force times the time slice exceeds the largest
    double, the angular velocity is Infinity, the damping factor is 0,
    and Infinity times 0 is NaN.  [Math.min] and [Math.max] keep NaN,
    so the call ends with NaN as the pitch, and, through the forward
    vector, as x and z: the bounds do not hold. *)
Lemma Bounds_lost_by_overflow :
  PrimFloat.leb Binary64.zero Binary64.long_slice = true
  /\ option_map Binary64.Bounds Binary64.overflowed = Some false
  /\ option_map
       (fun s =>
          (PrimFloat.is_nan (Binary64.Euler.x (Binary64.rotation s)),
           PrimFloat.is_nan (Binary64.Vector3.x (Binary64.position s)),
           PrimFloat.is_nan (Binary64.Vector3.z (Binary64.position s)),
           Binary64.within Binary64.zero Double.one (Binary64.throttle s),
           PrimFloat.leb Binary64.zero (Binary64.speed s)))
       Binary64.overflowed
     = Some (true, true, true, true, true).
Proof. vm_compute. split; [|split]; reflexivity. Qed.

(** On doubles, in the animation loop: over 3000 frames with the
    throttle key held, through the take-off run and the climb, and over
    3000 more with the brake key held, the bounds and the ground
    height hold after every frame, and at every state on the way a call
    with a time slice of zero leaves the fields of C4 as they are. *)
Lemma loop_bounded_on_doubles :
  match Binary64.frames 3000 throttle_held Binary64.constructor with
  | Some s =>
      match Binary64.frames 3000 brake_held s with
      | Some _ => true
      | None => false
      end
  | None => false
  end = true.
Proof. vm_compute. reflexivity. Qed.

(** The state after the call with the long time slice, one call
    later.  With a time slice of 0 the
    altitude goes from 200 to NaN, since the lift is computed from the
    pitch: a call with a time slice of zero does not leave every state
    that calls with long time slices reach as it is.  With the time
    slice of the animation loop the altitude is NaN as well: not
    negative, and not at least 0.8. *)
Lemma altitude_lost_by_overflow :
  match Binary64.overflowed with
  | Some s =>
      option_map
        (fun r =>
           (Binary64.Vector3.y (Binary64.position s),
            PrimFloat.is_nan
              (Binary64.Vector3.y (Binary64.position (fst r)))))
        (Binary64.update Binary64.held Binary64.zero s)
  | None => None
  end = Some (Binary64.ceiling, true)
  /\ match Binary64.overflowed with
     | Some s =>
         option_map
           (fun r =>
              let y := Binary64.Vector3.y (Binary64.position (fst r)) in
              (PrimFloat.is_nan y, PrimFloat.ltb y Binary64.zero,
               PrimFloat.leb Binary64.groundHeight y))
           (Binary64.update Binary64.held Binary64.frame s)
     | None => None
     end = Some (true, false, false).
Proof. vm_compute. split; reflexivity. Qed.

(** C2, as written, leaves the time slice open.  From speed 0.5 at
    altitude 10, off the runway, with no key held, a call with a time
    slice of 2 seconds takes 0.24 off the speed before the test, and
    the aircraft stalls: the second example needs a short time
    slice. *)
Lemma stall_rule_long_slice :
  speed (airborne 0.5) == 0.5
  /\ Vector3.y (position (airborne 0.5)) == 10
  /\ onRunway (position (airborne 0.5)) = false
  /\ speed (fst (update sin_series cos_series no_input 2 (airborne 0.5)))
     == 0.26
  /\ isStalling
       (fst (update sin_series cos_series no_input 2 (airborne 0.5)))
     = true.
Proof.
  split; [reflexivity|]. split; [reflexivity|].
  split; [reflexivity|]. split; vm_compute; reflexivity.
Qed.

Lemma stall_rule_witness :
  isStalling
    (fst (update sin_series cos_series no_input frame (airborne 0.2)))
  = true
  /\ isStalling
       (fst (update sin_series cos_series no_input frame (airborne 0.5)))
     = false.
Proof.
  split.
  - refine (proj1 (proj2 (proj2
      (stall_rule sin_series cos_series no_input frame (airborne 0.2)))
      _ _ _ _ _ _) _);
      try reflexivity; vm_compute; discriminate.
  - refine (proj2 (proj2 (proj2
      (stall_rule sin_series cos_series no_input frame (airborne 0.5)))
      _ _ _ _ _ _) _ _);
      try reflexivity; vm_compute; discriminate.
Defined.

Lemma aerodynamic_rule_witness :
  angleOfAttackEffect (-0.5) == 0.2
  /\ angleOfAttackEffect 0.1 == 1 + 3 * 0.1
  /\ angleOfAttackEffect 0.5 == 2 - 2 * (0.5 - 0.35).
Proof.
  pose proof (proj1 (proj2 (proj2
    (aerodynamic_rule sin_series cos_series no_input frame constructor))))
    as E.
  split; [|split].
  - apply (E (-0.5)). vm_compute. reflexivity.
  - apply (E 0.1); vm_compute; discriminate.
  - apply (E 0.5). vm_compute. reflexivity.
Defined.

(** The gear key was pressed. *)
Lemma gear_toggle_witness :
  let c := FlightControls.set_landingGear true no_input in
  let r := update sin_series cos_series c frame constructor in
  isGearDown (fst r) = false
  /\ FlightControls.landingGear (snd r) = false
  /\ isGearDown
       (fst (update sin_series cos_series no_input frame (airborne 1)))
     = true
  /\ snd (update sin_series cos_series no_input frame (airborne 1))
     = no_input.
Proof.
  cbv zeta.
  pose proof (gear_toggle sin_series cos_series
                (FlightControls.set_landingGear true no_input) frame frame
                constructor) as [P _].
  pose proof (gear_toggle sin_series cos_series no_input frame frame
                (airborne 1)) as [_ [N _]].
  destruct (P eq_refl) as [P1 P2]. destruct (N eq_refl) as [N1 N2].
  split; [exact P1|]. split; [exact P2|]. split; [exact N1|exact N2].
Defined.

Lemma gear_noninterference_witness :
  let s1 := airborne 1 in
  let s2 := set_isGearDown false (airborne 1) in
  same_but_gear
    (fst (update sin_series cos_series throttle_held frame s1))
    (fst (update sin_series cos_series throttle_held frame s2))
  /\ snd (update sin_series cos_series throttle_held frame s1)
     = snd (update sin_series cos_series throttle_held frame s2).
Proof.
  cbv zeta.
  pose proof (gear_noninterference sin_series cos_series throttle_held
                frame (airborne 1) (set_isGearDown false (airborne 1))
                eq_refl) as [P [Q _]].
  split; [exact P | exact Q].
Defined.

Lemma throttle_ramp_witness :
  throttle
    (fst (run sin_series cos_series 125 throttle_held 0.016 constructor))
  == 1.
Proof.
  exact (proj1 (proj2 (proj2 (proj2
    (throttle_ramp sin_series cos_series throttle_held constructor
       eq_refl eq_refl (Qeq_refl 0)))))).
Defined.

Lemma ground_clamp_witness :
  Vector3.y
    (position (fst (update sin_series cos_series no_input frame sunk)))
  == Qmax 0.8 0.5.
Proof.
  refine (proj1 (proj2 (proj1 (ground_clamp sin_series cos_series no_input
                                 frame sunk) _))).
  vm_compute. reflexivity.
Defined.

Lemma world_wrap_witness :
  800 < Vector3.z
          (position (translated sin_series cos_series throttle_held 1
                       cruising))
  /\ Vector3.z
       (position
          (fst (update sin_series cos_series throttle_held 1 cruising)))
     == -800.
Proof.
  assert (C : forall q, q == 0 -> cos_series q == 1).
  { intros q H. unfold cos_series. rewrite Qred_correct, H. reflexivity. }
  assert (S : forall q, q == 0 -> sin_series q == 0).
  { intros q H. unfold sin_series. rewrite Qred_correct, H. reflexivity. }
  assert (L : steady_level cruising).
  { unfold steady_level; cbn; repeat split; reflexivity. }
  assert (A : axes_released throttle_held).
  { unfold axes_released; cbn; repeat split; reflexivity. }
  assert (D0 : 0 <= drag cruising) by (vm_compute; discriminate).
  assert (D1 : drag cruising <= 0.72) by (vm_compute; discriminate).
  pose proof (proj2 (proj2 (proj2 (proj2 (proj2
    (world_wrap sin_series cos_series throttle_held 1 cruising)))))
    C S L A (Qeq_refl 1) eq_refl D0 D1 (Qeq_refl 3) (Qeq_refl 799)) as W.
  cbv zeta in W. destruct W as (W1 & _ & W2 & _).
  split; [exact W1 | exact W2].
Defined.

(** C6, as written, leaves the throttle, the keys and the stored drag
    open.  From level flight with yaw zero at z = 799 and speed 3, with
    the throttle at 0.86, the drag of speed 3 stored and the brake key
    held, the call of one second closes the throttle to 0.36, which
    caps the speed at 1.26; the stored drag takes 0.72 off, and the
    aircraft advances by 0.54 to z = 799.54: it does not cross 800 and
    z is not negative. *)
Lemma world_wrap_braking :
  (Vector3.z (position braking) == 799 /\ speed braking == 3
   /\ steady_level braking)
  /\ Vector3.z
       (position (fst (update sin_series cos_series brake_held 1 braking)))
     == 799.54
  /\ ~ Vector3.z
         (position
            (fst (update sin_series cos_series brake_held 1 braking)))
       < 0.
Proof.
  split; [|split].
  - split; [reflexivity | split; [reflexivity|]].
    unfold steady_level; cbn.
    split; [|split; [|split]]; repeat split; reflexivity.
  - vm_compute. reflexivity.
  - vm_compute. discriminate.
Qed.

(** C4, as written, fails on reachable states.  After one second with
    the throttle key held, a call with a time slice of zero moves the
    aircraft from z = -48.25 to z = -46.5.  After four more seconds with
    the brake key held the aircraft has come down beside the runway and
    ground friction has stopped it, while the stored drag is still that
    of the speed before the friction: a call with a time slice of zero
    then takes the drag from 0.006728 to 0.  And from a state outside
    the bounds, which no run reaches but an assignment to the public
    field gives, the clamps act: a throttle of 2 comes back as 1. *)
Lemma zero_slice_moves :
  let s := fst (update sin_series cos_series throttle_held 1 constructor) in
  let s' := fst (update sin_series cos_series no_input 0 s) in
  let t := fst (update sin_series cos_series brake_held 4 s) in
  let t' := fst (update sin_series cos_series no_input 0 t) in
  let u := set_throttle 2 constructor in
  let u' := fst (update sin_series cos_series throttle_held 0 u) in
  (reachable sin_series cos_series s
   /\ Vector3.z (position s) == -48.25
   /\ Vector3.z (position s') == -46.5
   /\ ~ Vector3.z (position s') == Vector3.z (position s))
  /\ (reachable sin_series cos_series t
      /\ drag t == 0.006728
      /\ drag t' == 0
      /\ ~ drag t' == drag t)
  /\ (throttle u' == 1 /\ ~ throttle u' == throttle u).
Proof.
  cbv zeta.
  assert (R : reachable sin_series cos_series
                (fst (update sin_series cos_series throttle_held 1
                        constructor))).
  { apply reach_step; [apply reach_init | vm_compute; discriminate]. }
  split; [split; [exact R|split; [|split]]
         |split; [split; [|split; [|split]]|split]].
  - vm_compute. reflexivity.
  - vm_compute. reflexivity.
  - vm_compute. discriminate.
  - apply reach_step; [exact R | vm_compute; discriminate].
  - vm_compute. reflexivity.
  - vm_compute. reflexivity.
  - vm_compute. discriminate.
  - vm_compute. reflexivity.
  - vm_compute. discriminate.
Qed.

Lemma zero_slice_witness :
  let s :=
    fst (play sin_series cos_series [KeyDown "KeyW"; Frame]
           (constructor, controlsRef)) in
  let s' := fst (update sin_series cos_series no_input 0 s) in
  speed s' == speed s
  /\ Vector3.y (position s') == Vector3.y (position s)
  /\ drag s' == speed s * speed s * 0.08.
Proof.
  cbv zeta.
  assert (F : flown sin_series cos_series
                (fst (play sin_series cos_series [KeyDown "KeyW"; Frame]
                        (constructor, controlsRef)))).
  { exists [KeyDown "KeyW"; Frame]. reflexivity. }
  pose proof (zero_slice sin_series cos_series no_input _ F) as Z.
  cbv zeta in Z.
  destruct Z as ((_ & V & Y) & _ & _ & _ & _ & (D & _) & _).
  split; [exact V | split; [exact Y | exact D]].
Defined.

Lemma speed_cap_witness :
  speed (fst (update sin_series cos_series throttle_held 1 constructor))
  <= 3.5.
Proof.
  refine (proj1 (speed_cap sin_series cos_series _ _)).
  apply reach_step; [apply reach_init | vm_compute; discriminate].
Defined.

Lemma speed_gain_witness :
  speed (fst (update sin_series cos_series no_input frame (airborne 1)))
  <= speed (airborne 1).
Proof.
  assert (Hdt : 0 <= frame) by (vm_compute; discriminate).
  assert (Hd : 0 <= drag (airborne 1)) by (vm_compute; discriminate).
  assert (Hv : 0 <= speed (airborne 1)) by (vm_compute; discriminate).
  assert (Ht : within 0 1 (throttle (airborne 1)))
    by (split; vm_compute; discriminate).
  refine (proj2 (speed_gain sin_series cos_series no_input frame
                   (airborne 1) Hdt Hd Hv Ht) _).
  rewrite update_throttle. vm_compute. reflexivity.
Defined.

Lemma lift_curve_shape_witness :
  0.1 <= angleOfAttackEffect 1
  /\ Qmax 0.1 (angleOfAttackEffect 1) == angleOfAttackEffect 1.
Proof.
  refine (proj2 (proj2 (proj2 (proj2 (lift_curve_shape 1)))) _ _);
    unfold Qle; vm_compute; discriminate.
Defined.

Lemma forces_bounded_witness :
  within 0 0.98
    (drag (fst (play sin_series cos_series [KeyDown "KeyW"; Frame]
                  (constructor, controlsRef))))
  /\ within 0 7.53375
       (lift (fst (play sin_series cos_series [KeyDown "KeyW"; Frame]
                     (constructor, controlsRef)))).
Proof.
  refine (forces_bounded sin_series cos_series _ _).
  exists [KeyDown "KeyW"; Frame]. reflexivity.
Defined.

(** Two seconds of full throttle, then a call of ten seconds in which
    the stored drag stops the aircraft in the air. *)
Lemma stall_off_runway_witness :
  let s1 := fst (update sin_series cos_series throttle_held 1 constructor) in
  let s2 := fst (update sin_series cos_series throttle_held 1 s1) in
  let s3 := fst (update sin_series cos_series no_input 10 s2) in
  isStalling s3 = true /\ isOnRunway s3 = false.
Proof.
  cbv zeta.
  assert (S : isStalling
                (fst (update sin_series cos_series no_input 10
                   (fst (update sin_series cos_series throttle_held 1
                      (fst (update sin_series cos_series throttle_held 1
                         constructor)))))) = true)
    by (vm_compute; reflexivity).
  split; [exact S|].
  refine (stall_off_runway sin_series cos_series _ _ S).
  repeat (apply reach_step; [| vm_compute; discriminate]).
  apply reach_init.
Defined.

Lemma throttle_keys_witness :
  let both :=
    FlightControls.mk true true false false false false false false false in
  throttle (fst (update sin_series cos_series both 1 cruising)) == 0.5.
Proof.
  cbv zeta.
  assert (W : within 0 1 (throttle cruising))
    by (split; vm_compute; discriminate).
  assert (D : 0 <= 1) by (vm_compute; discriminate).
  pose proof (proj2 (proj2 (proj2
    (throttle_keys sin_series cos_series
       (FlightControls.mk true true false false false false false false
          false) 1 cruising W D))) eq_refl eq_refl) as [E _].
  rewrite E. vm_compute. reflexivity.
Defined.

Lemma smoothing_approaches_witness :
  within (-1) 1
    (pitchInput
       (fst (update sin_series cos_series
               (handleKeyDown "KeyR" controlsRef) 0.016 cruising))).
Proof.
  refine (proj1 (proj2 (smoothing_approaches sin_series cos_series
                          (handleKeyDown "KeyR" controlsRef) cruising
                          _ _ _)));
    split; vm_compute; discriminate.
Defined.

Lemma long_slice_stops_rotation_witness :
  Euler.y
    (rotation
       (fst (update sin_series cos_series no_input 1
               (fst (play sin_series cos_series [KeyDown "KeyW"; Frame]
                       (constructor, controlsRef))))))
  == Euler.y
       (rotation
          (fst (play sin_series cos_series [KeyDown "KeyW"; Frame]
                  (constructor, controlsRef)))).
Proof.
  assert (F : flown sin_series cos_series
                (fst (play sin_series cos_series [KeyDown "KeyW"; Frame]
                        (constructor, controlsRef)))).
  { exists [KeyDown "KeyW"; Frame]. reflexivity. }
  assert (D : 0.36 <= 1) by (vm_compute; discriminate).
  assert (U : 1 <= 1000) by (vm_compute; discriminate).
  exact (proj1 (proj2 (proj2
    (long_slice_stops_rotation sin_series cos_series no_input 1 _
       F D U)))).
Defined.

Lemma runway_holds_altitude_witness :
  Vector3.y (position constructor)
  <= Vector3.y
       (position
          (fst (update sin_series cos_series throttle_held 1 constructor))).
Proof.
  apply (runway_holds_altitude sin_series cos_series throttle_held 1
           constructor).
  - vm_compute; discriminate.
  - vm_compute; reflexivity.
Defined.

Lemma stall_sinks_witness :
  Vector3.y
    (position
       (fst (update sin_series cos_series no_input frame (airborne 0.2))))
  == Qmax (10 - 0.75 * frame) 0.8.
Proof.
  assert (S : isStalling
                (fst (update sin_series cos_series no_input frame
                        (airborne 0.2))) = true)
    by (rewrite update_isStalling; vm_compute; reflexivity).
  assert (H1 : stallSpeed (airborne 0.2) <= 0.4)
    by (vm_compute; discriminate).
  assert (H2 : 0 <= frame) by (vm_compute; discriminate).
  assert (H3 : Vector3.y (position (airborne 0.2)) <= 200)
    by (vm_compute; discriminate).
  exact (stall_sinks sin_series cos_series no_input frame (airborne 0.2)
           S H1 H2 H3).
Defined.

Lemma level_flight_holds_witness :
  steady_level
    (fst (update sin_series cos_series throttle_held frame constructor)).
Proof.
  apply (level_flight_holds sin_series cos_series throttle_held frame
           constructor).
  - unfold axes_released; cbn; repeat split; reflexivity.
  - right. split; vm_compute; discriminate.
  - unfold steady_level; cbn.
    split; [|split; [|split]]; repeat split; reflexivity.
Defined.

Lemma hands_off_stays_level_witness :
  steady_level
    (fst (update sin_series cos_series throttle_held 1 constructor)).
Proof.
  refine (proj1 (hands_off_stays_level sin_series cos_series _ _)).
  apply hands_off_step.
  - apply hands_off_init.
  - vm_compute; discriminate.
  - unfold axes_released; cbn; repeat split; reflexivity.
Defined.

Lemma bounds_stage_idempotent_witness : bounds_stage cruising = cruising.
Proof.
  apply (proj1 (bounds_stage_idempotent cruising));
    try split; vm_compute; discriminate.
Defined.

Lemma release_undoes_press_witness :
  handleKeyUp "KeyW" (handleKeyDown "KeyW" no_input)
  = handleKeyUp "KeyW" no_input.
Proof.
  refine (proj1 (release_undoes_press "KeyW" no_input) _). discriminate.
Defined.

Lemma key_handlers_frame_witness :
  handleKeyDown "Space" throttle_held = throttle_held
  /\ handleKeyUp "Space" throttle_held = throttle_held.
Proof.
  refine (proj1 (key_handlers_frame "Space" throttle_held) _).
  unfold known_codes. cbn [In]. intuition discriminate.
Defined.

Lemma camera_in_range_witness :
  CameraControls.mouseX
    (pointers [MouseMove 40 (-25); Wheel 120; MouseUp] cameraControlsRef)
  = 0
  /\ CameraControls.mouseY
       (pointers [MouseMove 40 (-25); Wheel 120; MouseUp]
          cameraControlsRef)
     = 0.
Proof.
  refine (proj2 (camera_in_range
                   [MouseMove 40 (-25); Wheel 120; MouseUp]) _).
  cbn [In]. intuition discriminate.
Defined.

Lemma audio_ranges_witness :
  within 120 400
    (engineRPM
       (fst (play sin_series cos_series [KeyDown "KeyW"; Frame]
               (constructor, controlsRef)))).
Proof.
  refine (proj1 (proj1 (audio_ranges sin_series cos_series _ _))).
  exists [KeyDown "KeyW"; Frame]. reflexivity.
Defined.

Lemma throttle_lever_witness :
  throttle
    (fst (play sin_series cos_series
            (KeyDown "KeyW" :: repeat Frame 3
             ++ KeyUp "KeyW" :: repeat Frame 2)
            (constructor, controlsRef)))
  == Qmin (inject_Z (Z.of_nat 3) * 0.008) 1.
Proof.
  refine (proj1 (throttle_lever sin_series cos_series 3 2 controlsRef
                   constructor _ _)); reflexivity.
Defined.

Lemma gear_request_witness :
  isGearDown
    (fst (play sin_series cos_series
            ([KeyDown "KeyL"; KeyDown "KeyL"; KeyUp "KeyL"] ++ [Frame])
            (constructor, controlsRef)))
  = negb (isGearDown constructor).
Proof.
  refine (proj1 (gear_request sin_series cos_series
                   [KeyDown "KeyL"; KeyDown "KeyL"; KeyUp "KeyL"]
                   (constructor, controlsRef) _) _).
  - cbn [In]. intuition discriminate.
  - right. left. reflexivity.
Defined.


Lemma no_authority_when_slow_witness :
  Vector3.x
    (angularVelocity
       (fst (update sin_series cos_series
               (handleKeyDown "KeyR" controlsRef) frame constructor)))
  = Vector3.x (angularVelocity constructor) * Qmax 0 (1 - 2.8 * frame).
Proof.
  refine (proj1 (no_authority_when_slow sin_series cos_series
                   (handleKeyDown "KeyR" controlsRef) frame constructor
                   _ _ _)); vm_compute; discriminate.
Defined.

Lemma chase_camera_level_witness :
  within
    (Vector3.y (position constructor) - 2)
    (Vector3.y (position constructor) + 18)
    (Vector3.y
       (cameraPosition sin_series cos_series
          (pointers [MouseDown; MouseMove 30 (-400); MouseUp; Wheel 250]
             cameraControlsRef)
          constructor)).
Proof.
  refine (proj1 (chase_camera_level sin_series cos_series
                   [MouseDown; MouseMove 30 (-400); MouseUp; Wheel 250]
                   constructor _ _ _)).
  - intros q H. unfold cos_series. rewrite Qred_correct, H. reflexivity.
  - intros q H. unfold sin_series. rewrite Qred_correct, H. reflexivity.
  - apply hands_off_init.
Defined.
